(** * RuneScape player-count queries: bucketing, aggregation and snapshots

    A shallow embedding of [queries.py], with the table layout of
    [models.py], the activity clean-up and [main] of
    [runescapeplayercount.py], and the report of [query_yesterday.py].

    The query functions of the source build SQL expressions through
    SQLAlchemy's [func] namespace and run them on SQLite.  An SQL
    expression over a row is embedded as the Rocq function that evaluates
    it on that row, an SQL query as the list of rows it returns.

    Conventions of the embedding:
    - an SQL value is [SqlNull], an INTEGER (in [Z]), a REAL (an exact
      rational in [Q]; the engine holds the nearest double) or a TEXT;
    - a nullable column is an [option]; [DateTime] columns hold a Python
      [datetime], which SQLAlchemy stores as fixed-width text, so that the
      engine's text comparison of two stored instants is the
      chronological one;
    - [strftime] prints the date and time fields of the stored text and
      takes the weekday from the instant rounded to the millisecond; the
      last half millisecond of the year 9999, which the engine rounds out
      of its range of dates, is not modelled;
    - a Python exception is the [Raise] case of [result]. *)

From Stdlib Require Import ZArith QArith List Bool Ascii String Lia.
From Stdlib Require Import Permutation Sorted.
Import ListNotations.

Local Open Scope string_scope.
Local Open Scope list_scope.
Local Open Scope Z_scope.

(** ** Python side: enumerations, exceptions, dictionaries *)

Inductive PyExc : Type :=
| KeyError (key : string).

Inductive result (A : Type) : Type :=
| Ok (a : A)
| Raise (e : PyExc).

Arguments Ok {A} a.
Arguments Raise {A} e.

Definition bind {A B : Type} (r : result A) (k : A -> result B) : result B :=
  match r with
  | Ok a => k a
  | Raise e => Raise e
  end.

Notation "'let*' x ':=' r 'in' k" := (bind r (fun x => k))
  (at level 10, x name, r at level 100, k at level 200).

Inductive Granularity : Type :=
| FIVE_MIN | FIFTEEN_MIN | THIRTY_MIN | HOURLY | DAILY | WEEKLY | MONTHLY.

Inductive Aggregation : Type :=
| AVERAGE | PEAK.

(** Both enumerations mix in [str]: a member hashes and compares as its
    value, which is what a dictionary lookup and [==] see. *)
Definition Granularity_value (g : Granularity) : string :=
  match g with
  | FIVE_MIN => "5min"
  | FIFTEEN_MIN => "15min"
  | THIRTY_MIN => "30min"
  | HOURLY => "hourly"
  | DAILY => "daily"
  | WEEKLY => "weekly"
  | MONTHLY => "monthly"
  end.

Definition Aggregation_value (a : Aggregation) : string :=
  match a with
  | AVERAGE => "average"
  | PEAK => "peak"
  end.

(** A dictionary literal with [str] keys, and subscripting [d[k]]. *)
Fixpoint dict_get {V : Type} (d : list (string * V)) (k : string) : option V :=
  match d with
  | [] => None
  | (k', v) :: d' => if String.eqb k' k then Some v else dict_get d' k
  end.

Definition subscript {V : Type} (d : list (string * V)) (k : string) : result V :=
  match dict_get d k with
  | Some v => Ok v
  | None => Raise (KeyError k)
  end.

(** ** Instants *)

Record DateTime : Type := mkDateTime {
  year : Z; month : Z; day : Z;
  hour : Z; minute : Z; second : Z; microsecond : Z
}.

Definition is_leap (y : Z) : bool :=
  (y mod 4 =? 0) && (negb (y mod 100 =? 0) || (y mod 400 =? 0)).

Definition days_in_month (y m : Z) : Z :=
  if m =? 2 then (if is_leap y then 29 else 28)
  else if (m =? 4) || (m =? 6) || (m =? 9) || (m =? 11) then 30
  else 31.

(** Days of the year before the first of month [m]. *)
Definition days_before_month (y m : Z) : Z :=
  let leap := if is_leap y then 1 else 0 in
  if m <=? 1 then 0
  else if m =? 2 then 31
  else if m =? 3 then 59 + leap
  else if m =? 4 then 90 + leap
  else if m =? 5 then 120 + leap
  else if m =? 6 then 151 + leap
  else if m =? 7 then 181 + leap
  else if m =? 8 then 212 + leap
  else if m =? 9 then 243 + leap
  else if m =? 10 then 273 + leap
  else if m =? 11 then 304 + leap
  else 334 + leap.

(** Days before the first of January of year [y], counted from
    0001-01-01 in the proleptic Gregorian calendar. *)
Definition days_before_year (y : Z) : Z :=
  let p := y - 1 in p * 365 + p / 4 - p / 100 + p / 400.

Definition toordinal (t : DateTime) : Z :=
  days_before_year (year t) + days_before_month (year t) (month t) + day t.

(** Days since Monday: 0001-01-01, of ordinal 1, is a Monday. *)
Definition weekday (t : DateTime) : Z := (toordinal t + 6) mod 7.

(** Days since the first of January. *)
Definition day_of_year0 (t : DateTime) : Z :=
  days_before_month (year t) (month t) + day t - 1.

(** The values a Python [datetime] can hold. *)
Definition valid_datetime (t : DateTime) : bool :=
  (1 <=? year t) && (year t <=? 9999) &&
  (1 <=? month t) && (month t <=? 12) &&
  (1 <=? day t) && (day t <=? days_in_month (year t) (month t)) &&
  (0 <=? hour t) && (hour t <=? 23) &&
  (0 <=? minute t) && (minute t <=? 59) &&
  (0 <=? second t) && (second t <=? 59) &&
  (0 <=? microsecond t) && (microsecond t <=? 999999).

(** Chronological comparison, field by field. *)
Definition lex (c : comparison) (k : comparison) : comparison :=
  match c with
  | Eq => k
  | _ => c
  end.

Definition datetime_compare (a b : DateTime) : comparison :=
  lex (year a ?= year b)
 (lex (month a ?= month b)
 (lex (day a ?= day b)
 (lex (hour a ?= hour b)
 (lex (minute a ?= minute b)
 (lex (second a ?= second b)
      (microsecond a ?= microsecond b)))))).

Definition datetime_leb (a b : DateTime) : bool :=
  match datetime_compare a b with
  | Gt => false
  | _ => true
  end.

Definition datetime_eqb (a b : DateTime) : bool :=
  match datetime_compare a b with
  | Eq => true
  | _ => false
  end.

(** ** Decimal output *)

Definition digit_char (d : Z) : ascii := ascii_of_nat (48 + Z.to_nat d).

(** The decimal digits of [n >= 0], most significant first. *)
Fixpoint udigits (fuel : nat) (n : Z) (acc : string) : string :=
  let acc' := String (digit_char (n mod 10)) acc in
  match fuel with
  | O => acc'
  | S fuel' => if n <? 10 then acc' else udigits fuel' (n / 10) acc'
  end.

Definition decimal (n : Z) : string :=
  udigits (Z.to_nat (Z.log2 n)) n EmptyString.

Fixpoint zeros (k : nat) : string :=
  match k with
  | O => EmptyString
  | S k' => String "0" (zeros k')
  end.

(** C's ["%0<w>d"]: sign first, then zeros up to the width, then digits. *)
Definition printf_0d (w : nat) (z : Z) : string :=
  let sign := if z <? 0 then "-" else EmptyString in
  let ds := decimal (Z.abs z) in
  (sign ++ zeros (w - String.length sign - String.length ds) ++ ds)%string.

(** ** SQLite values and operators *)

Inductive SqlValue : Type :=
| SqlNull
| SqlInteger (z : Z)
| SqlReal (q : Q)
| SqlText (s : string).

(** [strftime] works on the instant as a count of milliseconds: the
    seconds of the stored text, fraction included, are rounded to the
    nearest millisecond, halves up, and added to the hours and minutes. *)
Definition millisecond_of_day (t : DateTime) : Z :=
  hour t * 3600000 + minute t * 60000
  + (second t * 1000000 + microsecond t + 500) / 1000.

(** The weekday [strftime] uses, in days since Monday: it is taken from
    the rounded instant, so from 23:59:59.999500 on it is the weekday of
    the next day. *)
Definition strftime_weekday (t : DateTime) : Z :=
  (toordinal t + 6 + millisecond_of_day t / 86400000) mod 7.

(** The conversions of [strftime] that the formats of this file use.
    The date and time fields are printed as the stored text has them, and
    the day of the year is counted between calendar days; only the
    weekday behind [%W] comes from the rounded instant. *)
Definition strftime_conversion (c : ascii) (t : DateTime) : option string :=
  if Ascii.eqb c "Y" then Some (printf_0d 4 (year t))
  else if Ascii.eqb c "m" then Some (printf_0d 2 (month t))
  else if Ascii.eqb c "d" then Some (printf_0d 2 (day t))
  else if Ascii.eqb c "H" then Some (printf_0d 2 (hour t))
  else if Ascii.eqb c "M" then Some (printf_0d 2 (minute t))
  else if Ascii.eqb c "S" then Some (printf_0d 2 (second t))
  else if Ascii.eqb c "j" then Some (printf_0d 3 (day_of_year0 t + 1))
  else if Ascii.eqb c "W" then
    (* week of the year, 00-53: the first Monday opens week 1 *)
    Some (printf_0d 2 ((day_of_year0 t + 7 - strftime_weekday t) / 7))
  else if Ascii.eqb c "%" then Some "%"
  else None.

Fixpoint strftime (fmt : string) (t : DateTime) : option string :=
  match fmt with
  | EmptyString => Some EmptyString
  | String c rest =>
      if Ascii.eqb c "%" then
        match rest with
        | EmptyString => None
        | String c' rest' =>
            match strftime_conversion c' t, strftime rest' t with
            | Some s, Some r => Some (s ++ r)%string
            | _, _ => None
            end
        end
      else
        match strftime rest t with
        | Some r => Some (String c r)
        | None => None
        end
  end.

(** [func.strftime(fmt, col)]: NULL for a NULL column or a format the
    engine rejects. *)
Definition func_strftime (fmt : string) (col : option DateTime) : SqlValue :=
  match col with
  | None => SqlNull
  | Some t =>
      match strftime fmt t with
      | Some s => SqlText s
      | None => SqlNull
      end
  end.

Definition is_digit (c : ascii) : bool :=
  (48 <=? nat_of_ascii c)%nat && (nat_of_ascii c <=? 57)%nat.

Definition is_space (c : ascii) : bool :=
  Ascii.eqb c " " || ((9 <=? nat_of_ascii c)%nat && (nat_of_ascii c <=? 13)%nat).

Fixpoint digits_prefix (s : string) (acc : Z) : Z :=
  match s with
  | EmptyString => acc
  | String c rest =>
      if is_digit c
      then digits_prefix rest (10 * acc + (Z.of_nat (nat_of_ascii c) - 48))
      else acc
  end.

Fixpoint skip_spaces (s : string) : string :=
  match s with
  | EmptyString => EmptyString
  | String c rest => if is_space c then skip_spaces rest else s
  end.

(** The integer that a TEXT stands for under a numeric operator: leading
    blanks, a sign, then the longest run of digits (0 if there is none).
    A run continued by a fraction or an exponent would make a REAL; the
    texts that reach an operator in this file continue with ['-'] or
    [':'] (see [time_bucket_operands_shape]). *)
Definition integer_prefix (s : string) : Z :=
  match skip_spaces s with
  | String "-" rest => - digits_prefix rest 0
  | String "+" rest => digits_prefix rest 0
  | s' => digits_prefix s' 0
  end.

(** Numeric affinity applied to an operand of [+], [*] and [/]. *)
Definition to_numeric (v : SqlValue) : SqlValue :=
  match v with
  | SqlText s => SqlInteger (integer_prefix s)
  | _ => v
  end.

Definition sql_add (a b : SqlValue) : SqlValue :=
  match to_numeric a, to_numeric b with
  | SqlInteger x, SqlInteger y => SqlInteger (x + y)
  | SqlInteger x, SqlReal q => SqlReal (inject_Z x + q)
  | SqlReal p, SqlInteger y => SqlReal (p + inject_Z y)
  | SqlReal p, SqlReal q => SqlReal (p + q)
  | _, _ => SqlNull
  end.

Definition sql_mul (a b : SqlValue) : SqlValue :=
  match to_numeric a, to_numeric b with
  | SqlInteger x, SqlInteger y => SqlInteger (x * y)
  | SqlInteger x, SqlReal q => SqlReal (inject_Z x * q)
  | SqlReal p, SqlInteger y => SqlReal (p * inject_Z y)
  | SqlReal p, SqlReal q => SqlReal (p * q)
  | _, _ => SqlNull
  end.

(** Division by zero is NULL; two INTEGERs divide truncating. *)
Definition sql_div (a b : SqlValue) : SqlValue :=
  match to_numeric a, to_numeric b with
  | SqlInteger x, SqlInteger y =>
      if y =? 0 then SqlNull else SqlInteger (Z.quot x y)
  | SqlInteger x, SqlReal q =>
      if Qeq_bool q 0 then SqlNull else SqlReal (inject_Z x / q)
  | SqlReal p, SqlInteger y =>
      if y =? 0 then SqlNull else SqlReal (p / inject_Z y)
  | SqlReal p, SqlReal q =>
      if Qeq_bool q 0 then SqlNull else SqlReal (p / q)
  | _, _ => SqlNull
  end.

Definition Qtruncate (q : Q) : Z := Z.quot (Qnum q) (Z.pos (Qden q)).

(** [CAST(v AS INTEGER)]. *)
Definition cast_integer (v : SqlValue) : SqlValue :=
  match v with
  | SqlNull => SqlNull
  | SqlInteger z => SqlInteger z
  | SqlReal q => SqlInteger (Qtruncate q)
  | SqlText s => SqlInteger (integer_prefix s)
  end.

(** The integer a [%d] conversion of [printf] reads from its argument. *)
Definition value_int (v : SqlValue) : Z :=
  match cast_integer v with
  | SqlInteger z => z
  | _ => 0
  end.

(** [func.printf(fmt, v)] for formats made of [%02d] and plain text. *)
Fixpoint printf (fmt : string) (v : SqlValue) : string :=
  match fmt with
  | String "%" (String "0" (String "2" (String "d" rest))) =>
      (printf_0d 2 (value_int v) ++ printf rest v)%string
  | String c rest => String c (printf rest v)
  | EmptyString => EmptyString
  end.

Definition func_printf (fmt : string) (v : SqlValue) : SqlValue :=
  SqlText (printf fmt v).

(** The ordering of GROUP BY and ORDER BY: NULL first, then numbers by
    value, then texts byte by byte. *)
Definition sql_compare (a b : SqlValue) : comparison :=
  match a, b with
  | SqlNull, SqlNull => Eq
  | SqlNull, _ => Lt
  | _, SqlNull => Gt
  | SqlInteger x, SqlInteger y => x ?= y
  | SqlInteger x, SqlReal q => (inject_Z x ?= q)%Q
  | SqlReal p, SqlInteger y => (p ?= inject_Z y)%Q
  | SqlReal p, SqlReal q => (p ?= q)%Q
  | SqlText s, SqlText t => String.compare s t
  | SqlText _, _ => Gt
  | _, SqlText _ => Lt
  end.

(** The value of a nullable TEXT column. *)
Definition text_column (c : option string) : SqlValue :=
  match c with
  | None => SqlNull
  | Some s => SqlText s
  end.

Definition is_Eq (c : comparison) : bool :=
  match c with
  | Eq => true
  | _ => false
  end.

(** ** Aggregate functions over the values of one group *)

Definition Zsum (l : list Z) : Z := fold_right Z.add 0 l.

Definition Zmaximum (x : Z) (l : list Z) : Z := fold_left Z.max l x.

(** [func.avg]: always a REAL on a non-empty group. *)
Definition func_avg (vals : list Z) : SqlValue :=
  match vals with
  | [] => SqlNull
  | _ :: _ => SqlReal (Qred (Zsum vals # Pos.of_nat (List.length vals)))
  end.

Definition func_max (vals : list Z) : SqlValue :=
  match vals with
  | [] => SqlNull
  | x :: l => SqlInteger (Zmaximum x l)
  end.

Definition func_sum (vals : list Z) : SqlValue :=
  match vals with
  | [] => SqlNull
  | _ :: _ => SqlInteger (Zsum vals)
  end.

Definition func_count {A : Type} (ids : list A) : SqlValue :=
  SqlInteger (Z.of_nat (List.length ids)).

(** ** GROUP BY and ORDER BY *)

Section Grouping.
Context {R K : Type}.
Variable cmp : K -> K -> comparison.
Variable key : R -> K.

(** Ascending insertion of a key into a duplicate-free list. *)
Fixpoint insert_key (k : K) (ks : list K) : list K :=
  match ks with
  | [] => [k]
  | k' :: ks' =>
      match cmp k k' with
      | Lt => k :: ks
      | Eq => ks
      | Gt => k' :: insert_key k ks'
      end
  end.

Definition distinct_keys (rows : list R) : list K :=
  fold_right (fun r acc => insert_key (key r) acc) [] rows.

Definition rows_of (k : K) (rows : list R) : list R :=
  filter (fun r => is_Eq (cmp (key r) k)) rows.

(** [GROUP BY key ORDER BY key]: one group per distinct key, ascending,
    each with its rows in table order. *)
Definition group_by (rows : list R) : list (K * list R) :=
  map (fun k => (k, rows_of k rows)) (distinct_keys rows).
End Grouping.

Section Ordering.
Context {A : Type}.
Variable f : A -> SqlValue.

Fixpoint insert_desc (x : A) (l : list A) : list A :=
  match l with
  | [] => [x]
  | y :: l' =>
      match sql_compare (f x) (f y) with
      | Lt => y :: insert_desc x l'
      | _ => x :: l
      end
  end.

(** [ORDER BY f DESC]; rows that tie keep their relative order. *)
Definition order_by_desc (l : list A) : list A :=
  fold_right insert_desc [] l.
End Ordering.

(** ** Tables ([models.py]) *)

Module PlayerCount.
Record t : Type := mk {
  id : Z;
  player_count : Z;
  game : string;
  timestamp : option DateTime
}.
End PlayerCount.

Module PlayerCountByWorld.
Record t : Type := mk {
  id : Z;
  world : string;
  players : Z;
  location : option string;
  type : option string;
  activity : option string;
  timestamp : option DateTime
}.
End PlayerCountByWorld.

Record Session : Type := mkSession {
  playercount : list PlayerCount.t;
  playercountbyworld : list PlayerCountByWorld.t
}.

(** ** SQLAlchemy operators on [func] expressions

    [func.strftime(...)] and [func.printf(...)] are functions SQLAlchemy
    does not know, so the expressions carry no SQL type (NullType).
    Python's [+] becomes the concatenation [||] only when an operand has a
    string type; between two untyped expressions it is rendered as the SQL
    operator [+], and SQLite's [+] is numeric: a text operand stands for
    the number it starts with. *)
Definition sa_add (a b : SqlValue) : SqlValue := sql_add a b.

Definition sa_mul (a b : SqlValue) : SqlValue := sql_mul a b.

(** Python's [/] on an Integer expression is rendered as [a / b] by the
    1.x releases of SQLAlchemy and as [a / (b + 0.0)] by the 2.x ones; the
    repository does not pin a release, so the rendering is a parameter. *)
Inductive DivisionRendering : Type :=
| PlainSlash
| SlashPlusZero.

Definition sa_truediv (dv : DivisionRendering) (a b : SqlValue) : SqlValue :=
  match dv with
  | PlainSlash => sql_div a b
  | SlashPlusZero => sql_div a (sql_add b (SqlReal 0))
  end.

(** [func.cast(e, SAInteger)] is SQLAlchemy's CAST construct. *)
Definition func_cast_integer (v : SqlValue) : SqlValue := cast_integer v.

(** ** [queries.py] *)

Definition _BUCKET_FORMAT : list (string * option string) :=
  [ (Granularity_value FIVE_MIN, None);
    (Granularity_value FIFTEEN_MIN, None);
    (Granularity_value THIRTY_MIN, None);
    (Granularity_value HOURLY, Some "%Y-%m-%d %H:00:00");
    (Granularity_value DAILY, Some "%Y-%m-%d");
    (Granularity_value WEEKLY, Some "%Y-%W");
    (Granularity_value MONTHLY, Some "%Y-%m") ].

(** The dictionary that [_time_bucket] builds and subscripts for a
    sub-hour granularity. *)
Definition _SUB_HOUR_MINUTES : list (string * Z) :=
  [ (Granularity_value FIVE_MIN, 5);
    (Granularity_value FIFTEEN_MIN, 15);
    (Granularity_value THIRTY_MIN, 30) ].

(** The SQL expression built by [_time_bucket], as its value on the
    timestamp column of a row. *)
Definition _time_bucket (dv : DivisionRendering) (granularity : string)
  : result (option DateTime -> SqlValue) :=
  let* fmt := subscript _BUCKET_FORMAT granularity in
  match fmt with
  | Some fmt => Ok (fun timestamp_col => func_strftime fmt timestamp_col)
  | None =>
      let* minutes := subscript _SUB_HOUR_MINUTES granularity in
      Ok (fun timestamp_col =>
            sa_add
              (func_strftime "%Y-%m-%d %H:" timestamp_col)
              (func_printf "%02d:00"
                 (sa_mul
                    (sa_truediv dv
                       (func_cast_integer (func_strftime "%M" timestamp_col))
                       (SqlInteger minutes))
                    (SqlInteger minutes))))
  end.

Definition _agg_func (agg : string) : list Z -> SqlValue :=
  if String.eqb agg (Aggregation_value AVERAGE) then func_avg else func_max.

(** [col >= start AND col <= end]; a NULL column satisfies neither. *)
Definition between (start end_ : DateTime) (col : option DateTime) : bool :=
  match col with
  | None => false
  | Some t => datetime_leb start t && datetime_leb t end_
  end.

Definition player_count_timeseries (dv : DivisionRendering) (session : Session)
    (game : string) (start end_ : DateTime) (granularity agg : string)
  : result (list (SqlValue * SqlValue)) :=
  let* bucket := _time_bucket dv granularity in
  let agg_fn := _agg_func agg in
  Ok (map (fun g => (fst g, agg_fn (map PlayerCount.player_count (snd g))))
        (group_by sql_compare (fun r => bucket (PlayerCount.timestamp r))
           (filter (fun r => String.eqb (PlayerCount.game r) game
                             && between start end_ (PlayerCount.timestamp r))
              (playercount session)))).

Definition combined_total_timeseries (dv : DivisionRendering) (session : Session)
    (start end_ : DateTime) (granularity agg : string)
  : result (list (SqlValue * SqlValue)) :=
  let* bucket := _time_bucket dv granularity in
  let agg_fn := _agg_func agg in
  Ok (map (fun g => (fst g, agg_fn (map PlayerCount.player_count (snd g))))
        (group_by sql_compare (fun r => bucket (PlayerCount.timestamp r))
           (filter (fun r => between start end_ (PlayerCount.timestamp r))
              (playercount session)))).

(** Ordering of a two-column GROUP BY key. *)
Definition pair_compare (a b : SqlValue * SqlValue) : comparison :=
  lex (sql_compare (fst a) (fst b)) (sql_compare (snd a) (snd b)).

Definition player_count_by_type (dv : DivisionRendering) (session : Session)
    (start end_ : DateTime) (granularity agg : string)
  : result (list (SqlValue * SqlValue * SqlValue)) :=
  let* bucket := _time_bucket dv granularity in
  Ok (map (fun g => (fst g, func_sum (map PlayerCountByWorld.players (snd g))))
        (group_by pair_compare
           (fun r => (bucket (PlayerCountByWorld.timestamp r),
                      text_column (PlayerCountByWorld.type r)))
           (filter (fun r => between start end_ (PlayerCountByWorld.timestamp r))
              (playercountbyworld session)))).

Definition player_count_by_region (dv : DivisionRendering) (session : Session)
    (start end_ : DateTime) (granularity agg : string)
  : result (list (SqlValue * SqlValue * SqlValue)) :=
  let* bucket := _time_bucket dv granularity in
  Ok (map (fun g => (fst g, func_sum (map PlayerCountByWorld.players (snd g))))
        (group_by pair_compare
           (fun r => (bucket (PlayerCountByWorld.timestamp r),
                      text_column (PlayerCountByWorld.location r)))
           (filter (fun r => between start end_ (PlayerCountByWorld.timestamp r))
              (playercountbyworld session)))).

Definition player_count_by_world (dv : DivisionRendering) (session : Session)
    (world : string) (start end_ : DateTime) (granularity agg : string)
  : result (list (SqlValue * SqlValue)) :=
  let* bucket := _time_bucket dv granularity in
  let agg_fn := _agg_func agg in
  Ok (map (fun g => (fst g, agg_fn (map PlayerCountByWorld.players (snd g))))
        (group_by sql_compare (fun r => bucket (PlayerCountByWorld.timestamp r))
           (filter (fun r => String.eqb (PlayerCountByWorld.world r) world
                             && between start end_ (PlayerCountByWorld.timestamp r))
              (playercountbyworld session)))).

(** [func.max] over a nullable DateTime column: NULLs are skipped. *)
Fixpoint max_timestamp (col : list (option DateTime)) : option DateTime :=
  match col with
  | [] => None
  | None :: col' => max_timestamp col'
  | Some t :: col' =>
      match max_timestamp col' with
      | None => Some t
      | Some m => if datetime_leb m t then Some t else Some m
      end
  end.

(** The columns selected by [world_snapshot]: world, players, location,
    type, activity, timestamp. *)
Record SnapshotRow : Type := mkSnapshotRow {
  row_world : string;
  row_players : Z;
  row_location : option string;
  row_type : option string;
  row_activity : option string;
  row_timestamp : option DateTime
}.

Definition snapshot_columns (r : PlayerCountByWorld.t) : SnapshotRow :=
  mkSnapshotRow (PlayerCountByWorld.world r) (PlayerCountByWorld.players r)
    (PlayerCountByWorld.location r) (PlayerCountByWorld.type r)
    (PlayerCountByWorld.activity r) (PlayerCountByWorld.timestamp r).

Definition timestamp_is (ts : DateTime) (col : option DateTime) : bool :=
  match col with
  | None => false
  | Some t => datetime_eqb t ts
  end.

Definition world_snapshot (session : Session) (timestamp : option DateTime)
  : list SnapshotRow :=
  let timestamp :=
    match timestamp with
    | None => max_timestamp (map PlayerCountByWorld.timestamp (playercountbyworld session))
    | Some ts => Some ts
    end in
  match timestamp with
  | None => []
  | Some ts =>
      order_by_desc (fun r => SqlInteger (row_players r))
        (map snapshot_columns
           (filter (fun r => timestamp_is ts (PlayerCountByWorld.timestamp r))
              (playercountbyworld session)))
  end.

(** The rows of [player_count_by_activity]: activity, total_players,
    snapshot_count. *)
Definition player_count_by_activity (session : Session) (start end_ : DateTime)
  : list (SqlValue * SqlValue * SqlValue) :=
  order_by_desc (fun row => snd (fst row))
    (map (fun g => (fst g,
                    func_sum (map PlayerCountByWorld.players (snd g)),
                    func_count (map PlayerCountByWorld.id (snd g))))
       (group_by sql_compare (fun r => text_column (PlayerCountByWorld.activity r))
          (filter (fun r => between start end_ (PlayerCountByWorld.timestamp r))
             (playercountbyworld session)))).

(** ** [runescapeplayercount.py] *)

(** The clean-up of the Activity column in [players_by_world]: the
    placeholders ['-'] and the empty string, and a missing cell, become
    the label [No Activity]. *)
Definition clean_activity (raw : option string) : string :=
  match raw with
  | None => "No Activity"
  | Some s =>
      if String.eqb s "-" || String.eqb s EmptyString then "No Activity" else s
  end.

(** [session.add_all(rows); session.commit()] on the world table, as the
    scraper's [main] does with the rows of one scrape. *)
Definition add_all (session : Session) (rows : list PlayerCountByWorld.t)
  : Session :=
  mkSession (playercount session) (playercountbyworld session ++ rows).

(** One row of the DataFrame that [players_by_world] returns: World,
    Players, Location, Type and the cleaned Activity. *)
Record WorldRecord : Type := mkWorldRecord {
  World : string;
  Players : Z;
  Location : option string;
  Type_ : option string;
  Activity : string
}.

(** The key SQLite gives a row inserted without one: one more than the
    greatest key of the table, 1 in an empty table. *)
Definition next_id (ids : list Z) : Z :=
  match ids with
  | [] => 1
  | x :: l => 1 + Zmaximum x l
  end.

(** [session.add(PlayerCount(player_count=..., game=..., timestamp=...))]. *)
Definition add_player_count (session : Session) (player_count : Z)
    (game : string) (timestamp : DateTime) : Session :=
  mkSession
    (playercount session
       ++ [PlayerCount.mk (next_id (map PlayerCount.id (playercount session)))
             player_count game (Some timestamp)])
    (playercountbyworld session).

(** The rows that [main] builds from the records of the DataFrame, keyed
    from [first_id] on in the order of the DataFrame. *)
Fixpoint world_rows (first_id : Z) (world_df : list WorldRecord)
    (timestamp : DateTime) : list PlayerCountByWorld.t :=
  match world_df with
  | [] => []
  | row :: rest =>
      PlayerCountByWorld.mk first_id (World row) (Players row) (Location row)
        (Type_ row) (Some (Activity row)) (Some timestamp)
      :: world_rows (first_id + 1) rest timestamp
  end.

(** [main], from the three scrape results and the reading of the clock
    to the store it commits: the RS3 count is the reported combined count
    less the OSRS count, and exists only when both were scraped. *)
Definition main (session : Session) (combined_count osrs_count : option Z)
    (world_df : list WorldRecord) (timestamp : DateTime) : Session :=
  let rs3_count :=
    match combined_count, osrs_count with
    | Some c, Some o => Some (c - o)
    | _, _ => None
    end in
  let session :=
    match rs3_count with
    | Some n => add_player_count session n "RS3" timestamp
    | None => session
    end in
  let session :=
    match osrs_count with
    | Some n => add_player_count session n "OSRS" timestamp
    | None => session
    end in
  add_all session
    (world_rows (next_id (map PlayerCountByWorld.id (playercountbyworld session)))
       world_df timestamp).

(** ** [query_yesterday.py] *)

(** A Python [date]. *)
Record Date : Type := mkDate {
  date_year : Z; date_month : Z; date_day : Z
}.

Definition valid_date (d : Date) : bool :=
  (1 <=? date_year d) && (date_year d <=? 9999) &&
  (1 <=? date_month d) && (date_month d <=? 12) &&
  (1 <=? date_day d) && (date_day d <=? days_in_month (date_year d) (date_month d)).

(** [d - timedelta(days=1)]: the day before, [None] standing for the
    OverflowError raised below 0001-01-01. *)
Definition previous_day (d : Date) : option Date :=
  if 1 <? date_day d then
    Some (mkDate (date_year d) (date_month d) (date_day d - 1))
  else if 1 <? date_month d then
    Some (mkDate (date_year d) (date_month d - 1)
            (days_in_month (date_year d) (date_month d - 1)))
  else if 1 <? date_year d then
    Some (mkDate (date_year d - 1) 12 31)
  else None.

(** [datetime.combine(d, datetime.min.time())]. *)
Definition midnight (d : Date) : DateTime :=
  mkDateTime (date_year d) (date_month d) (date_day d) 0 0 0 0.

Definition datetime_ltb (a b : DateTime) : bool :=
  match datetime_compare a b with
  | Lt => true
  | _ => false
  end.

(** [case((type == label, players), else_=0)] on a row. *)
Definition players_if_type (label : string) (r : PlayerCountByWorld.t) : Z :=
  match PlayerCountByWorld.type r with
  | Some s => if String.eqb s label then PlayerCountByWorld.players r else 0
  | None => 0
  end.

Module QueryYesterday.

(** What [main] prints: nothing when the date arithmetic overflows, the
    no-data line, or the snapshot line with its three sums. *)
Inductive Report : Type :=
| OverflowError
| NoData (yesterday : Date)
| LastSnapshot (yesterday : Date) (latest_ts : DateTime)
    (total free members : SqlValue).

Definition main (session : Session) (today : Date) : Report :=
  match previous_day today with
  | None => OverflowError
  | Some yesterday =>
      let start := midnight yesterday in
      let end_ := midnight today in
      let latest_ts :=
        max_timestamp
          (map PlayerCountByWorld.timestamp
             (filter (fun r => match PlayerCountByWorld.timestamp r with
                               | Some t => datetime_ltb t end_
                               | None => false
                               end)
                (filter (fun r => match PlayerCountByWorld.timestamp r with
                                  | Some t => datetime_leb start t
                                  | None => false
                                  end)
                   (playercountbyworld session)))) in
      match latest_ts with
      | None => NoData yesterday
      | Some latest_ts =>
          let rows :=
            filter (fun r => timestamp_is latest_ts (PlayerCountByWorld.timestamp r))
              (playercountbyworld session) in
          LastSnapshot yesterday latest_ts
            (func_sum (map PlayerCountByWorld.players rows))
            (func_sum (map (players_if_type "Free") rows))
            (func_sum (map (players_if_type "Members") rows))
      end
  end.

End QueryYesterday.

(** * Statements

    The notions the properties below are stated with: the ordering of SQL
    values, the keys, windows and aggregates in the specification's words,
    and the stores of the worked examples. *)

(** The rational a numeric value stands for. *)
Definition numeric_value (v : SqlValue) : Q :=
  match v with
  | SqlInteger x => inject_Z x
  | SqlReal q => q
  | _ => 0%Q
  end.

(** Storage classes in their sort order. *)
Definition storage_class (v : SqlValue) : Z :=
  match v with
  | SqlNull => 0
  | SqlInteger _ | SqlReal _ => 1
  | SqlText _ => 2
  end.

Definition text_value (v : SqlValue) : string :=
  match v with
  | SqlText s => s
  | _ => EmptyString
  end.

(** On values other than REALs, the engine's equality is equality. *)
Definition not_real (v : SqlValue) : Prop :=
  match v with
  | SqlReal _ => False
  | _ => True
  end.

(** A comparison is an ordering when it is reflexive, antisymmetric,
    transitive and compatible with its own equivalence; the grouping
    lemmas below need no more. *)
Record Ordering {K : Type} (cmp : K -> K -> comparison) : Prop := {
  cmp_refl : forall a, cmp a a = Eq;
  cmp_antisym : forall a b, cmp a b = CompOpp (cmp b a);
  cmp_lt_trans : forall a b c, cmp a b = Lt -> cmp b c = Lt -> cmp a c = Lt;
  cmp_eq_compat : forall a b c, cmp a b = Eq -> cmp a c = cmp b c
}.

(** Strictly ascending keys, and rows in no ascending pair, under a
    comparison. *)
Definition below {K : Type} (cmp : K -> K -> comparison) (a b : K) : Prop :=
  cmp a b = Lt.

Definition not_below {A : Type} (f : A -> SqlValue) (a b : A) : Prop :=
  sql_compare (f a) (f b) <> Lt.

Definition Zrange (lo hi : Z) : list Z :=
  map (fun i => lo + Z.of_nat i) (seq 0 (Z.to_nat (hi - lo))).

(** The last [w] decimal digits of [n], most significant first. *)
Fixpoint fixed_digits (w : nat) (n : Z) (acc : string) : string :=
  match w with
  | O => acc
  | S w' => fixed_digits w' (n / 10) (String (digit_char (n mod 10)) acc)
  end.

(** Minutes per bucket of the sub-hour granularities. *)
Definition sub_hour_minutes (g : Granularity) : option Z :=
  match g with
  | FIVE_MIN => Some 5
  | FIFTEEN_MIN => Some 15
  | THIRTY_MIN => Some 30
  | _ => None
  end.

(** The sub-hour key in the specification's words: date and hour, the
    minute truncated down to a multiple of the bucket size, seconds zero,
    as [YYYY-MM-DD HH:MM:00]. *)
Definition sub_hour_key_spec (n : Z) (t : DateTime) : string :=
  (printf_0d 4 (year t) ++ "-" ++ printf_0d 2 (month t) ++ "-"
   ++ printf_0d 2 (day t) ++ " " ++ printf_0d 2 (hour t) ++ ":"
   ++ printf_0d 2 (n * (minute t / n)) ++ ":00")%string.

(** The minute that reaches [printf] when the column's minute is [m]. *)
Definition rendered_minute (dv : DivisionRendering) (n m : Z) : Z :=
  value_int (sa_mul (sa_truediv dv (SqlInteger m) (SqlInteger n)) (SqlInteger n)).

(** The instant of the worked examples: 2024-01-15 10:37:00. *)
Definition at_10_37 : DateTime := mkDateTime 2024 1 15 10 37 0 0.

Definition january_first (y : Z) : DateTime := mkDateTime y 1 1 0 0 0 0.

(** Days from the first of January to the year's first Monday. *)
Definition first_monday (y : Z) : Z := (7 - weekday (january_first y)) mod 7.

(** The week number in the specification's words: weeks are counted from
    the year's first Monday, and the days before it are in week 0. *)
Definition week_of_year_spec (t : DateTime) : Z :=
  if day_of_year0 t <? first_monday (year t) then 0
  else (day_of_year0 t - first_monday (year t)) / 7 + 1.

(** The instants of the last half millisecond of a day, which the engine
    rounds to the first instant of the next day. *)
Definition rounds_to_next_day (t : DateTime) : bool :=
  (hour t =? 23) && (minute t =? 59) && (second t =? 59)
  && (999500 <=? microsecond t).

(** Monday 2024-01-15 and Sunday 2025-01-05, each 400 microseconds before
    midnight, as [datetime.now()] can read the clock. *)
Definition monday_before_midnight : DateTime :=
  mkDateTime 2024 1 15 23 59 59 999600.

Definition sunday_before_midnight : DateTime :=
  mkDateTime 2025 1 5 23 59 59 999600.

(** The value the specification gives a bucket that holds [vals]: their
    arithmetic mean under AVERAGE, their maximum under PEAK. *)
Definition aggregate_spec (a : Aggregation) (vals : list Z) (v : SqlValue) : Prop :=
  match a with
  | AVERAGE =>
      exists q, v = SqlReal q /\
                (q * inject_Z (Z.of_nat (List.length vals)) == inject_Z (Zsum vals))%Q
  | PEAK =>
      exists m, v = SqlInteger m /\ In m vals /\ Forall (fun x => x <= m) vals
  end.

Definition ascending (keys : list SqlValue) : Prop :=
  StronglySorted (fun a b => sql_compare a b = Lt) keys.

(** A bucketed series over the selected rows [src]: every output row
    aggregates exactly the rows of its bucket, every selected row is in
    the bucket of some output row, and the buckets come in ascending
    order, each once. *)
Definition series_of {R : Type} (a : Aggregation) (bucket : R -> SqlValue)
    (value : R -> Z) (src : list R) (out : list (SqlValue * SqlValue)) : Prop :=
  (forall k v, In (k, v) out ->
     map value (rows_of sql_compare bucket k src) <> [] /\
     aggregate_spec a (map value (rows_of sql_compare bucket k src)) v) /\
  (forall r, In r src ->
     exists k v, In (k, v) out /\ sql_compare (bucket r) k = Eq) /\
  ascending (map fst out).

(** Three observations of world 301 within one hour: 10, 20 and 30. *)
Definition three_in_one_hour : Session :=
  mkSession []
    [ PlayerCountByWorld.mk 1 "301" 10 None None None
        (Some (mkDateTime 2024 1 15 10 5 0 0));
      PlayerCountByWorld.mk 2 "301" 20 None None None
        (Some (mkDateTime 2024 1 15 10 20 0 0));
      PlayerCountByWorld.mk 3 "301" 30 None None None
        (Some (mkDateTime 2024 1 15 10 40 0 0)) ].

(** Three observations in three different 5-minute windows: 10 at
    2024-01-15 10:00, 20 at 11:00 of the same day and 99 at 2024-06-01
    03:00, as OSRS counts and as readings of the Free world 301. *)
Definition at_10_00 : DateTime := mkDateTime 2024 1 15 10 0 0 0.

Definition at_11_00 : DateTime := mkDateTime 2024 1 15 11 0 0 0.

Definition in_june : DateTime := mkDateTime 2024 6 1 3 0 0 0.

Definition three_windows_apart : Session :=
  mkSession
    [ PlayerCount.mk 1 10 "OSRS" (Some at_10_00);
      PlayerCount.mk 2 20 "OSRS" (Some at_11_00);
      PlayerCount.mk 3 99 "OSRS" (Some in_june) ]
    [ PlayerCountByWorld.mk 1 "301" 10 (Some "Germany") (Some "Free") None
        (Some at_10_00);
      PlayerCountByWorld.mk 2 "301" 20 (Some "Germany") (Some "Free") None
        (Some at_11_00);
      PlayerCountByWorld.mk 3 "301" 99 (Some "Germany") (Some "Free") None
        (Some in_june) ].

(** The rows of [src] in bucket [b] and group [c]. *)
Definition rows_in {R : Type} (bucket group : R -> SqlValue) (b c : SqlValue)
    (src : list R) : list R :=
  filter (fun r => is_Eq (sql_compare (bucket r) b)
                   && is_Eq (sql_compare (group r) c)) src.

(** A summed series over the selected rows [src]: every output row
    carries the sum of the counts of the rows of its bucket and group,
    every selected row is counted in some output row, and each bucket and
    group comes once. *)
Definition sums_of {R : Type} (bucket group : R -> SqlValue) (value : R -> Z)
    (src : list R) (out : list (SqlValue * SqlValue * SqlValue)) : Prop :=
  (forall b c v, In (b, c, v) out ->
     rows_in bucket group b c src <> [] /\
     v = SqlInteger (Zsum (map value (rows_in bucket group b c src)))) /\
  (forall r, In r src ->
     exists b c v, In (b, c, v) out /\
                   sql_compare (bucket r) b = Eq /\ sql_compare (group r) c = Eq) /\
  StronglySorted (fun x y => pair_compare x y = Lt) (map fst out).

Definition datetime_lt (a b : DateTime) : Prop :=
  year a < year b \/ (year a = year b /\
  (month a < month b \/ (month a = month b /\
  (day a < day b \/ (day a = day b /\
  (hour a < hour b \/ (hour a = hour b /\
  (minute a < minute b \/ (minute a = minute b /\
  (second a < second b \/ (second a = second b /\
   microsecond a < microsecond b))))))))))).

Definition descending_by_players (rows : list SnapshotRow) : Prop :=
  StronglySorted (fun a b => row_players a >= row_players b) rows.

(** [m] is the greatest timestamp of the world table. *)
Definition latest_timestamp (session : Session) (m : DateTime) : Prop :=
  (exists r, In r (playercountbyworld session) /\
             PlayerCountByWorld.timestamp r = Some m) /\
  (forall r t, In r (playercountbyworld session) ->
               PlayerCountByWorld.timestamp r = Some t ->
               datetime_leb t m = true).

(** One scrape of three worlds, stamped 2024-01-15 10:37:00. *)
Definition scrape_at_10_37 : list PlayerCountByWorld.t :=
  [ PlayerCountByWorld.mk 4 "301" 120 (Some "United Kingdom") (Some "Free")
      (Some "No Activity") (Some at_10_37);
    PlayerCountByWorld.mk 5 "302" 950 (Some "United States") (Some "Members")
      (Some "Trade") (Some at_10_37);
    PlayerCountByWorld.mk 6 "303" 120 (Some "Germany") (Some "Members")
      (Some "No Activity") (Some at_10_37) ].

(** Every world row of the store was written by the scraper's [main],
    which stores the cleaned label. *)
Definition written_by_scraper (session : Session) : Prop :=
  forall r, In r (playercountbyworld session) ->
            exists raw, PlayerCountByWorld.activity r = Some (clean_activity raw).

(** A missing or placeholder activity label, or the label that stands
    for them. *)
Definition no_activity_label (v : SqlValue) : bool :=
  match v with
  | SqlNull => true
  | SqlText s =>
      String.eqb s "-" || String.eqb s EmptyString || String.eqb s "No Activity"
  | _ => false
  end.

Definition activity_of (row : SqlValue * SqlValue * SqlValue) : SqlValue :=
  fst (fst row).

Definition total_players_of (row : SqlValue * SqlValue * SqlValue) : SqlValue :=
  snd (fst row).

Definition snapshot_count_of (row : SqlValue * SqlValue * SqlValue) : SqlValue :=
  snd row.

(** A store with one row of NULL activity and one labelled No Activity. *)
Definition unlabelled_and_labelled : Session :=
  mkSession []
    [ PlayerCountByWorld.mk 1 "301" 40 None None None (Some at_10_37);
      PlayerCountByWorld.mk 2 "302" 25 None None (Some "No Activity")
        (Some at_10_37) ].

(** The rows selected by [player_count_by_activity]. *)
Definition rows_between (session : Session) (start end_ : DateTime)
  : list PlayerCountByWorld.t :=
  filter (fun r => between start end_ (PlayerCountByWorld.timestamp r))
    (playercountbyworld session).

(** The window of an instant in the specification's words: the calendar
    fields a bucket keeps, most significant first. *)
Definition window (g : Granularity) (t : DateTime) : list Z :=
  match g with
  | HOURLY => [year t; month t; day t; hour t]
  | DAILY => [year t; month t; day t]
  | WEEKLY => [year t; week_of_year_spec t]
  | MONTHLY => [year t; month t]
  | FIVE_MIN => [year t; month t; day t; hour t; 5 * (minute t / 5)]
  | FIFTEEN_MIN => [year t; month t; day t; hour t; 15 * (minute t / 15)]
  | THIRTY_MIN => [year t; month t; day t; hour t; 30 * (minute t / 30)]
  end.

Fixpoint list_compare (l1 l2 : list Z) : comparison :=
  match l1, l2 with
  | [], [] => Eq
  | [], _ :: _ => Lt
  | _ :: _, [] => Gt
  | x :: l1', y :: l2' => lex (x ?= y) (list_compare l1' l2')
  end.

Definition formatted (g : Granularity) : Prop :=
  g = HOURLY \/ g = DAILY \/ g = WEEKLY \/ g = MONTHLY.

(** The rows a bucketed series returns for the selected rows [src]: one
    per group, with the aggregate [F] of the group's values. *)
Definition grouped_series {R V : Type} (key : R -> SqlValue) (value : R -> Z)
    (F : list Z -> V) (src : list R) : list (SqlValue * V) :=
  map (fun g => (fst g, F (map value (snd g)))) (group_by sql_compare key src).

Definition is_Ok {A : Type} (r : result A) : Prop :=
  match r with
  | Ok _ => True
  | Raise _ => False
  end.

(** [v] lies between the integers [lo] and [hi], in the engine's order. *)
Definition within (lo : Z) (v : SqlValue) (hi : Z) : Prop :=
  sql_compare (SqlInteger lo) v <> Gt /\ sql_compare v (SqlInteger hi) <> Gt.

(** Players counted in a result of [player_count_by_type] or
    [player_count_by_region]. *)
Definition counted_players (out : list (SqlValue * SqlValue * SqlValue)) : Z :=
  Zsum (map (fun row => value_int (snd row)) out).

Definition has_timestamp (col : option DateTime) : bool :=
  match col with
  | Some _ => true
  | None => false
  end.

(** The store without the rows whose timestamp is NULL. *)
Definition without_null_timestamps (session : Session) : Session :=
  mkSession
    (filter (fun r => has_timestamp (PlayerCount.timestamp r)) (playercount session))
    (filter (fun r => has_timestamp (PlayerCountByWorld.timestamp r))
       (playercountbyworld session)).

Definition snapshot_of_record (timestamp : DateTime) (row : WorldRecord)
  : SnapshotRow :=
  mkSnapshotRow (World row) (Players row) (Location row) (Type_ row)
    (Some (Activity row)) (Some timestamp).

(** The DataFrame carries cleaned labels, as [players_by_world] leaves
    them. *)
Definition cleaned_labels (world_df : list WorldRecord) : Prop :=
  forall row, In row world_df -> exists raw, Activity row = clean_activity raw.

(** A world record of the worked examples. *)
Definition two_worlds : list WorldRecord :=
  [ mkWorldRecord "302" 950 (Some "United States") (Some "Members") "Trade";
    mkWorldRecord "301" 120 (Some "United Kingdom") (Some "Free") "No Activity" ].

Definition date_of (t : DateTime) : Date := mkDate (year t) (month t) (day t).

Definition date_ordinal (d : Date) : Z := toordinal (midnight d).

(** The world rows stamped from [start] on and before [end_]. *)
Definition rows_from_until (session : Session) (start end_ : DateTime)
  : list PlayerCountByWorld.t :=
  filter (fun r => match PlayerCountByWorld.timestamp r with
                   | Some t => datetime_ltb t end_
                   | None => false
                   end)
    (filter (fun r => match PlayerCountByWorld.timestamp r with
                      | Some t => datetime_leb start t
                      | None => false
                      end)
       (playercountbyworld session)).

(** All stored timestamps are values of a Python [datetime]. *)
Definition valid_timestamps (session : Session) : Prop :=
  forall r t, In r (playercountbyworld session) ->
              PlayerCountByWorld.timestamp r = Some t -> valid_datetime t = true.

(** The players of a row that is neither of type Free nor of type
    Members (its type may be NULL). *)
Definition players_if_other (r : PlayerCountByWorld.t) : Z :=
  match PlayerCountByWorld.type r with
  | Some s =>
      if String.eqb s "Free" || String.eqb s "Members" then 0
      else PlayerCountByWorld.players r
  | None => PlayerCountByWorld.players r
  end.

Definition bucket_of (row : SqlValue * SqlValue * SqlValue) : SqlValue :=
  fst (fst row).

(** By how many weeks the week number of [%W] is off in the last half
    millisecond of the day of [t]: in a year that opens on a Monday the
    days from Monday to Saturday fall one week back, in any other year
    the Sundays fall one week ahead. *)
Definition rounded_week_shift (t : DateTime) : Z :=
  if first_monday (year t) =? 0
  then (if weekday t =? 6 then 0 else -1)
  else (if weekday t =? 6 then 1 else 0).

(** The instants the engine can format: rounded to the millisecond they
    are no later than 9999-12-31 23:59:59.999. *)
Definition in_engine_range (t : DateTime) : bool :=
  negb ((year t =? 9999) && (month t =? 12) && (day t =? 31)
        && rounds_to_next_day t).

(** An instant whose bucket at granularity [g] is that of its calendar
    window: a value of a Python [datetime] that the engine can format
    and, for WEEKLY, that does not lie in the last half millisecond of
    its day. *)
Definition calendar_instant (g : Granularity) (t : DateTime) : Prop :=
  valid_datetime t = true /\ in_engine_range t = true /\
  (g = WEEKLY -> rounds_to_next_day t = false).

Definition calendar_timestamps {R : Type} (timestamp : R -> option DateTime)
    (g : Granularity) (rows : list R) : Prop :=
  forall r t, In r rows -> timestamp r = Some t -> calendar_instant g t.

(** The rows of [src] whose timestamp lies in the window [w], and those
    among them of group [c]. *)
Definition rows_in_window {R : Type} (timestamp : R -> option DateTime)
    (g : Granularity) (w : list Z) (src : list R) : list R :=
  filter (fun r => match timestamp r with
                   | Some t => is_Eq (list_compare (window g t) w)
                   | None => false
                   end) src.

Definition rows_in_window_and_group {R : Type} (timestamp : R -> option DateTime)
    (group : R -> SqlValue) (g : Granularity) (w : list Z) (c : SqlValue)
    (src : list R) : list R :=
  filter (fun r => is_Eq (sql_compare (group r) c))
    (rows_in_window timestamp g w src).

(** A series by window, in the specification's words: every output row
    is keyed by the bucket of a selected row and aggregates the counts of
    all selected rows in the window of that row; every selected row has
    an output row under its bucket; two selected rows have one bucket
    exactly when they have one window; the buckets ascend. *)
Definition series_by_window {R : Type} (a : Aggregation) (g : Granularity)
    (bucket : option DateTime -> SqlValue) (timestamp : R -> option DateTime)
    (value : R -> Z) (src : list R) (out : list (SqlValue * SqlValue)) : Prop :=
  (forall k v, In (k, v) out ->
     exists r t, In r src /\ timestamp r = Some t /\ k = bucket (Some t) /\
       aggregate_spec a
         (map value (rows_in_window timestamp g (window g t) src)) v) /\
  (forall r t, In r src -> timestamp r = Some t ->
     exists v, In (bucket (Some t), v) out) /\
  (forall r1 t1 r2 t2,
     In r1 src -> timestamp r1 = Some t1 ->
     In r2 src -> timestamp r2 = Some t2 ->
     (bucket (Some t1) = bucket (Some t2) <-> window g t1 = window g t2)) /\
  ascending (map fst out).

(** The same for a summed series, by window and group. *)
Definition sums_by_window {R : Type} (g : Granularity)
    (bucket : option DateTime -> SqlValue) (timestamp : R -> option DateTime)
    (group : R -> SqlValue) (value : R -> Z) (src : list R)
    (out : list (SqlValue * SqlValue * SqlValue)) : Prop :=
  (forall b c v, In (b, c, v) out ->
     exists r t, In r src /\ timestamp r = Some t /\
       b = bucket (Some t) /\ c = group r /\
       v = SqlInteger
             (Zsum (map value
                      (rows_in_window_and_group timestamp group g
                         (window g t) c src)))) /\
  (forall r t, In r src -> timestamp r = Some t ->
     exists v, In (bucket (Some t), group r, v) out) /\
  (forall r1 t1 r2 t2,
     In r1 src -> timestamp r1 = Some t1 ->
     In r2 src -> timestamp r2 = Some t2 ->
     (bucket (Some t1) = bucket (Some t2) <-> window g t1 = window g t2)) /\
  StronglySorted (fun x y => pair_compare x y = Lt) (map fst out).

(** * Properties *)

(** ** The ordering of SQL values *)

Lemma ascii_compare_refl (c : ascii) : Ascii.compare c c = Eq.
Proof. unfold Ascii.compare. apply N.compare_refl. Qed.

Lemma string_compare_refl (s : string) : String.compare s s = Eq.
Proof.
  induction s as [|c s IH]; simpl; [reflexivity|].
  now rewrite ascii_compare_refl.
Qed.

Lemma string_compare_lt_trans (s1 s2 s3 : string) :
  String.compare s1 s2 = Lt -> String.compare s2 s3 = Lt ->
  String.compare s1 s3 = Lt.
Proof.
  revert s2 s3.
  induction s1 as [|a s1 IH]; intros [|b s2] [|c s3]; simpl;
    try discriminate; try reflexivity.
  unfold Ascii.compare.
  destruct (N.compare_spec (N_of_ascii a) (N_of_ascii b)) as [Hab|Hab|Hab];
    destruct (N.compare_spec (N_of_ascii b) (N_of_ascii c)) as [Hbc|Hbc|Hbc];
    try discriminate; intros H12 H23.
  - rewrite Hab, Hbc, N.compare_refl. eapply IH; eassumption.
  - rewrite Hab. now apply N.compare_lt_iff in Hbc as ->.
  - rewrite <- Hbc. now apply N.compare_lt_iff in Hab as ->.
  - assert (H : (N_of_ascii a < N_of_ascii c)%N) by lia.
    now apply N.compare_lt_iff in H as ->.
Qed.

Lemma inject_Z_compare (x y : Z) : (inject_Z x ?= inject_Z y)%Q = (x ?= y).
Proof. unfold Qcompare; simpl. now rewrite !Z.mul_1_r. Qed.

Lemma sql_compare_classes (a b : SqlValue) :
  sql_compare a b =
  lex (storage_class a ?= storage_class b)
    (if storage_class a =? 1 then (numeric_value a ?= numeric_value b)%Q
     else if storage_class a =? 2 then String.compare (text_value a) (text_value b)
     else Eq).
Proof.
  destruct a, b; simpl; try reflexivity.
  now rewrite inject_Z_compare.
Qed.

Lemma sql_compare_refl (a : SqlValue) : sql_compare a a = Eq.
Proof.
  destruct a; simpl.
  - reflexivity.
  - apply Z.compare_refl.
  - now apply Qeq_alt.
  - apply string_compare_refl.
Qed.

Lemma sql_compare_antisym (a b : SqlValue) :
  sql_compare a b = CompOpp (sql_compare b a).
Proof.
  destruct a, b; simpl; try reflexivity.
  - apply Z.compare_antisym.
  - now rewrite <- Qcompare_antisym.
  - now rewrite <- Qcompare_antisym.
  - now rewrite <- Qcompare_antisym.
  - apply String.compare_antisym.
Qed.

Lemma sql_compare_lt_trans (a b c : SqlValue) :
  sql_compare a b = Lt -> sql_compare b c = Lt -> sql_compare a c = Lt.
Proof.
  rewrite !sql_compare_classes.
  destruct (Z.compare_spec (storage_class a) (storage_class b)) as [Hab|Hab|Hab];
    destruct (Z.compare_spec (storage_class b) (storage_class c)) as [Hbc|Hbc|Hbc];
    simpl; try discriminate; intros H1 H2.
  - rewrite <- Hab in *. rewrite <- Hbc, Z.compare_refl. simpl.
    destruct (storage_class a =? 1).
    + apply Qlt_alt. apply Qlt_alt in H1, H2. eapply Qlt_trans; eassumption.
    + destruct (storage_class a =? 2); [|discriminate].
      eapply string_compare_lt_trans; eassumption.
  - rewrite Hab. now apply Z.compare_lt_iff in Hbc as ->.
  - rewrite <- Hbc. now apply Z.compare_lt_iff in Hab as ->.
  - assert (H : storage_class a < storage_class c) by lia.
    now apply Z.compare_lt_iff in H as ->.
Qed.

Lemma sql_compare_eq (a b : SqlValue) :
  not_real a -> not_real b -> sql_compare a b = Eq -> a = b.
Proof.
  destruct a, b; simpl; try discriminate; try tauto; intros _ _ H.
  - f_equal. now apply Z.compare_eq.
  - f_equal. now apply String.compare_eq_iff.
Qed.

(** Values the engine holds equal compare alike against any third. *)
Lemma sql_compare_eq_compat (a b c : SqlValue) :
  sql_compare a b = Eq -> sql_compare a c = sql_compare b c.
Proof.
  rewrite !sql_compare_classes.
  destruct (Z.compare_spec (storage_class a) (storage_class b)) as [Hab|Hab|Hab];
    simpl; try discriminate; intros H.
  rewrite <- Hab.
  destruct (storage_class a ?= storage_class c); simpl; try reflexivity.
  destruct (storage_class a =? 1).
  - apply Qeq_alt in H. now rewrite H.
  - destruct (storage_class a =? 2); [|reflexivity].
    now apply String.compare_eq_iff in H as ->.
Qed.

Lemma sql_compare_ordering : Ordering sql_compare.
Proof.
  constructor.
  - apply sql_compare_refl.
  - apply sql_compare_antisym.
  - apply sql_compare_lt_trans.
  - apply sql_compare_eq_compat.
Qed.

Section OrderingFacts.
Context {K : Type} {cmp : K -> K -> comparison}.
Hypothesis ord : Ordering cmp.

Lemma cmp_gt_lt (a b : K) : cmp a b = Gt -> cmp b a = Lt.
Proof. intros H. rewrite (cmp_antisym _ ord), H. reflexivity. Qed.

Lemma cmp_eq_sym (a b : K) : cmp a b = Eq -> cmp b a = Eq.
Proof. intros H. rewrite (cmp_antisym _ ord), H. reflexivity. Qed.

Lemma cmp_eq_compat_r (a b c : K) : cmp b c = Eq -> cmp a b = cmp a c.
Proof.
  intros H. rewrite (cmp_antisym _ ord a b), (cmp_antisym _ ord a c).
  f_equal. apply (cmp_eq_compat _ ord). exact H.
Qed.

(** "Not below" is transitive. *)
Lemma cmp_ge_trans (a b c : K) :
  cmp a b <> Lt -> cmp b c <> Lt -> cmp a c <> Lt.
Proof.
  intros Hab Hbc Hac.
  destruct (cmp a b) eqn:E.
  - apply Hbc. now rewrite <- (cmp_eq_compat _ ord a b c E).
  - now apply Hab.
  - apply Hbc. apply (cmp_lt_trans _ ord b a c); [now apply cmp_gt_lt|exact Hac].
Qed.
End OrderingFacts.

Lemma pair_compare_ordering : Ordering pair_compare.
Proof.
  pose proof sql_compare_ordering as ord.
  constructor; unfold pair_compare.
  - intros [a1 a2]; simpl. now rewrite !sql_compare_refl.
  - intros [a1 a2] [b1 b2]; simpl.
    rewrite (sql_compare_antisym a1 b1), (sql_compare_antisym a2 b2).
    now destruct (sql_compare b1 a1).
  - intros [a1 a2] [b1 b2] [c1 c2]; simpl.
    destruct (sql_compare a1 b1) eqn:E1; simpl; try discriminate;
      destruct (sql_compare b1 c1) eqn:E2; simpl; try discriminate; intros H1 H2.
    + rewrite (sql_compare_eq_compat _ _ _ E1), E2. simpl.
      eapply sql_compare_lt_trans; eassumption.
    + now rewrite (sql_compare_eq_compat _ _ _ E1), E2.
    + now rewrite <- (cmp_eq_compat_r ord _ _ _ E2), E1.
    + now rewrite (sql_compare_lt_trans _ _ _ E1 E2).
  - intros [a1 a2] [b1 b2] [c1 c2]; simpl.
    destruct (sql_compare a1 b1) eqn:E1; simpl; try discriminate. intros E2.
    now rewrite (sql_compare_eq_compat _ _ _ E1), (sql_compare_eq_compat _ _ _ E2).
Qed.

(** ** GROUP BY *)

Section GroupingFacts.
Context {R K : Type} {cmp : K -> K -> comparison} (key : R -> K).
Hypothesis ord : Ordering cmp.

Lemma insert_key_inv (k x : K) (ks : list K) :
  In x (insert_key cmp k ks) -> x = k \/ In x ks.
Proof.
  induction ks as [|k' ks IH]; simpl.
  - intros [<-|[]]. now left.
  - destruct (cmp k k'); simpl.
    + tauto.
    + intros [<-|H]; auto.
    + intros [<-|H]; auto. destruct (IH H); auto.
Qed.

Lemma insert_key_incl (k x : K) (ks : list K) :
  In x ks -> In x (insert_key cmp k ks).
Proof.
  induction ks as [|k' ks IH]; simpl; [tauto|].
  destruct (cmp k k'); simpl; tauto.
Qed.

Lemma insert_key_has (k : K) (ks : list K) :
  exists k', In k' (insert_key cmp k ks) /\ cmp k k' = Eq.
Proof.
  induction ks as [|k' ks IH]; simpl.
  - exists k. split; [now left | apply (cmp_refl _ ord)].
  - destruct (cmp k k') eqn:E.
    + exists k'. split; [now left | exact E].
    + exists k. split; [now left | apply (cmp_refl _ ord)].
    + destruct IH as (x & Hin & Hx). exists x. split; [now right | exact Hx].
Qed.

Lemma insert_key_sorted (k : K) (ks : list K) :
  StronglySorted (below cmp) ks -> StronglySorted (below cmp) (insert_key cmp k ks).
Proof.
  induction 1 as [|k' ks Hs IH Hall]; simpl.
  - repeat constructor.
  - destruct (cmp k k') eqn:E.
    + now constructor.
    + constructor; [now constructor|].
      constructor; [exact E|].
      eapply Forall_impl; [|exact Hall].
      intros x Hx. eapply (cmp_lt_trans _ ord); eassumption.
    + constructor; [exact IH|].
      apply Forall_forall. intros x Hx.
      destruct (insert_key_inv _ _ _ Hx) as [->|Hin].
      * now apply (cmp_gt_lt ord).
      * rewrite Forall_forall in Hall. now apply Hall.
Qed.

Lemma distinct_keys_sorted (rows : list R) :
  StronglySorted (below cmp) (distinct_keys cmp key rows).
Proof.
  induction rows as [|r rows IH]; simpl; [constructor|].
  now apply insert_key_sorted.
Qed.

Lemma distinct_keys_sound (rows : list R) (k : K) :
  In k (distinct_keys cmp key rows) -> exists r, In r rows /\ key r = k.
Proof.
  induction rows as [|r rows IH]; simpl; [tauto|].
  intros H. destruct (insert_key_inv _ _ _ H) as [->|Hin].
  - exists r. auto.
  - destruct (IH Hin) as (r' & Hr' & Hk). exists r'. auto.
Qed.

Lemma distinct_keys_complete (rows : list R) (r : R) :
  In r rows -> exists k, In k (distinct_keys cmp key rows) /\ cmp (key r) k = Eq.
Proof.
  induction rows as [|r' rows IH]; simpl; [tauto|].
  intros [->|Hin].
  - apply insert_key_has.
  - destruct (IH Hin) as (k & Hk & E). exists k.
    split; [now apply insert_key_incl | exact E].
Qed.

Lemma group_by_keys (rows : list R) :
  map fst (group_by cmp key rows) = distinct_keys cmp key rows.
Proof.
  unfold group_by. rewrite map_map. simpl. apply map_id.
Qed.

(** Every group is the set of rows of its key, and holds a row. *)
Lemma group_by_sound (rows : list R) (k : K) (g : list R) :
  In (k, g) (group_by cmp key rows) ->
  g = rows_of cmp key k rows /\ g <> [] /\ exists r, In r rows /\ key r = k.
Proof.
  unfold group_by. rewrite in_map_iff. intros (k' & Heq & Hin).
  inversion Heq; subst k'. clear Heq.
  destruct (distinct_keys_sound _ _ Hin) as (r & Hr & Hk).
  split; [reflexivity|]. split; [|eauto].
  assert (Hmem : In r (rows_of cmp key k rows)).
  { unfold rows_of. apply filter_In. split; [exact Hr|].
    now rewrite Hk, (cmp_refl _ ord). }
  intros E. rewrite E in Hmem. exact Hmem.
Qed.

(** Every row falls in one of the groups. *)
Lemma group_by_complete (rows : list R) (r : R) :
  In r rows ->
  exists k, In (k, rows_of cmp key k rows) (group_by cmp key rows)
            /\ cmp (key r) k = Eq.
Proof.
  intros Hin. destruct (distinct_keys_complete _ _ Hin) as (k & Hk & E).
  exists k. split; [|exact E].
  unfold group_by. apply in_map_iff. exists k. auto.
Qed.

(** Groups come out in ascending order of their keys, each key once. *)
Lemma group_by_sorted (rows : list R) :
  StronglySorted (below cmp) (map fst (group_by cmp key rows)).
Proof. rewrite group_by_keys. apply distinct_keys_sorted. Qed.

Lemma below_sorted_NoDup (ks : list K) : StronglySorted (below cmp) ks -> NoDup ks.
Proof.
  induction 1 as [|k ks Hs IH Hall]; constructor; [|exact IH].
  intros Hin. rewrite Forall_forall in Hall. specialize (Hall _ Hin).
  unfold below in Hall. rewrite (cmp_refl _ ord) in Hall. discriminate.
Qed.
End GroupingFacts.

(** ** ORDER BY ... DESC *)

Section OrderingDescFacts.
Context {A : Type} (f : A -> SqlValue).

Lemma insert_desc_perm (x : A) (l : list A) :
  Permutation (insert_desc f x l) (x :: l).
Proof.
  induction l as [|y l IH]; simpl; [reflexivity|].
  destruct (sql_compare (f x) (f y)); try reflexivity.
  rewrite IH. apply perm_swap.
Qed.

Lemma order_by_desc_perm (l : list A) : Permutation (order_by_desc f l) l.
Proof.
  induction l as [|x l IH]; simpl; [reflexivity|].
  rewrite insert_desc_perm. now constructor.
Qed.

Lemma insert_desc_sorted (x : A) (l : list A) :
  StronglySorted (not_below f) l -> StronglySorted (not_below f) (insert_desc f x l).
Proof.
  induction 1 as [|y l Hs IH Hall]; simpl.
  - repeat constructor.
  - destruct (sql_compare (f x) (f y)) eqn:E.
    + constructor; [now constructor|].
      assert (Hxy : not_below f x y) by (unfold not_below; congruence).
      constructor; [exact Hxy|].
      eapply Forall_impl; [|exact Hall].
      intros z Hz. eapply (cmp_ge_trans sql_compare_ordering); eassumption.
    + constructor; [exact IH|].
      apply Forall_forall. intros z Hz.
      apply (Permutation_in _ (insert_desc_perm x l)) in Hz.
      destruct Hz as [<-|Hz].
      * unfold not_below. rewrite sql_compare_antisym, E. discriminate.
      * rewrite Forall_forall in Hall. now apply Hall.
    + constructor; [now constructor|].
      assert (Hxy : not_below f x y) by (unfold not_below; congruence).
      constructor; [exact Hxy|].
      eapply Forall_impl; [|exact Hall].
      intros z Hz. eapply (cmp_ge_trans sql_compare_ordering); eassumption.
Qed.

Lemma order_by_desc_sorted (l : list A) :
  StronglySorted (not_below f) (order_by_desc f l).
Proof.
  induction l as [|x l IH]; simpl; [constructor|].
  now apply insert_desc_sorted.
Qed.
End OrderingDescFacts.

(** ** Decimal fields *)

Lemma forallb_Zrange (f : Z -> bool) (lo hi : Z) :
  forallb f (Zrange lo hi) = true ->
  forall z, lo <= z < hi -> f z = true.
Proof.
  intros H z Hz. rewrite forallb_forall in H. apply H.
  unfold Zrange. apply in_map_iff. exists (Z.to_nat (z - lo)).
  split; [lia|]. apply in_seq. lia.
Qed.

Lemma printf_0d_2_digits (n : Z) :
  0 <= n <= 99 -> printf_0d 2 n = fixed_digits 2 n EmptyString.
Proof.
  intros H.
  apply String.eqb_eq.
  apply (forallb_Zrange
           (fun n => String.eqb (printf_0d 2 n) (fixed_digits 2 n EmptyString))
           0 100); [vm_compute; reflexivity | lia].
Qed.

Lemma printf_0d_4_digits (n : Z) :
  0 <= n <= 9999 -> printf_0d 4 n = fixed_digits 4 n EmptyString.
Proof.
  intros H.
  apply String.eqb_eq.
  apply (forallb_Zrange
           (fun n => String.eqb (printf_0d 4 n) (fixed_digits 4 n EmptyString))
           0 10000); [vm_compute; reflexivity | lia].
Qed.

Lemma digit_cases (d : Z) :
  0 <= d <= 9 ->
  d = 0 \/ d = 1 \/ d = 2 \/ d = 3 \/ d = 4 \/ d = 5 \/ d = 6 \/ d = 7 \/ d = 8 \/ d = 9.
Proof. lia. Qed.

Ltac each_digit H :=
  destruct (digit_cases _ H) as [->|[->|[->|[->|[->|[->|[->|[->|[->| ->]]]]]]]]].

Lemma mod10_digit (n : Z) : 0 <= n mod 10 <= 9.
Proof. pose proof (Z.mod_pos_bound n 10). lia. Qed.

Lemma digits_prefix_digit (d : Z) (rest : string) (acc : Z) :
  0 <= d <= 9 ->
  digits_prefix (String (digit_char d) rest) acc = digits_prefix rest (10 * acc + d).
Proof. intros H. each_digit H; reflexivity. Qed.

Lemma integer_prefix_digit (d : Z) (rest : string) :
  0 <= d <= 9 ->
  integer_prefix (String (digit_char d) rest) = digits_prefix rest d.
Proof. intros H. each_digit H; reflexivity. Qed.

Lemma digits_prefix_stop (c : ascii) (rest : string) (acc : Z) :
  is_digit c = false -> digits_prefix (String c rest) acc = acc.
Proof. intros H. simpl. now rewrite H. Qed.

(** A four-digit field followed by a dash reads back as its number. *)
Lemma integer_prefix_year (y : Z) (rest : string) :
  0 <= y <= 9999 ->
  integer_prefix (printf_0d 4 y ++ String "-" rest) = y.
Proof.
  intros H. rewrite printf_0d_4_digits by exact H.
  cbn [fixed_digits append].
  rewrite integer_prefix_digit by apply mod10_digit.
  rewrite !digits_prefix_digit by apply mod10_digit.
  rewrite digits_prefix_stop by reflexivity.
  pose proof (Z.div_mod y 10). pose proof (Z.div_mod (y / 10) 10).
  pose proof (Z.div_mod (y / 10 / 10) 10).
  pose proof (mod10_digit y). pose proof (mod10_digit (y / 10)).
  pose proof (mod10_digit (y / 10 / 10)). pose proof (mod10_digit (y / 10 / 10 / 10)).
  pose proof (Z.div_mod (y / 10 / 10 / 10) 10).
  assert (y / 10 / 10 / 10 / 10 = 0)
    by (rewrite !Z.div_div by lia; apply Z.div_small; lia).
  lia.
Qed.

(** A two-digit field followed by a colon reads back as its number. *)
Lemma integer_prefix_minute (m : Z) (rest : string) :
  0 <= m <= 99 ->
  integer_prefix (printf_0d 2 m ++ String ":" rest) = m.
Proof.
  intros H. rewrite printf_0d_2_digits by exact H.
  cbn [fixed_digits append].
  rewrite integer_prefix_digit by apply mod10_digit.
  rewrite !digits_prefix_digit by apply mod10_digit.
  rewrite digits_prefix_stop by reflexivity.
  pose proof (Z.div_mod m 10). pose proof (Z.div_mod (m / 10) 10).
  assert (m / 10 / 10 = 0)
    by (rewrite !Z.div_div by lia; apply Z.div_small; lia).
  lia.
Qed.

Lemma integer_prefix_two_digits (m : Z) :
  0 <= m <= 99 -> integer_prefix (printf_0d 2 m) = m.
Proof.
  intros H.
  apply Z.eqb_eq.
  apply (forallb_Zrange (fun m => integer_prefix (printf_0d 2 m) =? m) 0 100);
    [vm_compute; reflexivity | lia].
Qed.

(** ** The time-bucket expression *)

Lemma rendered_minute_plain (n m : Z) :
  n = 5 \/ n = 15 \/ n = 30 -> 0 <= m <= 59 ->
  rendered_minute PlainSlash n m = n * (m / n).
Proof.
  intros Hn Hm. apply Z.eqb_eq.
  destruct Hn as [->|[->| ->]];
    apply (forallb_Zrange
             (fun m => rendered_minute PlainSlash _ m =? _ * (m / _)) 0 60);
    try (vm_compute; reflexivity); lia.
Qed.

Lemma rendered_minute_plus_zero (n m : Z) :
  n = 5 \/ n = 15 \/ n = 30 -> 0 <= m <= 59 ->
  rendered_minute SlashPlusZero n m = m.
Proof.
  intros Hn Hm. apply Z.eqb_eq.
  destruct Hn as [->|[->| ->]];
    apply (forallb_Zrange
             (fun m => rendered_minute SlashPlusZero _ m =? m) 0 60);
    try (vm_compute; reflexivity); lia.
Qed.

Lemma append_nil_r (s : string) : (s ++ EmptyString)%string = s.
Proof. induction s as [|c s IH]; simpl; [reflexivity | now rewrite IH]. Qed.

Lemma valid_datetime_bounds (t : DateTime) :
  valid_datetime t = true ->
  1 <= year t <= 9999 /\ 1 <= month t <= 12 /\
  1 <= day t <= days_in_month (year t) (month t) /\
  0 <= hour t <= 23 /\ 0 <= minute t <= 59 /\
  0 <= second t <= 59 /\ 0 <= microsecond t <= 999999.
Proof.
  unfold valid_datetime. rewrite !andb_true_iff, !Z.leb_le. tauto.
Qed.

Lemma sub_hour_minutes_cases (g : Granularity) (n : Z) :
  sub_hour_minutes g = Some n -> n = 5 \/ n = 15 \/ n = 30.
Proof. destruct g; simpl; intros H; inversion H; auto. Qed.

(** What the sub-hour branch of [_time_bucket] evaluates to: the year
    plus the minute that reached [printf], as an INTEGER. *)
Lemma time_bucket_sub_hour (dv : DivisionRendering) (g : Granularity) (n : Z)
    (t : DateTime) :
  sub_hour_minutes g = Some n ->
  valid_datetime t = true ->
  exists bucket,
    _time_bucket dv (Granularity_value g) = Ok bucket /\
    bucket (Some t) = SqlInteger (year t + rendered_minute dv n (minute t)).
Proof.
  intros Hg Hv.
  apply valid_datetime_bounds in Hv as (Hy & _ & _ & _ & Hm & _).
  assert (Hn := sub_hour_minutes_cases _ _ Hg).
  assert (Hr : 0 <= rendered_minute dv n (minute t) <= 99).
  { destruct dv.
    - rewrite rendered_minute_plain by assumption.
      assert (Hpos : 0 < n) by lia.
      pose proof (Z.mul_div_le (minute t) n Hpos).
      assert (0 <= minute t / n) by (apply Z.div_pos; lia).
      nia.
    - rewrite rendered_minute_plus_zero by assumption. lia. }
  assert (Hkey : sa_add
            (func_strftime "%Y-%m-%d %H:" (Some t))
            (func_printf "%02d:00"
               (sa_mul
                  (sa_truediv dv
                     (func_cast_integer (func_strftime "%M" (Some t)))
                     (SqlInteger n))
                  (SqlInteger n)))
          = SqlInteger (year t + rendered_minute dv n (minute t))).
  { unfold func_strftime. cbn [strftime strftime_conversion Ascii.eqb Bool.eqb].
    rewrite append_nil_r.
    unfold func_cast_integer. cbn [cast_integer].
    rewrite integer_prefix_two_digits by lia.
    fold (rendered_minute dv n (minute t)).
    unfold func_printf, sa_add, sql_add. cbn [to_numeric printf].
    change (value_int
              (sa_mul (sa_truediv dv (SqlInteger (minute t)) (SqlInteger n))
                 (SqlInteger n)))
      with (rendered_minute dv n (minute t)).
    rewrite integer_prefix_year by lia.
    rewrite integer_prefix_minute by exact Hr.
    reflexivity. }
  destruct g; simpl in Hg; inversion Hg; subst n;
    (eexists; split; [reflexivity | exact Hkey]).
Qed.

Lemma append_assoc (a b c : string) :
  ((a ++ b) ++ c)%string = (a ++ (b ++ c))%string.
Proof. induction a as [|x a IH]; simpl; [reflexivity | now rewrite IH]. Qed.

(** The two operands that [_time_bucket] joins with [+] are the two
    halves of the key the specification describes (when [/] is rendered
    as the engine's integer division): joined end to end they would make
    it, and each continues with ['-'] or [':'] after its first digits. *)
Lemma time_bucket_operands_shape (n : Z) (t : DateTime) :
  n = 5 \/ n = 15 \/ n = 30 ->
  valid_datetime t = true ->
  exists pre post : string,
    func_strftime "%Y-%m-%d %H:" (Some t)
      = SqlText (printf_0d 4 (year t) ++ String "-" pre) /\
    func_printf "%02d:00"
      (sa_mul
         (sa_truediv PlainSlash
            (func_cast_integer (func_strftime "%M" (Some t)))
            (SqlInteger n))
         (SqlInteger n))
      = SqlText (printf_0d 2 (n * (minute t / n)) ++ String ":" post) /\
    ((printf_0d 4 (year t) ++ String "-" pre)
       ++ (printf_0d 2 (n * (minute t / n)) ++ String ":" post))%string
      = sub_hour_key_spec n t.
Proof.
  intros Hn Hv.
  apply valid_datetime_bounds in Hv as (_ & _ & _ & _ & Hm & _).
  eexists. eexists. split; [|split].
  - unfold func_strftime. cbn [strftime strftime_conversion Ascii.eqb Bool.eqb].
    reflexivity.
  - unfold func_strftime, func_cast_integer, func_printf.
    cbn [strftime strftime_conversion Ascii.eqb Bool.eqb cast_integer printf].
    rewrite append_nil_r, integer_prefix_two_digits by lia.
    change (value_int
              (sa_mul (sa_truediv PlainSlash (SqlInteger (minute t)) (SqlInteger n))
                 (SqlInteger n)))
      with (rendered_minute PlainSlash n (minute t)).
    rewrite rendered_minute_plain by assumption.
    reflexivity.
  - unfold sub_hour_key_spec. cbn [append].
    rewrite !append_assoc. cbn [append].
    rewrite !append_assoc. cbn [append].
    rewrite !append_assoc. cbn [append].
    rewrite !append_assoc. cbn [append].
    reflexivity.
Qed.

(** C1 (code evaluated at the failing input).  At 15-minute granularity
    the bucket of 2024-01-15 10:37:00 is not the text
    [2024-01-15 10:30:00] that the specification describes: the two
    halves of the key are added as numbers, which gives the INTEGER 2054
    (year plus truncated minute), or 2061 when [/] is rendered as a true
    division. *)
Theorem time_bucket_fifteen_min_at_10_37 :
  exists b1 b2,
    _time_bucket PlainSlash (Granularity_value FIFTEEN_MIN) = Ok b1 /\
    _time_bucket SlashPlusZero (Granularity_value FIFTEEN_MIN) = Ok b2 /\
    b1 (Some at_10_37) = SqlInteger 2054 /\
    b2 (Some at_10_37) = SqlInteger 2061 /\
    sub_hour_key_spec 15 at_10_37 = "2024-01-15 10:30:00".
Proof.
  eexists. eexists. split; [reflexivity|]. split; [reflexivity|].
  repeat split; vm_compute; reflexivity.
Qed.

(** No sub-hour bucket is ever a text: the key described by the
    specification is produced for no instant at all. *)
Lemma time_bucket_sub_hour_not_text (dv : DivisionRendering) (g : Granularity)
    (n : Z) (t : DateTime) :
  sub_hour_minutes g = Some n ->
  valid_datetime t = true ->
  exists bucket z,
    _time_bucket dv (Granularity_value g) = Ok bucket /\
    bucket (Some t) = SqlInteger z /\
    bucket (Some t) <> SqlText (sub_hour_key_spec n t).
Proof.
  intros Hg Hv.
  destruct (time_bucket_sub_hour dv g n t Hg Hv) as (bucket & Hb & Hval).
  exists bucket, (year t + rendered_minute dv n (minute t)).
  split; [exact Hb|]. split; [exact Hval|].
  rewrite Hval. discriminate.
Qed.

(** ** Week of the year *)

Lemma weekday_from_january_first (t : DateTime) :
  weekday t = (weekday (january_first (year t)) + day_of_year0 t) mod 7.
Proof.
  unfold weekday, toordinal, day_of_year0, january_first; simpl.
  rewrite Z.add_mod_idemp_l by lia. f_equal.
  change (days_before_month (year t) 1) with 0. lia.
Qed.

Lemma weekday_range (t : DateTime) : 0 <= weekday t < 7.
Proof. unfold weekday. apply Z.mod_pos_bound. lia. Qed.

Lemma first_monday_range (y : Z) : 0 <= first_monday y < 7.
Proof. unfold first_monday. apply Z.mod_pos_bound. lia. Qed.

Lemma days_in_month_le_31 (y m : Z) : days_in_month y m <= 31.
Proof.
  unfold days_in_month.
  destruct (m =? 2); [destruct (is_leap y); lia|].
  destruct ((m =? 4) || (m =? 6) || (m =? 9) || (m =? 11)); lia.
Qed.

Lemma days_before_month_range (y m : Z) : 0 <= days_before_month y m <= 335.
Proof.
  unfold days_before_month.
  destruct (is_leap y);
    repeat match goal with
           | |- context [if ?b then _ else _] => destruct b
           end; lia.
Qed.

Lemma day_of_year0_range (t : DateTime) :
  valid_datetime t = true -> 0 <= day_of_year0 t <= 365.
Proof.
  intros Hv. apply valid_datetime_bounds in Hv as (_ & _ & Hd & _).
  unfold day_of_year0.
  pose proof (days_in_month_le_31 (year t) (month t)).
  pose proof (days_before_month_range (year t) (month t)). lia.
Qed.

(** The engine's formula for [%W] and the count of weeks from the first
    Monday agree, whatever the weekday [w] of the first of January. *)
Lemma week_formula (w yd : Z) :
  0 <= w < 7 -> 0 <= yd <= 365 ->
  (yd + 7 - (w + yd) mod 7) / 7 =
  (if yd <? (7 - w) mod 7 then 0 else (yd - (7 - w) mod 7) / 7 + 1).
Proof.
  intros Hw Hyd. apply Z.eqb_eq.
  assert (Hc : w = 0 \/ w = 1 \/ w = 2 \/ w = 3 \/ w = 4 \/ w = 5 \/ w = 6) by lia.
  destruct Hc as [->|[->|[->|[->|[->|[->| ->]]]]]];
    apply (forallb_Zrange
             (fun yd => (yd + 7 - (_ + yd) mod 7) / 7 =?
                        (if yd <? (7 - _) mod 7 then 0
                         else (yd - (7 - _) mod 7) / 7 + 1)) 0 366);
    try (vm_compute; reflexivity); lia.
Qed.

Lemma rounds_to_next_day_iff (t : DateTime) :
  rounds_to_next_day t = true <->
  hour t = 23 /\ minute t = 59 /\ second t = 59 /\ 999500 <= microsecond t.
Proof.
  unfold rounds_to_next_day. rewrite !andb_true_iff, !Z.eqb_eq, Z.leb_le. tauto.
Qed.

(** The rounded instant leaves its day only in the last half
    millisecond. *)
Lemma millisecond_of_day_rounds (t : DateTime) :
  valid_datetime t = true ->
  millisecond_of_day t / 86400000 = if rounds_to_next_day t then 1 else 0.
Proof.
  intros Hv.
  apply valid_datetime_bounds in Hv as (_ & _ & _ & Hh & Hm & Hs & Hu).
  unfold millisecond_of_day.
  destruct (rounds_to_next_day t) eqn:E.
  - apply rounds_to_next_day_iff in E as (-> & -> & -> & Hlate).
    Z.div_mod_to_equations. lia.
  - assert (Hn : ~ (hour t = 23 /\ minute t = 59 /\ second t = 59
                    /\ 999500 <= microsecond t))
      by (rewrite <- rounds_to_next_day_iff; congruence).
    Z.div_mod_to_equations. lia.
Qed.

Lemma strftime_weekday_cases (t : DateTime) :
  valid_datetime t = true ->
  strftime_weekday t
  = if rounds_to_next_day t then (weekday t + 1) mod 7 else weekday t.
Proof.
  intros Hv. unfold strftime_weekday.
  rewrite (millisecond_of_day_rounds t Hv).
  destruct (rounds_to_next_day t).
  - unfold weekday. now rewrite Z.add_mod_idemp_l by lia.
  - unfold weekday. f_equal. lia.
Qed.

Lemma week_of_year_engine (t : DateTime) :
  valid_datetime t = true ->
  rounds_to_next_day t = false ->
  (day_of_year0 t + 7 - strftime_weekday t) / 7 = week_of_year_spec t.
Proof.
  intros Hv Hr. rewrite (strftime_weekday_cases t Hv), Hr.
  unfold week_of_year_spec, first_monday.
  rewrite weekday_from_january_first.
  apply week_formula.
  - apply weekday_range.
  - now apply day_of_year0_range.
Qed.

(** [first_monday] names a Monday, and the first one: a day of the year
    is a Monday exactly when it lies a whole number of weeks from it, and
    it falls in the year's first seven days. *)
Lemma first_monday_spec (t : DateTime) :
  0 <= first_monday (year t) < 7 /\
  (weekday t = 0 <-> (day_of_year0 t - first_monday (year t)) mod 7 = 0).
Proof.
  split; [apply first_monday_range|].
  rewrite weekday_from_january_first. unfold first_monday.
  pose proof (weekday_range (january_first (year t))) as Hw.
  set (w := weekday (january_first (year t))) in *.
  set (yd := day_of_year0 t).
  clearbody w yd. Z.div_mod_to_equations. lia.
Qed.

Lemma week_of_year_spec_range (t : DateTime) :
  valid_datetime t = true -> 0 <= week_of_year_spec t <= 53.
Proof.
  intros Hv.
  pose proof (day_of_year0_range t Hv) as Hyd.
  pose proof (first_monday_range (year t)) as Hfm.
  unfold week_of_year_spec.
  destruct (Z.ltb_spec (day_of_year0 t) (first_monday (year t))); [lia|].
  Z.div_mod_to_equations. lia.
Qed.

(** C5 (code evaluated at failing inputs).  Monday 2024-01-15 lies in
    week 03 of 2024, counted from the year's first Monday, and its WEEKLY
    bucket is [2024-03] up to 23:59:59.999499; 400 microseconds before
    midnight the bucket of the same Monday is [2024-02].  Sunday
    2025-01-05 lies before the first Monday of 2025, in week 00, and 400
    microseconds before midnight its bucket is [2025-01].  The engine
    counts the days of the year between calendar days but takes the
    weekday from the instant rounded to the millisecond.  The DAILY
    bucket of these instants is that of their calendar day, so that one
    day is split over two weeks. *)
Theorem weekly_bucket_in_last_half_millisecond (dv : DivisionRendering) :
  exists bucket daily,
    _time_bucket dv (Granularity_value WEEKLY) = Ok bucket /\
    _time_bucket dv (Granularity_value DAILY) = Ok daily /\
    daily (Some (mkDateTime 2024 1 15 0 0 0 0)) = SqlText "2024-01-15" /\
    daily (Some monday_before_midnight) = SqlText "2024-01-15" /\
    valid_datetime monday_before_midnight = true /\
    valid_datetime sunday_before_midnight = true /\
    weekday monday_before_midnight = 0 /\
    week_of_year_spec monday_before_midnight = 3 /\
    bucket (Some (mkDateTime 2024 1 15 0 0 0 0)) = SqlText "2024-03" /\
    bucket (Some (mkDateTime 2024 1 15 23 59 59 999499)) = SqlText "2024-03" /\
    bucket (Some monday_before_midnight) = SqlText "2024-02" /\
    weekday sunday_before_midnight = 6 /\
    week_of_year_spec sunday_before_midnight = 0 /\
    bucket (Some (mkDateTime 2025 1 5 0 0 0 0)) = SqlText "2025-00" /\
    bucket (Some sunday_before_midnight) = SqlText "2025-01".
Proof.
  destruct dv;
    (eexists; eexists; split; [reflexivity|]; split; [reflexivity|]);
    repeat split; vm_compute; reflexivity.
Qed.

(** The week that runs from Monday 2024-12-30 to Sunday 2025-01-05 is
    split at the new year into week 53 of 2024 and week 00 of 2025; ISO
    8601 has no week 00 and counts all seven days in week 01 of 2025. *)
Example weekly_bucket_over_new_year :
  exists bucket,
    _time_bucket PlainSlash (Granularity_value WEEKLY) = Ok bucket /\
    bucket (Some (mkDateTime 2024 12 30 0 0 0 0)) = SqlText "2024-53" /\
    bucket (Some (mkDateTime 2025 1 1 0 0 0 0)) = SqlText "2025-00" /\
    bucket (Some (mkDateTime 2025 1 5 23 59 59 0)) = SqlText "2025-00" /\
    bucket (Some (mkDateTime 2025 1 6 0 0 0 0)) = SqlText "2025-01".
Proof.
  eexists. split; [reflexivity|]. repeat split; vm_compute; reflexivity.
Qed.

(** ** Average and peak *)

Lemma Zmaximum_spec (l : list Z) (x : Z) :
  In (Zmaximum x l) (x :: l) /\ Forall (fun y => y <= Zmaximum x l) (x :: l).
Proof.
  unfold Zmaximum. revert x.
  induction l as [|y l IH]; intros x; simpl.
  - split; [now left | repeat constructor; lia].
  - destruct (IH (Z.max x y)) as [Hin Hall]. split.
    + destruct Hin as [Hin|Hin]; [|now right; right].
      rewrite <- Hin. destruct (Z.max_spec x y) as [[_ ->]|[_ ->]]; auto.
    + inversion Hall as [|? ? Hm Hl]; subst.
      constructor; [lia|]. constructor; [lia | exact Hl].
Qed.

Lemma func_avg_spec (vals : list Z) :
  vals <> [] -> aggregate_spec AVERAGE vals (func_avg vals).
Proof.
  destruct vals as [|x l]; [congruence|]. intros _.
  unfold aggregate_spec, func_avg. eexists. split; [reflexivity|].
  rewrite Qred_correct.
  set (vals := x :: l).
  assert (Hlen : Z.pos (Pos.of_nat (List.length vals)) = Z.of_nat (List.length vals))
    by (unfold vals; simpl List.length; lia).
  unfold Qeq, Qmult, inject_Z. cbn [Qnum Qden].
  rewrite Pos.mul_1_r, Hlen. lia.
Qed.

Lemma func_max_spec (vals : list Z) :
  vals <> [] -> aggregate_spec PEAK vals (func_max vals).
Proof.
  destruct vals as [|x l]; [congruence|]. intros _.
  simpl. eexists. split; [reflexivity|]. apply Zmaximum_spec.
Qed.

Lemma agg_func_spec (a : Aggregation) (vals : list Z) :
  vals <> [] -> aggregate_spec a vals (_agg_func (Aggregation_value a) vals).
Proof.
  destruct a; [apply func_avg_spec | apply func_max_spec].
Qed.

Lemma map_not_nil {A B : Type} (f : A -> B) (l : list A) :
  l <> [] -> map f l <> [].
Proof. destruct l; simpl; congruence. Qed.

Lemma series_of_group_by {R : Type} (a : Aggregation) (bucket : R -> SqlValue)
    (value : R -> Z) (src : list R) :
  series_of a bucket value src
    (map (fun g => (fst g, _agg_func (Aggregation_value a) (map value (snd g))))
       (group_by sql_compare bucket src)).
Proof.
  pose proof sql_compare_ordering as ord.
  split; [|split].
  - intros k v Hin. apply in_map_iff in Hin as ([k' g] & Heq & Hin).
    simpl in Heq. inversion Heq; subst k' v. clear Heq.
    destruct (group_by_sound bucket ord _ _ _ Hin) as (-> & Hne & _).
    split; [now apply map_not_nil|].
    apply agg_func_spec. now apply map_not_nil.
  - intros r Hr.
    destruct (group_by_complete bucket ord _ _ Hr) as (k & Hin & E).
    exists k. eexists. split; [|exact E].
    apply in_map_iff. exists (k, rows_of sql_compare bucket k src).
    split; [reflexivity | exact Hin].
  - unfold ascending. rewrite map_map. simpl.
    change (map (fun x : SqlValue * list R => fst x)
              (group_by sql_compare bucket src))
      with (map fst (group_by sql_compare bucket src)).
    apply (group_by_sorted bucket ord).
Qed.

Lemma time_bucket_total (dv : DivisionRendering) (g : Granularity) :
  exists bucket, _time_bucket dv (Granularity_value g) = Ok bucket.
Proof. destruct g; eexists; reflexivity. Qed.

(** Whatever the key, each series returns one row per group of selected
    rows that share the key the code computes, valued by the mean of the
    group under AVERAGE and by its maximum under PEAK, the keys
    ascending. *)
Lemma series_over_key_groups (dv : DivisionRendering) (session : Session)
    (game world : string) (start end_ : DateTime) (g : Granularity)
    (a : Aggregation) :
  exists bucket,
    _time_bucket dv (Granularity_value g) = Ok bucket /\
    (exists out,
       player_count_timeseries dv session game start end_
         (Granularity_value g) (Aggregation_value a) = Ok out /\
       series_of a (fun r => bucket (PlayerCount.timestamp r))
         PlayerCount.player_count
         (filter (fun r => String.eqb (PlayerCount.game r) game
                           && between start end_ (PlayerCount.timestamp r))
            (playercount session))
         out) /\
    (exists out,
       combined_total_timeseries dv session start end_
         (Granularity_value g) (Aggregation_value a) = Ok out /\
       series_of a (fun r => bucket (PlayerCount.timestamp r))
         PlayerCount.player_count
         (filter (fun r => between start end_ (PlayerCount.timestamp r))
            (playercount session))
         out) /\
    (exists out,
       player_count_by_world dv session world start end_
         (Granularity_value g) (Aggregation_value a) = Ok out /\
       series_of a (fun r => bucket (PlayerCountByWorld.timestamp r))
         PlayerCountByWorld.players
         (filter (fun r => String.eqb (PlayerCountByWorld.world r) world
                           && between start end_ (PlayerCountByWorld.timestamp r))
            (playercountbyworld session))
         out).
Proof.
  destruct (time_bucket_total dv g) as (bucket & Hb).
  exists bucket. split; [exact Hb|].
  unfold player_count_timeseries, combined_total_timeseries,
    player_count_by_world.
  rewrite Hb. cbn [bind].
  split; [|split]; eexists; (split; [reflexivity|]); apply series_of_group_by.
Qed.

(** C2 (code evaluated at the failing input).  At 5-minute granularity
    the three observations 10, 20 and 99, taken in three different
    5-minute windows (two hours of one day and a night in June), come
    back from each of the three series as one row: their mean 43 under
    AVERAGE and their maximum 99 under PEAK, under the key 2024.  The
    specification asks for one value per bucket, here 10, 20 and 99.  At
    HOURLY granularity the bucket holding 10, 20 and 30 does yield 30
    under PEAK and 20 under AVERAGE. *)
Theorem five_min_series_merge_windows (dv : DivisionRendering) :
  window FIVE_MIN at_10_00 <> window FIVE_MIN at_11_00 /\
  window FIVE_MIN at_11_00 <> window FIVE_MIN in_june /\
  window FIVE_MIN at_10_00 <> window FIVE_MIN in_june /\
  player_count_timeseries dv three_windows_apart "OSRS"
    (mkDateTime 2024 1 1 0 0 0 0) (mkDateTime 2024 12 31 0 0 0 0)
    (Granularity_value FIVE_MIN) (Aggregation_value AVERAGE)
    = Ok [(SqlInteger 2024, SqlReal 43)] /\
  player_count_timeseries dv three_windows_apart "OSRS"
    (mkDateTime 2024 1 1 0 0 0 0) (mkDateTime 2024 12 31 0 0 0 0)
    (Granularity_value FIVE_MIN) (Aggregation_value PEAK)
    = Ok [(SqlInteger 2024, SqlInteger 99)] /\
  combined_total_timeseries dv three_windows_apart
    (mkDateTime 2024 1 1 0 0 0 0) (mkDateTime 2024 12 31 0 0 0 0)
    (Granularity_value FIVE_MIN) (Aggregation_value AVERAGE)
    = Ok [(SqlInteger 2024, SqlReal 43)] /\
  combined_total_timeseries dv three_windows_apart
    (mkDateTime 2024 1 1 0 0 0 0) (mkDateTime 2024 12 31 0 0 0 0)
    (Granularity_value FIVE_MIN) (Aggregation_value PEAK)
    = Ok [(SqlInteger 2024, SqlInteger 99)] /\
  player_count_by_world dv three_windows_apart "301"
    (mkDateTime 2024 1 1 0 0 0 0) (mkDateTime 2024 12 31 0 0 0 0)
    (Granularity_value FIVE_MIN) (Aggregation_value AVERAGE)
    = Ok [(SqlInteger 2024, SqlReal 43)] /\
  player_count_by_world dv three_windows_apart "301"
    (mkDateTime 2024 1 1 0 0 0 0) (mkDateTime 2024 12 31 0 0 0 0)
    (Granularity_value FIVE_MIN) (Aggregation_value PEAK)
    = Ok [(SqlInteger 2024, SqlInteger 99)] /\
  player_count_by_world dv three_in_one_hour "301"
    (mkDateTime 2024 1 15 0 0 0 0) (mkDateTime 2024 1 16 0 0 0 0)
    (Granularity_value HOURLY) (Aggregation_value PEAK)
    = Ok [(SqlText "2024-01-15 10:00:00", SqlInteger 30)] /\
  player_count_by_world dv three_in_one_hour "301"
    (mkDateTime 2024 1 15 0 0 0 0) (mkDateTime 2024 1 16 0 0 0 0)
    (Granularity_value HOURLY) (Aggregation_value AVERAGE)
    = Ok [(SqlText "2024-01-15 10:00:00", SqlReal 20)].
Proof.
  split; [discriminate|]. split; [discriminate|]. split; [discriminate|].
  destruct dv; repeat split; vm_compute; reflexivity.
Qed.

(** ** Sums by type and by region *)

Lemma is_Eq_lex (c1 c2 : comparison) : is_Eq (lex c1 c2) = is_Eq c1 && is_Eq c2.
Proof. destruct c1, c2; reflexivity. Qed.

Lemma rows_of_pair {R : Type} (bucket group : R -> SqlValue) (b c : SqlValue)
    (src : list R) :
  rows_of pair_compare (fun r => (bucket r, group r)) (b, c) src
  = rows_in bucket group b c src.
Proof.
  unfold rows_of, rows_in. apply filter_ext. intros r.
  unfold pair_compare. simpl. apply is_Eq_lex.
Qed.

Lemma func_sum_not_nil (vals : list Z) :
  vals <> [] -> func_sum vals = SqlInteger (Zsum vals).
Proof. destruct vals; [congruence | reflexivity]. Qed.

Lemma sums_of_group_by {R : Type} (bucket group : R -> SqlValue)
    (value : R -> Z) (src : list R) :
  sums_of bucket group value src
    (map (fun g => (fst g, func_sum (map value (snd g))))
       (group_by pair_compare (fun r => (bucket r, group r)) src)).
Proof.
  pose proof pair_compare_ordering as ord.
  split; [|split].
  - intros b c v Hin. apply in_map_iff in Hin as ([k g] & Heq & Hin).
    simpl in Heq. inversion Heq; subst k v. clear Heq.
    destruct (group_by_sound _ ord _ _ _ Hin) as (-> & Hne & _).
    rewrite rows_of_pair in *.
    split; [exact Hne|].
    apply func_sum_not_nil. now apply map_not_nil.
  - intros r Hr.
    destruct (group_by_complete (fun r => (bucket r, group r)) ord _ _ Hr)
      as ([b c] & Hin & E).
    exists b, c. eexists.
    unfold pair_compare in E. simpl in E.
    split.
    + apply in_map_iff. eexists. split; [|exact Hin]. reflexivity.
    + destruct (sql_compare (bucket r) b); simpl in E; try discriminate. auto.
  - rewrite map_map. simpl.
    change (map (fun x : SqlValue * SqlValue * list R => fst x)
              (group_by pair_compare (fun r => (bucket r, group r)) src))
      with (map fst (group_by pair_compare (fun r => (bucket r, group r)) src)).
    apply (group_by_sorted _ ord).
Qed.

(** Whatever the key, each row of the two summed series carries the sum
    of the players of the selected rows that share the key the code
    computes and the group. *)
Lemma sums_over_key_groups (dv : DivisionRendering) (session : Session)
    (start end_ : DateTime) (g : Granularity) (agg : string) :
  exists bucket,
    _time_bucket dv (Granularity_value g) = Ok bucket /\
    (exists out,
       player_count_by_type dv session start end_ (Granularity_value g) agg
         = Ok out /\
       sums_of (fun r => bucket (PlayerCountByWorld.timestamp r))
         (fun r => text_column (PlayerCountByWorld.type r))
         PlayerCountByWorld.players
         (filter (fun r => between start end_ (PlayerCountByWorld.timestamp r))
            (playercountbyworld session))
         out) /\
    (exists out,
       player_count_by_region dv session start end_ (Granularity_value g) agg
         = Ok out /\
       sums_of (fun r => bucket (PlayerCountByWorld.timestamp r))
         (fun r => text_column (PlayerCountByWorld.location r))
         PlayerCountByWorld.players
         (filter (fun r => between start end_ (PlayerCountByWorld.timestamp r))
            (playercountbyworld session))
         out).
Proof.
  destruct (time_bucket_total dv g) as (bucket & Hb).
  exists bucket. split; [exact Hb|].
  unfold player_count_by_type, player_count_by_region.
  rewrite Hb. cbn [bind].
  split; eexists; (split; [reflexivity|]);
    apply (sums_of_group_by
             (fun r => bucket (PlayerCountByWorld.timestamp r))).
Qed.

(** C4 (code evaluated at the failing input).  [player_count_by_type]
    and [player_count_by_region] return the same result whatever the
    aggregation mode they are given, AVERAGE and PEAK included, for every
    store, range and granularity.  But at 5-minute granularity they do
    not sum within a bucket: three readings of a Free world of one region
    taken in three different 5-minute windows, 10, 20 and 99 players,
    come back as the single row 129 under the key 2024, where the
    specification asks for the three sums 10, 20 and 99. *)
Theorem sums_at_five_min_mix_windows (dv : DivisionRendering) :
  (forall (session : Session) (start end_ : DateTime)
          (granularity agg1 agg2 : string),
     player_count_by_type dv session start end_ granularity agg1
     = player_count_by_type dv session start end_ granularity agg2 /\
     player_count_by_region dv session start end_ granularity agg1
     = player_count_by_region dv session start end_ granularity agg2) /\
  window FIVE_MIN at_10_00 <> window FIVE_MIN at_11_00 /\
  window FIVE_MIN at_11_00 <> window FIVE_MIN in_june /\
  window FIVE_MIN at_10_00 <> window FIVE_MIN in_june /\
  player_count_by_type dv three_windows_apart
    (mkDateTime 2024 1 1 0 0 0 0) (mkDateTime 2024 12 31 0 0 0 0)
    (Granularity_value FIVE_MIN) (Aggregation_value AVERAGE)
    = Ok [(SqlInteger 2024, SqlText "Free", SqlInteger 129)] /\
  player_count_by_region dv three_windows_apart
    (mkDateTime 2024 1 1 0 0 0 0) (mkDateTime 2024 12 31 0 0 0 0)
    (Granularity_value FIVE_MIN) (Aggregation_value AVERAGE)
    = Ok [(SqlInteger 2024, SqlText "Germany", SqlInteger 129)].
Proof.
  split; [intros; split; reflexivity|].
  split; [discriminate|]. split; [discriminate|]. split; [discriminate|].
  destruct dv; split; vm_compute; reflexivity.
Qed.

(** ** Chronological order *)

Lemma lex_Lt (x y : Z) (k : comparison) :
  lex (x ?= y) k = Lt <-> x < y \/ (x = y /\ k = Lt).
Proof.
  destruct (Z.compare_spec x y) as [E|L|G]; simpl.
  - split; [intros; right; auto | intros [?|[_ ?]]; [lia | assumption]].
  - split; [intros; left; lia | reflexivity].
  - split; [discriminate | intros [?|[? _]]; lia].
Qed.

Lemma lex_Eq (x y : Z) (k : comparison) :
  lex (x ?= y) k = Eq <-> x = y /\ k = Eq.
Proof.
  destruct (Z.compare_spec x y) as [E|L|G]; simpl.
  - tauto.
  - split; [discriminate | intros [? _]; lia].
  - split; [discriminate | intros [? _]; lia].
Qed.

Lemma datetime_compare_lt (a b : DateTime) :
  datetime_compare a b = Lt <-> datetime_lt a b.
Proof.
  unfold datetime_compare, datetime_lt.
  rewrite !lex_Lt, Z.compare_lt_iff. reflexivity.
Qed.

Lemma datetime_compare_eq (a b : DateTime) :
  datetime_compare a b = Eq <-> a = b.
Proof.
  unfold datetime_compare. rewrite !lex_Eq, Z.compare_eq_iff.
  destruct a, b; simpl. split.
  - intros (-> & -> & -> & -> & -> & -> & ->). reflexivity.
  - intros H. inversion H. tauto.
Qed.

Lemma datetime_compare_antisym (a b : DateTime) :
  datetime_compare a b = CompOpp (datetime_compare b a).
Proof.
  unfold datetime_compare.
  rewrite (Z.compare_antisym (year a)), (Z.compare_antisym (month a)),
    (Z.compare_antisym (day a)), (Z.compare_antisym (hour a)),
    (Z.compare_antisym (minute a)), (Z.compare_antisym (second a)),
    (Z.compare_antisym (microsecond a)).
  destruct (year a ?= year b), (month a ?= month b), (day a ?= day b),
    (hour a ?= hour b), (minute a ?= minute b), (second a ?= second b),
    (microsecond a ?= microsecond b); reflexivity.
Qed.

Lemma datetime_leb_spec (a b : DateTime) :
  datetime_leb a b = true <-> a = b \/ datetime_lt a b.
Proof.
  unfold datetime_leb. rewrite <- datetime_compare_eq, <- datetime_compare_lt.
  destruct (datetime_compare a b); split; intros H; auto; try discriminate.
  destruct H; discriminate.
Qed.

Lemma datetime_lt_trans (a b c : DateTime) :
  datetime_lt a b -> datetime_lt b c -> datetime_lt a c.
Proof. unfold datetime_lt. lia. Qed.

Lemma datetime_leb_refl (a : DateTime) : datetime_leb a a = true.
Proof. apply datetime_leb_spec. now left. Qed.

Lemma datetime_leb_trans (a b c : DateTime) :
  datetime_leb a b = true -> datetime_leb b c = true -> datetime_leb a c = true.
Proof.
  rewrite !datetime_leb_spec. intros [->|Hab] [->|Hbc]; auto.
  right. eapply datetime_lt_trans; eassumption.
Qed.

Lemma datetime_leb_false (a b : DateTime) :
  datetime_leb a b = false -> datetime_leb b a = true.
Proof.
  unfold datetime_leb. rewrite (datetime_compare_antisym b a).
  destruct (datetime_compare a b); simpl; congruence.
Qed.

Lemma datetime_leb_antisym (a b : DateTime) :
  datetime_leb a b = true -> datetime_leb b a = true -> a = b.
Proof.
  unfold datetime_leb. rewrite (datetime_compare_antisym b a).
  destruct (datetime_compare a b) eqn:E; simpl; try discriminate.
  intros _ _. now apply datetime_compare_eq.
Qed.

Lemma datetime_eqb_eq (a b : DateTime) : datetime_eqb a b = true <-> a = b.
Proof.
  unfold datetime_eqb. rewrite <- datetime_compare_eq.
  destruct (datetime_compare a b); split; congruence.
Qed.

Lemma timestamp_is_iff (ts : DateTime) (col : option DateTime) :
  timestamp_is ts col = true <-> col = Some ts.
Proof.
  destruct col as [t|]; simpl.
  - rewrite datetime_eqb_eq. split; congruence.
  - split; discriminate.
Qed.

(** ** Snapshots *)

Lemma StronglySorted_weaken {A : Type} (P Q : A -> A -> Prop) (l : list A) :
  (forall a b, P a b -> Q a b) -> StronglySorted P l -> StronglySorted Q l.
Proof.
  intros HPQ. induction 1 as [|x l Hs IH Hall]; constructor; [exact IH|].
  eapply Forall_impl; [|exact Hall]. intros; now apply HPQ.
Qed.

Lemma world_snapshot_descending (session : Session) (ts : option DateTime) :
  descending_by_players (world_snapshot session ts).
Proof.
  unfold world_snapshot, descending_by_players.
  destruct (match ts with
            | Some ts0 => Some ts0
            | None => max_timestamp
                        (map PlayerCountByWorld.timestamp (playercountbyworld session))
            end); [|constructor].
  eapply StronglySorted_weaken; [|apply order_by_desc_sorted].
  unfold not_below. simpl. intros a b H.
  destruct (Z.compare_spec (row_players a) (row_players b)); congruence || lia.
Qed.

Lemma filter_same {A : Type} (p q : A -> bool) (l : list A) :
  (forall x, p x = true <-> q x = true) -> filter p l = filter q l.
Proof.
  intros H. apply filter_ext. intros x. specialize (H x).
  destruct (p x), (q x); intuition congruence.
Qed.

Lemma world_snapshot_at (session : Session) (ts : DateTime)
    (p : PlayerCountByWorld.t -> bool) :
  (forall r, p r = true <-> PlayerCountByWorld.timestamp r = Some ts) ->
  Permutation (world_snapshot session (Some ts))
    (map snapshot_columns (filter p (playercountbyworld session))).
Proof.
  intros Hp. unfold world_snapshot.
  rewrite order_by_desc_perm.
  rewrite (filter_same p (fun r => timestamp_is ts (PlayerCountByWorld.timestamp r)));
    [reflexivity|].
  intros r. rewrite Hp, timestamp_is_iff. reflexivity.
Qed.

Lemma filter_none {A : Type} (p : A -> bool) (l : list A) :
  (forall x, In x l -> p x = false) -> filter p l = [].
Proof.
  induction l as [|x l IH]; simpl; intros H; [reflexivity|].
  rewrite (H x) by now left. apply IH. intros; apply H; now right.
Qed.

Lemma filter_all {A : Type} (p : A -> bool) (l : list A) :
  (forall x, In x l -> p x = true) -> filter p l = l.
Proof.
  induction l as [|x l IH]; simpl; intros H; [reflexivity|].
  rewrite (H x) by now left. f_equal. apply IH. intros; apply H; now right.
Qed.

Lemma timestamp_is_false (ts : DateTime) (col : option DateTime) :
  col <> Some ts -> timestamp_is ts col = false.
Proof.
  intros H. destruct (timestamp_is ts col) eqn:E; [|reflexivity].
  apply timestamp_is_iff in E. contradiction.
Qed.

(** C6.  With an explicit timestamp TS, [world_snapshot] returns the rows
    whose timestamp is exactly TS, each once, in some order: after a batch
    of rows stamped TS is added to a store that held none at TS it returns
    exactly that batch, and when no row is stamped TS it returns the empty
    list, whatever older rows the store holds. *)
Theorem snapshot_at_exact_timestamp (session : Session) (ts : DateTime) :
  (forall p : PlayerCountByWorld.t -> bool,
     (forall r, p r = true <-> PlayerCountByWorld.timestamp r = Some ts) ->
     Permutation (world_snapshot session (Some ts))
       (map snapshot_columns (filter p (playercountbyworld session)))) /\
  (forall batch : list PlayerCountByWorld.t,
     (forall r, In r batch -> PlayerCountByWorld.timestamp r = Some ts) ->
     (forall r, In r (playercountbyworld session) ->
                PlayerCountByWorld.timestamp r <> Some ts) ->
     Permutation (world_snapshot (add_all session batch) (Some ts))
       (map snapshot_columns batch)) /\
  ((forall r, In r (playercountbyworld session) ->
              PlayerCountByWorld.timestamp r <> Some ts) ->
   world_snapshot session (Some ts) = []).
Proof.
  split; [|split].
  - intros p Hp. now apply world_snapshot_at.
  - intros batch Hbatch Hold. unfold world_snapshot, add_all. simpl.
    rewrite order_by_desc_perm, filter_app.
    rewrite (filter_none _ (playercountbyworld session)), (filter_all _ batch).
    + reflexivity.
    + intros r Hr. apply timestamp_is_iff. now apply Hbatch.
    + intros r Hr. apply timestamp_is_false. now apply Hold.
  - intros Hnone. unfold world_snapshot.
    rewrite filter_none; [reflexivity|].
    intros r Hr. apply timestamp_is_false. now apply Hnone.
Qed.

Lemma snapshot_at_exact_timestamp_witness :
  (forall r, In r scrape_at_10_37 ->
             PlayerCountByWorld.timestamp r = Some at_10_37) /\
  (forall r, In r (playercountbyworld three_in_one_hour) ->
             PlayerCountByWorld.timestamp r <> Some at_10_37) /\
  Permutation
    (world_snapshot (add_all three_in_one_hour scrape_at_10_37) (Some at_10_37))
    (map snapshot_columns scrape_at_10_37) /\
  world_snapshot three_in_one_hour (Some at_10_37) = [].
Proof.
  assert (Hnew : forall r, In r scrape_at_10_37 ->
                           PlayerCountByWorld.timestamp r = Some at_10_37).
  { simpl. intros r [<-|[<-|[<-|[]]]]; reflexivity. }
  assert (Hold : forall r, In r (playercountbyworld three_in_one_hour) ->
                           PlayerCountByWorld.timestamp r <> Some at_10_37).
  { simpl. intros r [<-|[<-|[<-|[]]]]; discriminate. }
  split; [exact Hnew|]. split; [exact Hold|].
  destruct (snapshot_at_exact_timestamp three_in_one_hour at_10_37)
    as (_ & Hround & Hempty).
  split; [exact (Hround scrape_at_10_37 Hnew Hold) | exact (Hempty Hold)].
Defined.

Lemma max_timestamp_none (col : list (option DateTime)) :
  max_timestamp col = None <-> (forall x, In x col -> x = None).
Proof.
  induction col as [|[t|] col IH]; simpl.
  - tauto.
  - split.
    + destruct (max_timestamp col) as [m|]; [destruct (datetime_leb m t)|];
        discriminate.
    + intros H. specialize (H (Some t) (or_introl eq_refl)). discriminate.
  - rewrite IH. split.
    + intros H x [<-|Hx]; auto.
    + intros H x Hx. apply H. now right.
Qed.

Lemma max_timestamp_some (col : list (option DateTime)) (m : DateTime) :
  max_timestamp col = Some m ->
  In (Some m) col /\ (forall t, In (Some t) col -> datetime_leb t m = true).
Proof.
  revert m. induction col as [|[t|] col IH]; simpl; intros m.
  - discriminate.
  - destruct (max_timestamp col) as [m'|] eqn:E.
    + destruct (IH m' eq_refl) as [Hin Hmax].
      destruct (datetime_leb m' t) eqn:L; intros H; inversion H; subst m; clear H.
      * split; [now left|]. intros x [Hx|Hx].
        -- inversion Hx. apply datetime_leb_refl.
        -- eapply datetime_leb_trans; [now apply Hmax | exact L].
      * split; [now right|]. intros x [Hx|Hx].
        -- inversion Hx; subst x. now apply datetime_leb_false.
        -- now apply Hmax.
    + intros H; inversion H; subst m; clear H.
      split; [now left|]. intros x [Hx|Hx].
      * inversion Hx. apply datetime_leb_refl.
      * apply (proj1 (max_timestamp_none col) E) in Hx. discriminate.
  - intros H. destruct (IH m H) as [Hin Hmax]. split; [now right|].
    intros x [Hx|Hx]; [discriminate | now apply Hmax].
Qed.

Lemma max_timestamp_latest (session : Session) (m : DateTime) :
  latest_timestamp session m ->
  max_timestamp (map PlayerCountByWorld.timestamp (playercountbyworld session))
  = Some m.
Proof.
  intros [(r & Hr & Hts) Hmax].
  destruct (max_timestamp
              (map PlayerCountByWorld.timestamp (playercountbyworld session)))
    as [m'|] eqn:E.
  - destruct (max_timestamp_some _ _ E) as [Hin Hmax'].
    f_equal. apply datetime_leb_antisym.
    + apply in_map_iff in Hin as (r' & Hts' & Hr'). eapply Hmax; eassumption.
    + apply Hmax'. rewrite <- Hts. now apply in_map.
  - rewrite max_timestamp_none in E.
    specialize (E (PlayerCountByWorld.timestamp r) (in_map _ _ _ Hr)).
    congruence.
Qed.

(** C7.  Without a timestamp, [world_snapshot] answers as it does for the
    greatest timestamp of the world table: the rows stamped exactly with
    it, each once, by descending player count; a store whose world table
    is empty (or holds no timestamp at all) gives the empty list. *)
Theorem snapshot_latest (session : Session) :
  (playercountbyworld session = [] -> world_snapshot session None = []) /\
  ((forall r, In r (playercountbyworld session) ->
              PlayerCountByWorld.timestamp r = None) ->
   world_snapshot session None = []) /\
  (forall m : DateTime,
     latest_timestamp session m ->
     world_snapshot session None = world_snapshot session (Some m) /\
     (forall p : PlayerCountByWorld.t -> bool,
        (forall r, p r = true <-> PlayerCountByWorld.timestamp r = Some m) ->
        Permutation (world_snapshot session None)
          (map snapshot_columns (filter p (playercountbyworld session))))) /\
  descending_by_players (world_snapshot session None) /\
  ((exists r t, In r (playercountbyworld session) /\
                PlayerCountByWorld.timestamp r = Some t) ->
   exists m, latest_timestamp session m).
Proof.
  split; [|split; [|split; [|split]]].
  - intros E. unfold world_snapshot. now rewrite E.
  - intros Hnull. unfold world_snapshot.
    replace (max_timestamp
               (map PlayerCountByWorld.timestamp (playercountbyworld session)))
      with (@None DateTime); [reflexivity|].
    symmetry. apply max_timestamp_none. intros x Hx.
    apply in_map_iff in Hx as (r & <- & Hr). now apply Hnull.
  - intros m Hm.
    assert (E : world_snapshot session None = world_snapshot session (Some m)).
    { unfold world_snapshot. now rewrite (max_timestamp_latest _ _ Hm). }
    split; [exact E|]. intros p Hp. rewrite E. now apply world_snapshot_at.
  - apply world_snapshot_descending.
  - intros (r & t & Hr & Hts).
    destruct (max_timestamp
                (map PlayerCountByWorld.timestamp (playercountbyworld session)))
      as [m|] eqn:E.
    + exists m. destruct (max_timestamp_some _ _ E) as [Hin Hmax].
      split.
      * apply in_map_iff in Hin as (r' & Hts' & Hr'). eauto.
      * intros r' t' Hr' Hts'. apply Hmax. rewrite <- Hts'. now apply in_map.
    + rewrite max_timestamp_none in E.
      specialize (E (PlayerCountByWorld.timestamp r) (in_map _ _ _ Hr)).
      congruence.
Qed.

(** The store of [three_in_one_hour] after the scrape of 10:37: its
    greatest timestamp is 10:40, of the older observation of world 301. *)
Lemma snapshot_latest_witness :
  latest_timestamp (add_all three_in_one_hour scrape_at_10_37)
    (mkDateTime 2024 1 15 10 40 0 0) /\
  world_snapshot (add_all three_in_one_hour scrape_at_10_37) None
  = world_snapshot (add_all three_in_one_hour scrape_at_10_37)
      (Some (mkDateTime 2024 1 15 10 40 0 0)) /\
  descending_by_players
    (world_snapshot (add_all three_in_one_hour scrape_at_10_37) None).
Proof.
  assert (Hm : latest_timestamp (add_all three_in_one_hour scrape_at_10_37)
                 (mkDateTime 2024 1 15 10 40 0 0)).
  { split.
    - eexists. split; [right; right; left; reflexivity | reflexivity].
    - simpl. intros r t [<-|[<-|[<-|[<-|[<-|[<-|[]]]]]]] H; inversion H;
        reflexivity. }
  split; [exact Hm|].
  destruct (snapshot_latest (add_all three_in_one_hour scrape_at_10_37))
    as (_ & _ & Hlatest & Hdesc & _).
  split; [exact (proj1 (Hlatest _ Hm)) | exact Hdesc].
Defined.

(** ** Values outside the enumerations *)

Lemma bucket_format_unknown (granularity : string) :
  (forall g, Granularity_value g <> granularity) ->
  dict_get _BUCKET_FORMAT granularity = None.
Proof.
  intros H. unfold _BUCKET_FORMAT. cbn [dict_get].
  rewrite (proj2 (String.eqb_neq _ _) (H FIVE_MIN)),
    (proj2 (String.eqb_neq _ _) (H FIFTEEN_MIN)),
    (proj2 (String.eqb_neq _ _) (H THIRTY_MIN)),
    (proj2 (String.eqb_neq _ _) (H HOURLY)),
    (proj2 (String.eqb_neq _ _) (H DAILY)),
    (proj2 (String.eqb_neq _ _) (H WEEKLY)),
    (proj2 (String.eqb_neq _ _) (H MONTHLY)).
  reflexivity.
Qed.

Lemma time_bucket_unknown (dv : DivisionRendering) (granularity : string) :
  (forall g, Granularity_value g <> granularity) ->
  _time_bucket dv granularity = Raise (KeyError granularity).
Proof.
  intros H. unfold _time_bucket, subscript.
  now rewrite (bucket_format_unknown _ H).
Qed.

(** C8 (as stated, refuted).  ["median"] is no member of Aggregation, yet
    the single-world series accepts it and answers with the maximum of the
    bucket, as it does for PEAK. *)
Lemma unknown_aggregation_is_accepted :
  (forall a, Aggregation_value a <> "median") /\
  player_count_by_world PlainSlash three_in_one_hour "301"
    (mkDateTime 2024 1 15 0 0 0 0) (mkDateTime 2024 1 16 0 0 0 0)
    (Granularity_value HOURLY) "median"
  = Ok [(SqlText "2024-01-15 10:00:00", SqlInteger 30)].
Proof.
  split.
  - intros [|]; discriminate.
  - vm_compute. reflexivity.
Qed.

(** C8 (amended).  A granularity outside the enumeration makes every
    bucketed query raise [KeyError] before it produces any result,
    whatever the store and the other arguments.  An aggregation outside
    the enumeration does not: it is not checked, it selects the maximum,
    and with every member of Granularity each query answers, the series
    as they do for PEAK. *)
Theorem unknown_granularity_raises (dv : DivisionRendering) (session : Session)
    (game world : string) (start end_ : DateTime) (granularity agg : string) :
  ((forall g, Granularity_value g <> granularity) ->
   _time_bucket dv granularity = Raise (KeyError granularity) /\
   player_count_timeseries dv session game start end_ granularity agg
     = Raise (KeyError granularity) /\
   combined_total_timeseries dv session start end_ granularity agg
     = Raise (KeyError granularity) /\
   player_count_by_type dv session start end_ granularity agg
     = Raise (KeyError granularity) /\
   player_count_by_region dv session start end_ granularity agg
     = Raise (KeyError granularity) /\
   player_count_by_world dv session world start end_ granularity agg
     = Raise (KeyError granularity)) /\
  ((forall a, Aggregation_value a <> agg) ->
   _agg_func agg = func_max /\
   (forall g : Granularity,
      is_Ok (player_count_timeseries dv session game start end_
               (Granularity_value g) agg) /\
      is_Ok (combined_total_timeseries dv session start end_
               (Granularity_value g) agg) /\
      is_Ok (player_count_by_type dv session start end_
               (Granularity_value g) agg) /\
      is_Ok (player_count_by_region dv session start end_
               (Granularity_value g) agg) /\
      is_Ok (player_count_by_world dv session world start end_
               (Granularity_value g) agg)) /\
   player_count_timeseries dv session game start end_ granularity agg
     = player_count_timeseries dv session game start end_ granularity
         (Aggregation_value PEAK) /\
   combined_total_timeseries dv session start end_ granularity agg
     = combined_total_timeseries dv session start end_ granularity
         (Aggregation_value PEAK) /\
   player_count_by_world dv session world start end_ granularity agg
     = player_count_by_world dv session world start end_ granularity
         (Aggregation_value PEAK)).
Proof.
  split.
  - intros H.
    unfold player_count_timeseries, combined_total_timeseries,
      player_count_by_type, player_count_by_region, player_count_by_world.
    rewrite (time_bucket_unknown dv _ H). cbn [bind]. repeat split.
  - intros H.
    assert (E : _agg_func agg = func_max).
    { unfold _agg_func.
      specialize (H AVERAGE). apply not_eq_sym in H.
      apply String.eqb_neq in H. now rewrite H. }
    split; [exact E|]. split.
    + intros g. destruct (time_bucket_total dv g) as (bucket & Hb).
      unfold player_count_timeseries, combined_total_timeseries,
        player_count_by_type, player_count_by_region, player_count_by_world.
      rewrite Hb. cbn [bind is_Ok]. repeat split.
    + unfold player_count_timeseries, combined_total_timeseries,
        player_count_by_world.
      rewrite E. repeat split.
Qed.

Lemma unknown_granularity_raises_witness :
  (forall g, Granularity_value g <> "yearly") /\
  (forall a, Aggregation_value a <> "median") /\
  player_count_by_world PlainSlash three_in_one_hour "301"
    (mkDateTime 2024 1 15 0 0 0 0) (mkDateTime 2024 1 16 0 0 0 0)
    "yearly" "median" = Raise (KeyError "yearly") /\
  _agg_func "median" = func_max.
Proof.
  assert (Hg : forall g, Granularity_value g <> "yearly")
    by (intros []; discriminate).
  assert (Ha : forall a, Aggregation_value a <> "median")
    by (intros []; discriminate).
  split; [exact Hg|]. split; [exact Ha|].
  destruct (unknown_granularity_raises PlainSlash three_in_one_hour "OSRS" "301"
              (mkDateTime 2024 1 15 0 0 0 0) (mkDateTime 2024 1 16 0 0 0 0)
              "yearly" "median") as [Hraise Hpeak].
  split.
  - exact (proj2 (proj2 (proj2 (proj2 (proj2 (Hraise Hg)))))).
  - exact (proj1 (Hpeak Ha)).
Defined.

(** ** Activity totals *)

(** C9 (as stated, refuted).  On a store that holds a row without
    activity and a row labelled No Activity, [player_count_by_activity]
    returns two no-activity groups, the NULL one and the labelled one. *)
Lemma activity_groups_split_on_null :
  player_count_by_activity unlabelled_and_labelled
    (mkDateTime 2024 1 15 0 0 0 0) (mkDateTime 2024 1 16 0 0 0 0)
  = [ (SqlNull, SqlInteger 40, SqlInteger 1);
      (SqlText "No Activity", SqlInteger 25, SqlInteger 1) ] /\
  List.length
    (filter no_activity_label
       (map activity_of
          (player_count_by_activity unlabelled_and_labelled
             (mkDateTime 2024 1 15 0 0 0 0) (mkDateTime 2024 1 16 0 0 0 0))))
  = 2%nat.
Proof. split; vm_compute; reflexivity. Qed.

Lemma clean_activity_label (raw : option string) :
  no_activity_label (SqlText (clean_activity raw)) = true ->
  clean_activity raw = "No Activity".
Proof.
  unfold clean_activity. destruct raw as [s|]; [|reflexivity].
  destruct (String.eqb s "-" || String.eqb s EmptyString) eqn:E; [reflexivity|].
  simpl. apply orb_false_iff in E as [-> ->]. simpl.
  intros H. now apply String.eqb_eq in H.
Qed.

Lemma filter_at_most_one {A : Type} (p : A -> bool) (c : A) (l : list A) :
  NoDup l -> (forall x, In x l -> p x = true -> x = c) ->
  (List.length (filter p l) <= 1)%nat.
Proof.
  induction 1 as [|x l Hx Hnd IH]; simpl; intros Hc; [lia|].
  destruct (p x) eqn:E.
  - assert (x = c) by (apply Hc; auto). subst x.
    rewrite filter_none; [simpl; lia|].
    intros y Hy. destruct (p y) eqn:Ey; [|reflexivity].
    assert (y = c) by (apply Hc; auto). subst y. contradiction.
  - apply IH. intros y Hy. apply Hc. now right.
Qed.

Lemma text_column_not_real (c : option string) : not_real (text_column c).
Proof. destruct c; exact I. Qed.

(** The activity labels of the output are the distinct stored labels of
    the selected rows. *)
Lemma activity_labels (session : Session) (start end_ : DateTime) :
  Permutation
    (map activity_of (player_count_by_activity session start end_))
    (distinct_keys sql_compare
       (fun r => text_column (PlayerCountByWorld.activity r))
       (filter (fun r => between start end_ (PlayerCountByWorld.timestamp r))
          (playercountbyworld session))).
Proof.
  unfold player_count_by_activity.
  rewrite order_by_desc_perm, map_map. unfold activity_of. simpl.
  rewrite <- (group_by_keys (cmp := sql_compare)).
  reflexivity.
Qed.

Lemma activity_labels_NoDup (session : Session) (start end_ : DateTime) :
  NoDup (map activity_of (player_count_by_activity session start end_)).
Proof.
  pose proof sql_compare_ordering as ord.
  eapply Permutation_NoDup; [symmetry; apply activity_labels|].
  apply (below_sorted_NoDup ord).
  apply (distinct_keys_sorted _ ord).
Qed.

(** A value is the label of an output row exactly when a selected row
    stores it. *)
Lemma activity_label_in_output (session : Session) (start end_ : DateTime)
    (v : SqlValue) :
  In v (map activity_of (player_count_by_activity session start end_)) <->
  exists r, In r (rows_between session start end_) /\
            text_column (PlayerCountByWorld.activity r) = v.
Proof.
  pose proof sql_compare_ordering as ord.
  split.
  - intros Hv.
    apply (Permutation_in _ (activity_labels session start end_)) in Hv.
    now apply distinct_keys_sound in Hv.
  - intros (r & Hr & <-).
    apply (Permutation_in _ (Permutation_sym (activity_labels session start end_))).
    destruct (distinct_keys_complete
                (fun r => text_column (PlayerCountByWorld.activity r)) ord _ _ Hr)
      as (k & Hk & E).
    destruct (distinct_keys_sound _ _ _ Hk) as (r' & _ & Hk').
    apply sql_compare_eq in E;
      [now rewrite E | apply text_column_not_real
       | rewrite <- Hk'; apply text_column_not_real].
Qed.

(** The rows of a label are the selected rows that store it. *)
Lemma rows_of_label (c : option string) (src : list PlayerCountByWorld.t)
    (r : PlayerCountByWorld.t) :
  In r (rows_of sql_compare
          (fun r => text_column (PlayerCountByWorld.activity r))
          (text_column c) src) <->
  In r src /\ text_column (PlayerCountByWorld.activity r) = text_column c.
Proof.
  unfold rows_of. rewrite filter_In. split; intros [Hr E]; (split; [exact Hr|]).
  - apply sql_compare_eq; try apply text_column_not_real.
    destruct (sql_compare _ _); simpl in E; congruence.
  - rewrite E, sql_compare_refl. reflexivity.
Qed.

(** Every output row of [player_count_by_activity] carries the sum of the
    players and the number of the selected rows of its label. *)
Lemma activity_row_totals (session : Session) (start end_ : DateTime)
    (row : SqlValue * SqlValue * SqlValue) :
  In row (player_count_by_activity session start end_) ->
  let rows := rows_of sql_compare
                (fun r => text_column (PlayerCountByWorld.activity r))
                (activity_of row) (rows_between session start end_) in
  rows <> [] /\
  total_players_of row = SqlInteger (Zsum (map PlayerCountByWorld.players rows)) /\
  snapshot_count_of row = SqlInteger (Z.of_nat (List.length rows)).
Proof.
  pose proof sql_compare_ordering as ord.
  unfold player_count_by_activity. intros Hin.
  apply (Permutation_in _ (order_by_desc_perm _ _)) in Hin.
  apply in_map_iff in Hin as ([k g] & <- & Hin). simpl.
  destruct (group_by_sound _ ord _ _ _ Hin) as (-> & Hne & _).
  fold (rows_between session start end_) in *.
  unfold activity_of, total_players_of, snapshot_count_of. simpl.
  split; [exact Hne|]. split.
  - apply func_sum_not_nil. now apply map_not_nil.
  - unfold func_count. now rewrite length_map.
Qed.

Lemma clean_activity_no_activity (raw : option string) :
  clean_activity raw = "No Activity" <->
  raw = None \/ raw = Some "-" \/ raw = Some EmptyString
  \/ raw = Some "No Activity".
Proof.
  unfold clean_activity. destruct raw as [s|]; [|tauto].
  destruct (String.eqb_spec s "-") as [->|E1]; [simpl; tauto|].
  destruct (String.eqb_spec s EmptyString) as [->|E2]; [simpl; tauto|].
  simpl. split.
  - intros ->. auto.
  - intros [H|[H|[H|H]]]; congruence.
Qed.

(** C9 (amended).  [player_count_by_activity] groups by the stored label
    as it is: a value labels an output row exactly when a selected row
    stores it, each stored value labels one output row, NULL being one of
    the values, and the row of a label carries the sum of the players and
    the number of the selected rows that store this very label.  The
    scraper replaces a missing label and the placeholders by No Activity
    before it writes a row; on a store it has written at most one group
    has a no-activity label, and that label is No Activity. *)
Theorem activity_groups_of_scraped_store (session : Session)
    (start end_ : DateTime) :
  NoDup (map activity_of (player_count_by_activity session start end_)) /\
  (forall v,
     In v (map activity_of (player_count_by_activity session start end_)) <->
     exists r, In r (rows_between session start end_) /\
               text_column (PlayerCountByWorld.activity r) = v) /\
  (forall row, In row (player_count_by_activity session start end_) ->
     (forall r,
        In r (rows_of sql_compare
                (fun r => text_column (PlayerCountByWorld.activity r))
                (activity_of row) (rows_between session start end_)) <->
        In r (rows_between session start end_) /\
        text_column (PlayerCountByWorld.activity r) = activity_of row) /\
     total_players_of row
     = SqlInteger
         (Zsum (map PlayerCountByWorld.players
                  (rows_of sql_compare
                     (fun r => text_column (PlayerCountByWorld.activity r))
                     (activity_of row) (rows_between session start end_)))) /\
     snapshot_count_of row
     = SqlInteger
         (Z.of_nat
            (List.length
               (rows_of sql_compare
                  (fun r => text_column (PlayerCountByWorld.activity r))
                  (activity_of row) (rows_between session start end_))))) /\
  (forall raw,
     clean_activity raw = "No Activity" <->
     raw = None \/ raw = Some "-" \/ raw = Some EmptyString
     \/ raw = Some "No Activity") /\
  (written_by_scraper session ->
   (forall row, In row (player_count_by_activity session start end_) ->
                no_activity_label (activity_of row) = true ->
                activity_of row = SqlText "No Activity") /\
   (List.length
      (filter no_activity_label
         (map activity_of (player_count_by_activity session start end_)))
    <= 1)%nat).
Proof.
  pose proof (activity_labels_NoDup session start end_) as Hnd.
  split; [exact Hnd|].
  split; [apply activity_label_in_output|].
  split.
  { intros row Hrow.
    destruct (activity_row_totals _ _ _ _ Hrow) as (_ & Ht & Hc).
    split; [|split; [exact Ht | exact Hc]].
    assert (Hv : In (activity_of row)
                   (map activity_of (player_count_by_activity session start end_)))
      by now apply in_map.
    apply activity_label_in_output in Hv as (r0 & _ & <-).
    intros r. apply rows_of_label. }
  split; [apply clean_activity_no_activity|].
  intros Hw.
  assert (Hlabel : forall v,
             In v (map activity_of (player_count_by_activity session start end_)) ->
             no_activity_label v = true -> v = SqlText "No Activity").
  { intros v Hv Hp.
    apply activity_label_in_output in Hv as (r & Hr & <-).
    apply filter_In in Hr as [Hr _].
    destruct (Hw r Hr) as (raw & Hraw). rewrite Hraw in *. simpl in *.
    f_equal. now apply clean_activity_label. }
  split.
  - intros row Hrow. apply Hlabel. now apply in_map.
  - eapply filter_at_most_one; [exact Hnd | exact Hlabel].
Qed.

(** The scrape of 10:37 as the scraper writes it: two of its three rows
    had no activity, and they are counted in the one group No Activity. *)
Lemma activity_groups_of_scraped_store_witness :
  written_by_scraper (mkSession [] scrape_at_10_37) /\
  (List.length
     (filter no_activity_label
        (map activity_of
           (player_count_by_activity (mkSession [] scrape_at_10_37)
              (mkDateTime 2024 1 15 0 0 0 0) (mkDateTime 2024 1 16 0 0 0 0))))
   <= 1)%nat /\
  player_count_by_activity (mkSession [] scrape_at_10_37)
    (mkDateTime 2024 1 15 0 0 0 0) (mkDateTime 2024 1 16 0 0 0 0)
  = [ (SqlText "Trade", SqlInteger 950, SqlInteger 1);
      (SqlText "No Activity", SqlInteger 240, SqlInteger 2) ].
Proof.
  assert (Hw : written_by_scraper (mkSession [] scrape_at_10_37)).
  { intros r. simpl. intros [<-|[<-|[<-|[]]]].
    - exists None. reflexivity.
    - exists (Some "Trade"). reflexivity.
    - exists (Some "-"). reflexivity. }
  split; [exact Hw|]. split; [|vm_compute; reflexivity].
  exact (proj2 (proj2 (proj2 (proj2 (proj2
           (activity_groups_of_scraped_store
              (mkSession [] scrape_at_10_37)
              (mkDateTime 2024 1 15 0 0 0 0)
              (mkDateTime 2024 1 16 0 0 0 0))))) Hw)).
Defined.

Lemma StronglySorted_weaken_in {A : Type} (P Q : A -> A -> Prop) (l : list A) :
  StronglySorted P l ->
  (forall a b, In a l -> In b l -> P a b -> Q a b) ->
  StronglySorted Q l.
Proof.
  induction 1 as [|x l Hs IH Hall]; intros HPQ; constructor.
  - apply IH. intros a b Ha Hb. apply HPQ; now right.
  - rewrite Forall_forall in *. intros y Hy.
    apply HPQ; [now left | now right | now apply Hall].
Qed.

Lemma activity_rows_descending (session : Session) (start end_ : DateTime) :
  StronglySorted
    (fun a b => value_int (total_players_of a) >= value_int (total_players_of b))
    (player_count_by_activity session start end_).
Proof.
  apply (StronglySorted_weaken_in
           (not_below (fun row : SqlValue * SqlValue * SqlValue => snd (fst row)))).
  - unfold player_count_by_activity. apply order_by_desc_sorted.
  - intros a b Ha Hb.
    destruct (activity_row_totals _ _ _ _ Ha) as (_ & Ea & _).
    destruct (activity_row_totals _ _ _ _ Hb) as (_ & Eb & _).
    unfold not_below. fold (total_players_of a). fold (total_players_of b).
    rewrite Ea, Eb. cbn [sql_compare value_int cast_integer].
    intros H. apply Z.le_ge. apply Z.compare_ge_iff.
    rewrite Z.compare_antisym in H |- *.
    destruct (Z.compare _ _); simpl in *; congruence.
Qed.

(** C10.  [player_count_by_activity] returns one row for every activity
    stored by a selected row and no other, each activity once; the total
    of a row is the sum of the players of the selected rows of its
    activity; the rows come by descending total, so that the first row
    carries a total that no row of the result exceeds: the activity with
    the most players comes first. *)
Theorem activity_totals_descending (session : Session) (start end_ : DateTime) :
  (forall r, In r (rows_between session start end_) ->
     exists row, In row (player_count_by_activity session start end_) /\
                 activity_of row = text_column (PlayerCountByWorld.activity r)) /\
  NoDup (map activity_of (player_count_by_activity session start end_)) /\
  (forall row, In row (player_count_by_activity session start end_) ->
     (exists r, In r (rows_between session start end_) /\
                text_column (PlayerCountByWorld.activity r) = activity_of row) /\
     total_players_of row
     = SqlInteger
         (Zsum (map PlayerCountByWorld.players
                  (rows_of sql_compare
                     (fun r => text_column (PlayerCountByWorld.activity r))
                     (activity_of row) (rows_between session start end_))))) /\
  StronglySorted
    (fun a b => value_int (total_players_of a) >= value_int (total_players_of b))
    (player_count_by_activity session start end_) /\
  (forall first rest,
     player_count_by_activity session start end_ = first :: rest ->
     forall row, In row (player_count_by_activity session start end_) ->
       value_int (total_players_of first) >= value_int (total_players_of row)).
Proof.
  split; [|split; [apply activity_labels_NoDup|split; [|split]]].
  - intros r Hr.
    assert (Hv : In (text_column (PlayerCountByWorld.activity r))
                   (map activity_of (player_count_by_activity session start end_)))
      by (apply activity_label_in_output; eauto).
    apply in_map_iff in Hv as (row & E & Hrow). eauto.
  - intros row Hrow. split.
    + apply activity_label_in_output. now apply in_map.
    + now apply activity_row_totals.
  - apply activity_rows_descending.
  - intros first rest E row Hrow.
    pose proof (activity_rows_descending session start end_) as Hs.
    rewrite E in Hs, Hrow. inversion Hs as [|? ? _ Hall]; subst.
    destruct Hrow as [<-|Hrow]; [lia|].
    rewrite Forall_forall in Hall. now apply Hall.
Qed.

(** Three labels in one scrape: the totals come out as 950, 240 and 10. *)
Example activity_totals_example :
  player_count_by_activity
    (add_all (mkSession [] scrape_at_10_37)
       [ PlayerCountByWorld.mk 7 "304" 10 None None (Some "PvP") (Some at_10_37) ])
    (mkDateTime 2024 1 15 0 0 0 0) (mkDateTime 2024 1 16 0 0 0 0)
  = [ (SqlText "Trade", SqlInteger 950, SqlInteger 1);
      (SqlText "No Activity", SqlInteger 240, SqlInteger 2);
      (SqlText "PvP", SqlInteger 10, SqlInteger 1) ].
Proof. vm_compute. reflexivity. Qed.

(** ** Order of the sub-hour buckets *)

(** C3 (code evaluated at failing inputs).  At 5-minute granularity the
    bucket of 2024-01-15 10:55:00 is the INTEGER 2079 and that of the
    later 11:00:00 is 2024, so the later instant sorts first; and
    2024-01-15 10:00:00 and 2024-06-01 03:00:00, months apart, share the
    bucket 2024.  Both renderings of [/] give these values. *)
Theorem five_min_buckets_at_failing_inputs (dv : DivisionRendering) :
  exists bucket,
    _time_bucket dv (Granularity_value FIVE_MIN) = Ok bucket /\
    datetime_lt (mkDateTime 2024 1 15 10 55 0 0) (mkDateTime 2024 1 15 11 0 0 0) /\
    bucket (Some (mkDateTime 2024 1 15 10 55 0 0)) = SqlInteger 2079 /\
    bucket (Some (mkDateTime 2024 1 15 11 0 0 0)) = SqlInteger 2024 /\
    sql_compare (bucket (Some (mkDateTime 2024 1 15 10 55 0 0)))
      (bucket (Some (mkDateTime 2024 1 15 11 0 0 0))) = Gt /\
    bucket (Some (mkDateTime 2024 1 15 10 0 0 0)) = SqlInteger 2024 /\
    bucket (Some (mkDateTime 2024 6 1 3 0 0 0)) = SqlInteger 2024.
Proof.
  destruct dv; (eexists; split; [reflexivity|]);
    (split; [unfold datetime_lt; simpl; lia|]);
    repeat split; vm_compute; reflexivity.
Qed.

(** ** Order of the formatted buckets *)

Lemma digit_compare (x y : Z) (s t : string) :
  0 <= x <= 9 -> 0 <= y <= 9 ->
  String.compare (String (digit_char x) s) (String (digit_char y) t)
  = lex (x ?= y) (String.compare s t).
Proof. intros Hx Hy. each_digit Hx; each_digit Hy; reflexivity. Qed.

Lemma lex_digits (a1 b1 a0 b0 : Z) (k : comparison) :
  0 <= a0 <= 9 -> 0 <= b0 <= 9 ->
  lex (a1 ?= b1) (lex (a0 ?= b0) k) = lex (10 * a1 + a0 ?= 10 * b1 + b0) k.
Proof.
  intros Ha Hb.
  destruct (Z.compare_spec a1 b1) as [E1|L1|G1];
    destruct (Z.compare_spec a0 b0) as [E0|L0|G0];
    destruct (Z.compare_spec (10 * a1 + a0) (10 * b1 + b0)) as [E|L|G];
    simpl; try reflexivity; lia.
Qed.

(** Zero-padded fields of one width compare as their numbers do. *)
Lemma fixed_digits_compare (w : nat) (a b : Z) (s t : string) :
  0 <= a < 10 ^ Z.of_nat w -> 0 <= b < 10 ^ Z.of_nat w ->
  String.compare (fixed_digits w a s) (fixed_digits w b t)
  = lex (a ?= b) (String.compare s t).
Proof.
  revert a b s t. induction w as [|w IH]; intros a b s t Ha Hb.
  - simpl in *. assert (a = 0) by lia. assert (b = 0) by lia. subst. reflexivity.
  - rewrite Nat2Z.inj_succ, Z.pow_succ_r in Ha, Hb by lia.
    cbn [fixed_digits].
    rewrite IH by (split; [apply Z.div_pos; lia | apply Z.div_lt_upper_bound; lia]).
    rewrite digit_compare by apply mod10_digit.
    rewrite lex_digits by apply mod10_digit.
    now rewrite <- !Z.div_mod by lia.
Qed.

Lemma fixed_digits_app (w : nat) (n : Z) (acc s : string) :
  (fixed_digits w n acc ++ s)%string = fixed_digits w n (acc ++ s)%string.
Proof.
  revert n acc. induction w as [|w IH]; intros n acc; simpl; [reflexivity|].
  now rewrite IH.
Qed.

Lemma field2 (n : Z) (s : string) :
  0 <= n <= 99 -> (printf_0d 2 n ++ s)%string = fixed_digits 2 n s.
Proof. intros H. now rewrite printf_0d_2_digits, fixed_digits_app. Qed.

Lemma field4 (n : Z) (s : string) :
  0 <= n <= 9999 -> (printf_0d 4 n ++ s)%string = fixed_digits 4 n s.
Proof. intros H. now rewrite printf_0d_4_digits, fixed_digits_app. Qed.

Lemma field2_compare (a b : Z) (s t : string) :
  0 <= a <= 99 -> 0 <= b <= 99 ->
  String.compare (fixed_digits 2 a s) (fixed_digits 2 b t)
  = lex (a ?= b) (String.compare s t).
Proof. intros Ha Hb. apply fixed_digits_compare; simpl; lia. Qed.

Lemma field4_compare (a b : Z) (s t : string) :
  0 <= a <= 9999 -> 0 <= b <= 9999 ->
  String.compare (fixed_digits 4 a s) (fixed_digits 4 b t)
  = lex (a ?= b) (String.compare s t).
Proof. intros Ha Hb. apply fixed_digits_compare; simpl; lia. Qed.

Lemma same_head_compare (c : ascii) (s t : string) :
  String.compare (String c s) (String c t) = String.compare s t.
Proof. simpl. now rewrite ascii_compare_refl. Qed.

(** The four formatted granularities give a text, and two such texts
    compare as the windows of their instants do; for WEEKLY this needs
    instants that the engine does not round to the next day. *)
Lemma formatted_bucket_compare (dv : DivisionRendering) (g : Granularity)
    (t1 t2 : DateTime) :
  formatted g ->
  (g = WEEKLY ->
   rounds_to_next_day t1 = false /\ rounds_to_next_day t2 = false) ->
  valid_datetime t1 = true -> valid_datetime t2 = true ->
  exists bucket s1 s2,
    _time_bucket dv (Granularity_value g) = Ok bucket /\
    bucket (Some t1) = SqlText s1 /\
    bucket (Some t2) = SqlText s2 /\
    String.compare s1 s2 = list_compare (window g t1) (window g t2).
Proof.
  intros Hg Hr Hv1 Hv2.
  pose proof (week_of_year_spec_range t1 Hv1) as Hw1.
  pose proof (week_of_year_spec_range t2 Hv2) as Hw2.
  assert (He : g = WEEKLY ->
               (day_of_year0 t1 + 7 - strftime_weekday t1) / 7
               = week_of_year_spec t1 /\
               (day_of_year0 t2 + 7 - strftime_weekday t2) / 7
               = week_of_year_spec t2).
  { intros E. destruct (Hr E) as [Hr1 Hr2].
    split; apply week_of_year_engine; assumption. }
  apply valid_datetime_bounds in Hv1 as (Hy1 & Hm1 & Hd1 & Hh1 & _).
  apply valid_datetime_bounds in Hv2 as (Hy2 & Hm2 & Hd2 & Hh2 & _).
  pose proof (days_in_month_le_31 (year t1) (month t1)).
  pose proof (days_in_month_le_31 (year t2) (month t2)).
  destruct Hg as [->|[->|[->| ->]]];
    (eexists; eexists; eexists; split; [reflexivity|];
     unfold func_strftime;
     cbn [strftime strftime_conversion Ascii.eqb Bool.eqb];
     try (destruct (He eq_refl) as [He1 He2]; rewrite He1, He2);
     rewrite !field4, !field2 by lia;
     split; [reflexivity|]; split; [reflexivity|];
     rewrite field4_compare by lia;
     repeat (rewrite same_head_compare || rewrite field2_compare by lia);
     reflexivity).
Qed.

Lemma list_compare_eq (l1 l2 : list Z) : list_compare l1 l2 = Eq <-> l1 = l2.
Proof.
  revert l2. induction l1 as [|x l1 IH]; intros [|y l2]; simpl;
    try (split; [discriminate | congruence]); [tauto|].
  rewrite lex_Eq, IH. split; [intros [-> ->]; reflexivity | intros H; inversion H; auto].
Qed.

Lemma lex_not_Gt (x y : Z) (k : comparison) :
  lex (x ?= y) k <> Gt <-> x < y \/ (x = y /\ k <> Gt).
Proof.
  destruct (Z.compare_spec x y) as [E|L|G]; simpl.
  - split; [intros; right; auto | intros [?|[_ ?]]; [lia | assumption]].
  - split; [intros; left; lia | discriminate].
  - split; [congruence | intros [?|[? _]]; lia].
Qed.

Lemma Eq_not_Gt : Eq <> Gt <-> True.
Proof. split; [trivial | discriminate]. Qed.

Lemma month_cases (m : Z) :
  1 <= m <= 12 ->
  m = 1 \/ m = 2 \/ m = 3 \/ m = 4 \/ m = 5 \/ m = 6 \/
  m = 7 \/ m = 8 \/ m = 9 \/ m = 10 \/ m = 11 \/ m = 12.
Proof. lia. Qed.

(** A month ends before the next ones begin. *)
Lemma days_before_later_month (y m1 m2 : Z) :
  1 <= m1 <= 12 -> 1 <= m2 <= 12 -> m1 < m2 ->
  days_before_month y m1 + days_in_month y m1 <= days_before_month y m2.
Proof.
  intros H1 H2 Hlt.
  destruct (month_cases _ H1) as [->|[->|[->|[->|[->|[->|[->|[->|[->|[->|[->| ->]]]]]]]]]]];
    destruct (month_cases _ H2) as [->|[->|[->|[->|[->|[->|[->|[->|[->|[->|[->| ->]]]]]]]]]]];
    try lia;
    cbv [days_before_month days_in_month]; destruct (is_leap y); simpl; lia.
Qed.

Lemma day_of_year0_monotone (t1 t2 : DateTime) :
  valid_datetime t1 = true -> valid_datetime t2 = true ->
  year t1 = year t2 ->
  month t1 < month t2 \/ (month t1 = month t2 /\ day t1 <= day t2) ->
  day_of_year0 t1 <= day_of_year0 t2.
Proof.
  intros Hv1 Hv2 Hy Hmd.
  apply valid_datetime_bounds in Hv1 as (_ & Hm1 & Hd1 & _).
  apply valid_datetime_bounds in Hv2 as (_ & Hm2 & Hd2 & _).
  unfold day_of_year0. rewrite <- Hy in *.
  destruct Hmd as [Hlt|[Heq Hle]].
  - pose proof (days_before_later_month (year t1) _ _ Hm1 Hm2 Hlt). lia.
  - rewrite Heq. lia.
Qed.

Lemma week_of_year_spec_monotone (t1 t2 : DateTime) :
  year t1 = year t2 -> day_of_year0 t1 <= day_of_year0 t2 ->
  week_of_year_spec t1 <= week_of_year_spec t2.
Proof.
  intros Hy Hyd. unfold week_of_year_spec. rewrite <- Hy.
  pose proof (first_monday_range (year t1)).
  destruct (Z.ltb_spec (day_of_year0 t1) (first_monday (year t1)));
    destruct (Z.ltb_spec (day_of_year0 t2) (first_monday (year t1)));
    Z.div_mod_to_equations; lia.
Qed.

(** The windows of the specification follow time: a later instant never
    has an earlier window, at any granularity. *)
Lemma window_monotone (g : Granularity) (t1 t2 : DateTime) :
  valid_datetime t1 = true -> valid_datetime t2 = true ->
  datetime_leb t1 t2 = true ->
  list_compare (window g t1) (window g t2) <> Gt.
Proof.
  intros Hv1 Hv2 Hle. apply datetime_leb_spec in Hle as [->|Hlt].
  - rewrite (proj2 (list_compare_eq _ _) eq_refl). discriminate.
  - unfold datetime_lt in Hlt.
    destruct g; cbn [window list_compare];
      rewrite !lex_not_Gt, Eq_not_Gt;
      try (Z.div_mod_to_equations; lia).
    (* WEEKLY *)
    destruct Hlt as [Hy|[Hy Hrest]]; [now left|]. right. split; [exact Hy|].
    assert (Hyd : day_of_year0 t1 <= day_of_year0 t2).
    { apply day_of_year0_monotone; try assumption. lia. }
    pose proof (week_of_year_spec_monotone t1 t2 Hy Hyd). lia.
Qed.

(** ** Bucket keys and the engine's equality *)

(** No bucket is a REAL, so two rows fall in one group exactly when their
    buckets are equal. *)
Lemma time_bucket_not_real (dv : DivisionRendering) (granularity : string)
    (bucket : option DateTime -> SqlValue) (col : option DateTime) :
  _time_bucket dv granularity = Ok bucket -> not_real (bucket col).
Proof.
  unfold _time_bucket, subscript.
  destruct (dict_get _BUCKET_FORMAT granularity) as [[fmt|]|]; cbn [bind].
  - intros H; inversion H; subst bucket. unfold func_strftime.
    destruct col as [t|]; [destruct (strftime fmt t)|]; exact I.
  - destruct (dict_get _SUB_HOUR_MINUTES granularity) as [minutes|]; cbn [bind];
      intros H; inversion H; subst bucket.
    unfold sa_add, sql_add, func_printf, func_strftime.
    destruct col as [t|]; [destruct (strftime _ t)|]; exact I.
  - discriminate.
Qed.

Lemma same_bucket_eq (dv : DivisionRendering) (granularity : string)
    (bucket : option DateTime -> SqlValue) (c1 c2 : option DateTime) :
  _time_bucket dv granularity = Ok bucket ->
  (sql_compare (bucket c1) (bucket c2) = Eq <-> bucket c1 = bucket c2).
Proof.
  intros Hb. split.
  - apply sql_compare_eq; eapply time_bucket_not_real; eassumption.
  - intros ->. apply sql_compare_refl.
Qed.

(** * Further properties of the queries *)

(** ** Sub-hour and formatted keys *)

(** For every valid instant and every sub-hour granularity of [n]
    minutes the bucket is an INTEGER: the year plus the minute truncated
    down to a multiple of [n] (plus the minute itself when [/] is rendered
    as a true division).  Month, day and hour do not enter the key. *)
Theorem sub_hour_bucket_is_year_plus_minute (dv : DivisionRendering)
    (g : Granularity) (n : Z) (t : DateTime) :
  sub_hour_minutes g = Some n ->
  valid_datetime t = true ->
  exists bucket,
    _time_bucket dv (Granularity_value g) = Ok bucket /\
    bucket (Some t)
    = SqlInteger (year t + match dv with
                           | PlainSlash => n * (minute t / n)
                           | SlashPlusZero => minute t
                           end).
Proof.
  intros Hg Hv.
  destruct (time_bucket_sub_hour dv g n t Hg Hv) as (bucket & Hb & Hval).
  exists bucket. split; [exact Hb|]. rewrite Hval.
  pose proof (sub_hour_minutes_cases _ _ Hg) as Hn.
  apply valid_datetime_bounds in Hv as (_ & _ & _ & _ & Hm & _).
  destruct dv.
  - now rewrite rendered_minute_plain.
  - now rewrite rendered_minute_plus_zero.
Qed.

Lemma sub_hour_bucket_is_year_plus_minute_witness :
  sub_hour_minutes THIRTY_MIN = Some 30 /\
  valid_datetime at_10_37 = true /\
  exists bucket,
    _time_bucket PlainSlash (Granularity_value THIRTY_MIN) = Ok bucket /\
    bucket (Some at_10_37) = SqlInteger (2024 + 30 * (37 / 30)).
Proof.
  split; [reflexivity|]. split; [reflexivity|].
  exact (sub_hour_bucket_is_year_plus_minute PlainSlash THIRTY_MIN 30 at_10_37
           eq_refl eq_refl).
Defined.

(** For HOURLY, DAILY and MONTHLY, and for WEEKLY outside the last half
    millisecond of a day, the keys of two instants that the engine can
    format are texts that are equal exactly when the windows of the
    instants are, and that sort, byte by byte, as the instants do. *)
Theorem formatted_buckets_follow_time (dv : DivisionRendering) (g : Granularity)
    (t1 t2 : DateTime) :
  formatted g ->
  calendar_instant g t1 -> calendar_instant g t2 ->
  exists bucket s1 s2,
    _time_bucket dv (Granularity_value g) = Ok bucket /\
    bucket (Some t1) = SqlText s1 /\
    bucket (Some t2) = SqlText s2 /\
    (s1 = s2 <-> window g t1 = window g t2) /\
    (datetime_leb t1 t2 = true -> String.leb s1 s2 = true).
Proof.
  intros Hg (Hv1 & _ & Hr1) (Hv2 & _ & Hr2).
  destruct (formatted_bucket_compare dv g t1 t2 Hg
              (fun E => conj (Hr1 E) (Hr2 E)) Hv1 Hv2)
    as (bucket & s1 & s2 & Hb & E1 & E2 & Hcmp).
  exists bucket, s1, s2. repeat (split; [assumption|]). split.
  - rewrite <- list_compare_eq, <- Hcmp. split.
    + intros ->. apply string_compare_refl.
    + apply String.compare_eq_iff.
  - intros Hle. unfold String.leb. rewrite Hcmp.
    pose proof (window_monotone g t1 t2 Hv1 Hv2 Hle).
    destruct (list_compare (window g t1) (window g t2)); congruence.
Qed.

(** Two instants of one week, and one of the week after, at WEEKLY. *)
Lemma formatted_buckets_follow_time_witness :
  formatted WEEKLY /\
  calendar_instant WEEKLY at_10_37 /\
  calendar_instant WEEKLY (mkDateTime 2024 1 21 23 59 59 999499) /\
  exists bucket s1 s2,
    _time_bucket PlainSlash (Granularity_value WEEKLY) = Ok bucket /\
    bucket (Some at_10_37) = SqlText s1 /\
    bucket (Some (mkDateTime 2024 1 21 23 59 59 999499)) = SqlText s2 /\
    (s1 = s2 <->
     window WEEKLY at_10_37
     = window WEEKLY (mkDateTime 2024 1 21 23 59 59 999499)) /\
    (datetime_leb at_10_37 (mkDateTime 2024 1 21 23 59 59 999499) = true ->
     String.leb s1 s2 = true).
Proof.
  assert (Hg : formatted WEEKLY) by (right; right; left; reflexivity).
  assert (H1 : calendar_instant WEEKLY at_10_37)
    by (split; [reflexivity | split; [reflexivity | intros _; reflexivity]]).
  assert (H2 : calendar_instant WEEKLY (mkDateTime 2024 1 21 23 59 59 999499))
    by (split; [reflexivity | split; [reflexivity | intros _; reflexivity]]).
  split; [exact Hg|]. split; [exact H1|]. split; [exact H2|].
  exact (formatted_buckets_follow_time PlainSlash WEEKLY at_10_37
           (mkDateTime 2024 1 21 23 59 59 999499) Hg H1 H2).
Defined.

(** Outside the last half millisecond of a day, the WEEKLY bucket of an
    instant is the text [YYYY-WW] made of its year and of its week of the
    year counted from the year's first Monday, the days before that
    Monday being in week 00 (the [%W] convention, whose weeks run from 00
    to 53): [first_monday] falls in the first seven days of the year, and
    a day is a Monday exactly when it lies whole weeks from it. *)
Theorem weekly_bucket_is_year_and_week (dv : DivisionRendering) (t : DateTime) :
  valid_datetime t = true ->
  rounds_to_next_day t = false ->
  exists bucket,
    _time_bucket dv (Granularity_value WEEKLY) = Ok bucket /\
    bucket (Some t)
      = SqlText (printf_0d 4 (year t) ++ "-" ++ printf_0d 2 (week_of_year_spec t)) /\
    0 <= week_of_year_spec t <= 53 /\
    (week_of_year_spec t = 0 <-> day_of_year0 t < first_monday (year t)) /\
    (day_of_year0 t >= first_monday (year t) ->
     week_of_year_spec t = (day_of_year0 t - first_monday (year t)) / 7 + 1) /\
    0 <= first_monday (year t) < 7 /\
    (weekday t = 0 <-> (day_of_year0 t - first_monday (year t)) mod 7 = 0).
Proof.
  intros Hv Hr. eexists. split; [reflexivity|].
  pose proof (first_monday_range (year t)) as Hfm.
  split; [|split; [|split; [|split; [|exact (first_monday_spec t)]]]].
  - unfold func_strftime. cbn [strftime strftime_conversion Ascii.eqb Bool.eqb].
    rewrite append_nil_r, week_of_year_engine by assumption. reflexivity.
  - now apply week_of_year_spec_range.
  - unfold week_of_year_spec.
    destruct (Z.ltb_spec (day_of_year0 t) (first_monday (year t))).
    + tauto.
    + split; [|lia]. Z.div_mod_to_equations. lia.
  - intros Hge. unfold week_of_year_spec.
    destruct (Z.ltb_spec (day_of_year0 t) (first_monday (year t))); [lia|].
    reflexivity.
Qed.

Lemma weekly_bucket_is_year_and_week_witness :
  valid_datetime at_10_37 = true /\
  rounds_to_next_day at_10_37 = false /\
  exists bucket,
    _time_bucket PlainSlash (Granularity_value WEEKLY) = Ok bucket /\
    bucket (Some at_10_37) = SqlText "2024-03".
Proof.
  split; [reflexivity|]. split; [reflexivity|].
  destruct (weekly_bucket_is_year_and_week PlainSlash at_10_37 eq_refl eq_refl)
    as (bucket & Hb & Hkey & _).
  exists bucket. split; [exact Hb|]. rewrite Hkey. vm_compute. reflexivity.
Defined.

(** The engine's formula for [%W] with the weekday of the next day,
    against the count of weeks from the first Monday. *)
Lemma week_formula_rounded (w yd : Z) :
  0 <= w < 7 -> 0 <= yd <= 365 ->
  (yd + 7 - ((w + yd) mod 7 + 1) mod 7) / 7 =
  (if yd <? (7 - w) mod 7 then 0 else (yd - (7 - w) mod 7) / 7 + 1)
  + (if (7 - w) mod 7 =? 0
     then (if (w + yd) mod 7 =? 6 then 0 else -1)
     else (if (w + yd) mod 7 =? 6 then 1 else 0)).
Proof.
  intros Hw Hyd. apply Z.eqb_eq.
  assert (Hc : w = 0 \/ w = 1 \/ w = 2 \/ w = 3 \/ w = 4 \/ w = 5 \/ w = 6) by lia.
  destruct Hc as [->|[->|[->|[->|[->|[->| ->]]]]]];
    apply (forallb_Zrange
             (fun yd => (yd + 7 - ((_ + yd) mod 7 + 1) mod 7) / 7 =?
                        (if yd <? (7 - _) mod 7 then 0
                         else (yd - (7 - _) mod 7) / 7 + 1)
                        + (if (7 - _) mod 7 =? 0
                           then (if (_ + yd) mod 7 =? 6 then 0 else -1)
                           else (if (_ + yd) mod 7 =? 6 then 1 else 0))) 0 366);
    try (vm_compute; reflexivity); lia.
Qed.

(** In the last half millisecond of a day, that of 9999-12-31 apart, the
    WEEKLY bucket is still a text [YYYY-WW] with WW between 00 and 53,
    but WW is the week of the
    year shifted: one week back from Monday to Saturday in a year that
    opens on a Monday, one week ahead on the Sundays of any other year,
    and the week of the year itself on the remaining days. *)
Theorem weekly_bucket_when_rounded (dv : DivisionRendering) (t : DateTime) :
  valid_datetime t = true ->
  in_engine_range t = true ->
  rounds_to_next_day t = true ->
  exists bucket,
    _time_bucket dv (Granularity_value WEEKLY) = Ok bucket /\
    bucket (Some t)
      = SqlText (printf_0d 4 (year t) ++ "-"
                 ++ printf_0d 2 (week_of_year_spec t + rounded_week_shift t)) /\
    0 <= week_of_year_spec t + rounded_week_shift t <= 53.
Proof.
  intros Hv _ Hr. eexists. split; [reflexivity|].
  assert (E : (day_of_year0 t + 7 - strftime_weekday t) / 7
              = week_of_year_spec t + rounded_week_shift t).
  { rewrite (strftime_weekday_cases t Hv), Hr.
    unfold week_of_year_spec, rounded_week_shift, first_monday.
    rewrite weekday_from_january_first.
    apply week_formula_rounded.
    - apply weekday_range.
    - now apply day_of_year0_range. }
  split.
  - unfold func_strftime. cbn [strftime strftime_conversion Ascii.eqb Bool.eqb].
    rewrite append_nil_r, E. reflexivity.
  - rewrite <- E.
    pose proof (day_of_year0_range t Hv) as Hyd.
    assert (Hwd : 0 <= strftime_weekday t < 7)
      by (unfold strftime_weekday; apply Z.mod_pos_bound; lia).
    Z.div_mod_to_equations. lia.
Qed.

Lemma weekly_bucket_when_rounded_witness :
  valid_datetime monday_before_midnight = true /\
  in_engine_range monday_before_midnight = true /\
  rounds_to_next_day monday_before_midnight = true /\
  exists bucket,
    _time_bucket PlainSlash (Granularity_value WEEKLY) = Ok bucket /\
    bucket (Some monday_before_midnight) = SqlText "2024-02".
Proof.
  split; [reflexivity|]. split; [reflexivity|]. split; [reflexivity|].
  destruct (weekly_bucket_when_rounded PlainSlash monday_before_midnight
              eq_refl eq_refl eq_refl) as (bucket & Hb & Hkey & _).
  exists bucket. split; [exact Hb|]. rewrite Hkey. vm_compute. reflexivity.
Defined.

(** ** Accepted granularities, empty results *)

(** The two dictionaries of [_time_bucket] cover the enumeration: every
    member has a format or a number of minutes, so no bucketed query
    raises on a member, whatever the store, the range and the value given
    for the aggregation. *)
Theorem bucketed_queries_accept_every_member (dv : DivisionRendering)
    (session : Session) (game world : string) (start end_ : DateTime)
    (g : Granularity) (agg : string) :
  is_Ok (_time_bucket dv (Granularity_value g)) /\
  is_Ok (player_count_timeseries dv session game start end_
           (Granularity_value g) agg) /\
  is_Ok (combined_total_timeseries dv session start end_
           (Granularity_value g) agg) /\
  is_Ok (player_count_by_type dv session start end_ (Granularity_value g) agg) /\
  is_Ok (player_count_by_region dv session start end_ (Granularity_value g) agg) /\
  is_Ok (player_count_by_world dv session world start end_
           (Granularity_value g) agg).
Proof.
  destruct (time_bucket_total dv g) as (bucket & Hb).
  unfold player_count_timeseries, combined_total_timeseries,
    player_count_by_type, player_count_by_region, player_count_by_world.
  rewrite Hb. cbn [bind is_Ok]. tauto.
Qed.

Lemma datetime_lt_irrefl (a : DateTime) : ~ datetime_lt a a.
Proof. unfold datetime_lt. lia. Qed.

Lemma between_reversed (start end_ : DateTime) (col : option DateTime) :
  datetime_lt end_ start -> between start end_ col = false.
Proof.
  intros Hlt. destruct col as [t|]; [|reflexivity]. simpl.
  destruct (datetime_leb start t) eqn:E1; [|reflexivity].
  destruct (datetime_leb t end_) eqn:E2; [|reflexivity].
  pose proof (datetime_leb_trans _ _ _ E1 E2) as H.
  apply datetime_leb_spec in H as [->|H].
  - now apply datetime_lt_irrefl in Hlt.
  - exfalso. apply (datetime_lt_irrefl start).
    eapply datetime_lt_trans; eassumption.
Qed.

(** A range whose end lies before its start selects nothing: every
    query returns the empty list, and none raises. *)
Theorem reversed_range_is_empty (dv : DivisionRendering) (session : Session)
    (game world : string) (start end_ : DateTime) (g : Granularity)
    (agg : string) :
  datetime_lt end_ start ->
  player_count_timeseries dv session game start end_ (Granularity_value g) agg
    = Ok [] /\
  combined_total_timeseries dv session start end_ (Granularity_value g) agg
    = Ok [] /\
  player_count_by_type dv session start end_ (Granularity_value g) agg = Ok [] /\
  player_count_by_region dv session start end_ (Granularity_value g) agg = Ok [] /\
  player_count_by_world dv session world start end_ (Granularity_value g) agg
    = Ok [] /\
  player_count_by_activity session start end_ = [].
Proof.
  intros Hlt.
  destruct (time_bucket_total dv g) as (bucket & Hb).
  unfold player_count_timeseries, combined_total_timeseries,
    player_count_by_type, player_count_by_region, player_count_by_world,
    player_count_by_activity.
  rewrite Hb. cbn [bind].
  rewrite !filter_none;
    try (intros r _; rewrite ?andb_false_iff; try right;
         now apply between_reversed).
  repeat split.
Qed.

Lemma reversed_range_is_empty_witness :
  datetime_lt (mkDateTime 2024 1 15 0 0 0 0) (mkDateTime 2024 1 16 0 0 0 0) /\
  player_count_by_world PlainSlash three_in_one_hour "301"
    (mkDateTime 2024 1 16 0 0 0 0) (mkDateTime 2024 1 15 0 0 0 0)
    (Granularity_value HOURLY) (Aggregation_value PEAK) = Ok [] /\
  player_count_by_activity three_in_one_hour
    (mkDateTime 2024 1 16 0 0 0 0) (mkDateTime 2024 1 15 0 0 0 0) = [].
Proof.
  assert (Hlt : datetime_lt (mkDateTime 2024 1 15 0 0 0 0)
                  (mkDateTime 2024 1 16 0 0 0 0))
    by (unfold datetime_lt; simpl; lia).
  split; [exact Hlt|].
  destruct (reversed_range_is_empty PlainSlash three_in_one_hour "OSRS" "301"
              (mkDateTime 2024 1 16 0 0 0 0) (mkDateTime 2024 1 15 0 0 0 0)
              HOURLY (Aggregation_value PEAK) Hlt)
    as (_ & _ & _ & _ & Hw & Ha).
  split; [exact Hw | exact Ha].
Defined.

(** ** Rows of a grouped series *)

Section SeriesRows.
Context {R V : Type} (key : R -> SqlValue) (value : R -> Z) (F : list Z -> V).

Lemma grouped_series_inv (src : list R) (k : SqlValue) (v : V) :
  In (k, v) (grouped_series key value F src) ->
  v = F (map value (rows_of sql_compare key k src)) /\
  rows_of sql_compare key k src <> [] /\
  exists r, In r src /\ key r = k.
Proof.
  unfold grouped_series. intros Hin.
  apply in_map_iff in Hin as ([k' g] & Heq & Hin).
  simpl in Heq. inversion Heq; subst k' v. clear Heq.
  destruct (group_by_sound key sql_compare_ordering _ _ _ Hin) as (-> & Hne & Hr).
  auto.
Qed.

Lemma grouped_series_complete (src : list R) (r : R) :
  In r src ->
  exists k,
    In (k, F (map value (rows_of sql_compare key k src)))
      (grouped_series key value F src) /\
    sql_compare (key r) k = Eq.
Proof.
  intros Hr.
  destruct (group_by_complete key sql_compare_ordering _ _ Hr) as (k & Hin & E).
  exists k. split; [|exact E].
  unfold grouped_series. apply in_map_iff.
  exists (k, rows_of sql_compare key k src). split; [reflexivity | exact Hin].
Qed.

Lemma grouped_series_nil (src : list R) :
  grouped_series key value F src = [] <-> src = [].
Proof.
  split.
  - intros E. destruct src as [|r src]; [reflexivity|].
    destruct (grouped_series_complete (r :: src) r (or_introl eq_refl))
      as (k & Hin & _).
    rewrite E in Hin. destruct Hin.
  - intros ->. reflexivity.
Qed.
End SeriesRows.

Lemma filter_nil_iff {A : Type} (p : A -> bool) (l : list A) :
  filter p l = [] <-> (forall x, In x l -> p x = false).
Proof.
  split.
  - intros E x Hx. destruct (p x) eqn:Hp; [|reflexivity].
    assert (H : In x (filter p l)) by (apply filter_In; auto).
    rewrite E in H. destruct H.
  - apply filter_none.
Qed.

(** On a member of the enumeration a series is empty exactly when no
    observation of the game (of the world) lies in the range, and the
    activity totals are empty exactly when no world row does. *)
Theorem empty_result_iff_nothing_selected (dv : DivisionRendering)
    (session : Session) (game world : string) (start end_ : DateTime)
    (g : Granularity) (agg : string) :
  (player_count_timeseries dv session game start end_ (Granularity_value g) agg
     = Ok [] <->
   forall r, In r (playercount session) ->
             PlayerCount.game r = game ->
             between start end_ (PlayerCount.timestamp r) = false) /\
  (combined_total_timeseries dv session start end_ (Granularity_value g) agg
     = Ok [] <->
   forall r, In r (playercount session) ->
             between start end_ (PlayerCount.timestamp r) = false) /\
  (player_count_by_world dv session world start end_ (Granularity_value g) agg
     = Ok [] <->
   forall r, In r (playercountbyworld session) ->
             PlayerCountByWorld.world r = world ->
             between start end_ (PlayerCountByWorld.timestamp r) = false) /\
  (player_count_by_activity session start end_ = [] <->
   forall r, In r (playercountbyworld session) ->
             between start end_ (PlayerCountByWorld.timestamp r) = false).
Proof.
  destruct (time_bucket_total dv g) as (bucket & Hb).
  unfold player_count_timeseries, combined_total_timeseries,
    player_count_by_world.
  rewrite Hb. cbn [bind].
  split; [|split; [|split]].
  - fold (grouped_series (fun r => bucket (PlayerCount.timestamp r))
            PlayerCount.player_count (_agg_func agg)
            (filter (fun r => String.eqb (PlayerCount.game r) game
                              && between start end_ (PlayerCount.timestamp r))
               (playercount session))).
    split.
    + intros H. inversion H as [E]. apply grouped_series_nil in E.
      rewrite filter_nil_iff in E. intros r Hr Hg.
      specialize (E r Hr). apply String.eqb_eq in Hg. now rewrite Hg in E.
    + intros H. f_equal. apply grouped_series_nil. apply filter_nil_iff.
      intros r Hr. destruct (String.eqb_spec (PlayerCount.game r) game) as [E|E];
        [now apply H | reflexivity].
  - fold (grouped_series (fun r => bucket (PlayerCount.timestamp r))
            PlayerCount.player_count (_agg_func agg)
            (filter (fun r => between start end_ (PlayerCount.timestamp r))
               (playercount session))).
    split.
    + intros H. inversion H as [E]. apply grouped_series_nil in E.
      now rewrite filter_nil_iff in E.
    + intros H. f_equal. apply grouped_series_nil. now apply filter_nil_iff.
  - fold (grouped_series (fun r => bucket (PlayerCountByWorld.timestamp r))
            PlayerCountByWorld.players (_agg_func agg)
            (filter (fun r => String.eqb (PlayerCountByWorld.world r) world
                              && between start end_ (PlayerCountByWorld.timestamp r))
               (playercountbyworld session))).
    split.
    + intros H. inversion H as [E]. apply grouped_series_nil in E.
      rewrite filter_nil_iff in E. intros r Hr Hg.
      specialize (E r Hr). apply String.eqb_eq in Hg. now rewrite Hg in E.
    + intros H. f_equal. apply grouped_series_nil. apply filter_nil_iff.
      intros r Hr.
      destruct (String.eqb_spec (PlayerCountByWorld.world r) world) as [E|E];
        [now apply H | reflexivity].
  - rewrite <- filter_nil_iff. fold (rows_between session start end_).
    split.
    + intros E. destruct (rows_between session start end_) as [|r rows] eqn:Hs;
        [reflexivity|].
      exfalso.
      destruct (group_by_complete
                  (fun r => text_column (PlayerCountByWorld.activity r))
                  sql_compare_ordering (r :: rows) r (or_introl eq_refl))
        as (k & Hin & _).
      assert (Hout : In (k,
                         func_sum (map PlayerCountByWorld.players
                                     (rows_of sql_compare
                                        (fun r => text_column (PlayerCountByWorld.activity r))
                                        k (r :: rows))),
                         func_count (map PlayerCountByWorld.id
                                       (rows_of sql_compare
                                          (fun r => text_column (PlayerCountByWorld.activity r))
                                          k (r :: rows))))
                        (player_count_by_activity session start end_)).
      { unfold player_count_by_activity.
        apply (Permutation_in _ (Permutation_sym (order_by_desc_perm _ _))).
        fold (rows_between session start end_). rewrite Hs.
        apply in_map_iff. eexists. split; [|exact Hin]. reflexivity. }
      rewrite E in Hout. destruct Hout.
    + intros E. unfold player_count_by_activity.
      fold (rows_between session start end_). rewrite E. reflexivity.
Qed.

(** ** Values of a series and the observations behind them *)

Lemma least_and_greatest (vals : list Z) :
  vals <> [] ->
  exists lo hi, In lo vals /\ In hi vals /\
                forall x, In x vals -> lo <= x <= hi.
Proof.
  induction vals as [|x l IH]; [congruence|]. intros _.
  destruct l as [|y l].
  - exists x, x. simpl. repeat split; auto; destruct H; subst; lia || tauto.
  - destruct (IH ltac:(discriminate)) as (lo & hi & Hlo & Hhi & Hall).
    exists (Z.min x lo), (Z.max x hi). repeat split.
    + destruct (Z.min_spec x lo) as [[_ ->]|[_ ->]]; [now left | now right].
    + destruct (Z.max_spec x hi) as [[_ ->]|[_ ->]]; [now right | now left].
    + destruct H as [<-|H]; [lia|]. specialize (Hall _ H). lia.
    + destruct H as [<-|H]; [lia|]. specialize (Hall _ H). lia.
Qed.

Lemma Zsum_bounds (lo hi : Z) (vals : list Z) :
  (forall x, In x vals -> lo <= x <= hi) ->
  lo * Z.of_nat (List.length vals) <= Zsum vals <= hi * Z.of_nat (List.length vals).
Proof.
  induction vals as [|x l IH]; intros H.
  - simpl. lia.
  - assert (Hx := H x (or_introl eq_refl)).
    assert (Hl := IH (fun y Hy => H y (or_intror Hy))).
    change (Zsum (x :: l)) with (x + Zsum l).
    rewrite length_cons, Nat2Z.inj_succ. lia.
Qed.

Lemma func_avg_within (vals : list Z) :
  vals <> [] ->
  exists lo hi, In lo vals /\ In hi vals /\ within lo (func_avg vals) hi.
Proof.
  intros Hne.
  destruct (least_and_greatest vals Hne) as (lo & hi & Hlo & Hhi & Hall).
  exists lo, hi. split; [exact Hlo|]. split; [exact Hhi|].
  pose proof (Zsum_bounds lo hi vals Hall) as Hb.
  destruct vals as [|x l]; [congruence|].
  set (vals := x :: l) in *.
  assert (Hlen : Z.pos (Pos.of_nat (List.length vals)) = Z.of_nat (List.length vals))
    by (unfold vals; simpl List.length; lia).
  unfold within, func_avg. fold vals. cbn [sql_compare].
  split; apply (proj1 (Qle_alt _ _)); rewrite Qred_correct;
    unfold Qle, inject_Z; cbn [Qnum Qden]; rewrite Hlen; lia.
Qed.

Lemma func_max_within (vals : list Z) :
  vals <> [] ->
  exists lo hi, In lo vals /\ In hi vals /\ within lo (func_max vals) hi.
Proof.
  destruct vals as [|x l]; [congruence|]. intros _.
  destruct (Zmaximum_spec l x) as [Hin _].
  exists (Zmaximum x l), (Zmaximum x l).
  split; [exact Hin|]. split; [exact Hin|].
  unfold within, func_max. cbn [sql_compare]. rewrite Z.compare_refl.
  split; discriminate.
Qed.

Lemma agg_func_cases (agg : string) :
  _agg_func agg = func_avg \/ _agg_func agg = func_max.
Proof.
  unfold _agg_func. destruct (String.eqb agg (Aggregation_value AVERAGE)); auto.
Qed.

Lemma agg_func_within (agg : string) (vals : list Z) :
  vals <> [] ->
  exists lo hi, In lo vals /\ In hi vals /\ within lo (_agg_func agg vals) hi.
Proof.
  destruct (agg_func_cases agg) as [-> | ->];
    [apply func_avg_within | apply func_max_within].
Qed.

Lemma grouped_series_within {R : Type} (key : R -> SqlValue) (value : R -> Z)
    (agg : string) (src : list R) (k v : SqlValue) :
  In (k, v) (grouped_series key value (_agg_func agg) src) ->
  exists lo hi,
    In lo (map value (rows_of sql_compare key k src)) /\
    In hi (map value (rows_of sql_compare key k src)) /\
    within lo v hi.
Proof.
  intros Hin. apply grouped_series_inv in Hin as (-> & Hne & _).
  apply agg_func_within. now apply map_not_nil.
Qed.

(** Whatever the aggregation, every value of a series lies between two
    observations of its bucket: the combined series, which puts the rows
    of both games in one bucket, never exceeds the greatest single
    observation of either game. *)
Theorem series_values_within_observations (dv : DivisionRendering)
    (session : Session) (game world : string) (start end_ : DateTime)
    (g : Granularity) (agg : string) :
  exists bucket,
    _time_bucket dv (Granularity_value g) = Ok bucket /\
    (exists out,
       player_count_timeseries dv session game start end_
         (Granularity_value g) agg = Ok out /\
       forall k v, In (k, v) out ->
         exists lo hi,
           let counts :=
             map PlayerCount.player_count
               (rows_of sql_compare (fun r => bucket (PlayerCount.timestamp r)) k
                  (filter (fun r => String.eqb (PlayerCount.game r) game
                                    && between start end_ (PlayerCount.timestamp r))
                     (playercount session))) in
           In lo counts /\ In hi counts /\ within lo v hi) /\
    (exists out,
       combined_total_timeseries dv session start end_
         (Granularity_value g) agg = Ok out /\
       forall k v, In (k, v) out ->
         exists lo hi,
           let counts :=
             map PlayerCount.player_count
               (rows_of sql_compare (fun r => bucket (PlayerCount.timestamp r)) k
                  (filter (fun r => between start end_ (PlayerCount.timestamp r))
                     (playercount session))) in
           In lo counts /\ In hi counts /\ within lo v hi) /\
    (exists out,
       player_count_by_world dv session world start end_
         (Granularity_value g) agg = Ok out /\
       forall k v, In (k, v) out ->
         exists lo hi,
           let counts :=
             map PlayerCountByWorld.players
               (rows_of sql_compare
                  (fun r => bucket (PlayerCountByWorld.timestamp r)) k
                  (filter (fun r => String.eqb (PlayerCountByWorld.world r) world
                                    && between start end_
                                         (PlayerCountByWorld.timestamp r))
                     (playercountbyworld session))) in
           In lo counts /\ In hi counts /\ within lo v hi).
Proof.
  destruct (time_bucket_total dv g) as (bucket & Hb).
  exists bucket. split; [exact Hb|].
  unfold player_count_timeseries, combined_total_timeseries,
    player_count_by_world.
  rewrite Hb. cbn [bind].
  split; [|split]; (eexists; split; [reflexivity|]);
    intros k v Hin; cbv zeta; exact (grouped_series_within _ _ _ _ _ _ Hin).
Qed.

Lemma rows_of_In {R : Type} (key : R -> SqlValue) (k : SqlValue) (src : list R)
    (r : R) :
  In r (rows_of sql_compare key k src) <->
  In r src /\ sql_compare (key r) k = Eq.
Proof.
  unfold rows_of. rewrite filter_In.
  destruct (sql_compare (key r) k); simpl; intuition congruence.
Qed.

(** Under PEAK every bucket of a single-game series is a bucket of the
    combined series, and the combined value is at least the game's. *)
Theorem combined_peak_dominates_game_peak (dv : DivisionRendering)
    (session : Session) (game : string) (start end_ : DateTime)
    (g : Granularity) :
  exists out_game out_combined,
    player_count_timeseries dv session game start end_
      (Granularity_value g) (Aggregation_value PEAK) = Ok out_game /\
    combined_total_timeseries dv session start end_
      (Granularity_value g) (Aggregation_value PEAK) = Ok out_combined /\
    forall k v, In (k, v) out_game ->
      exists m m', v = SqlInteger m /\
                   In (k, SqlInteger m') out_combined /\ m <= m'.
Proof.
  destruct (time_bucket_total dv g) as (bucket & Hb).
  unfold player_count_timeseries, combined_total_timeseries.
  rewrite Hb. cbn [bind].
  change (_agg_func (Aggregation_value PEAK)) with func_max.
  eexists. eexists. split; [reflexivity|]. split; [reflexivity|].
  set (keyf := fun r : PlayerCount.t => bucket (PlayerCount.timestamp r)).
  set (src_g := filter (fun r => String.eqb (PlayerCount.game r) game
                                 && between start end_ (PlayerCount.timestamp r))
                  (playercount session)).
  set (src_c := filter (fun r => between start end_ (PlayerCount.timestamp r))
                  (playercount session)).
  assert (Hsub : forall r, In r src_g -> In r src_c).
  { intros r Hr. unfold src_g, src_c in *. rewrite filter_In in *.
    destruct Hr as [Hr Hp]. apply andb_true_iff in Hp. tauto. }
  intros k v Hin.
  fold (grouped_series keyf PlayerCount.player_count func_max src_g) in Hin.
  fold (grouped_series keyf PlayerCount.player_count func_max src_c).
  apply grouped_series_inv in Hin as (-> & Hne & r0 & Hr0 & Hk0).
  destruct (func_max_spec _ (map_not_nil PlayerCount.player_count _ Hne))
    as (m & Em & Hm & _).
  apply in_map_iff in Hm as (r & Hcount & Hr).
  apply rows_of_In in Hr as [Hr Hrk].
  destruct (grouped_series_complete keyf PlayerCount.player_count func_max
              src_c r0 (Hsub _ Hr0)) as (k' & Hin' & E').
  assert (Hkk : k = k').
  { destruct (grouped_series_inv _ _ _ _ _ _ Hin') as (_ & _ & r1 & _ & Hk1).
    rewrite Hk0 in E'. apply sql_compare_eq; [| |exact E'].
    - rewrite <- Hk0. unfold keyf. eapply time_bucket_not_real; exact Hb.
    - rewrite <- Hk1. unfold keyf. eapply time_bucket_not_real; exact Hb. }
  subst k'.
  assert (Hin_c : In r (rows_of sql_compare keyf k src_c))
    by (apply rows_of_In; auto).
  assert (Hne_c : map PlayerCount.player_count (rows_of sql_compare keyf k src_c)
                  <> []).
  { apply map_not_nil. intros E. rewrite E in Hin_c. destruct Hin_c. }
  destruct (func_max_spec _ Hne_c) as (m' & Em' & _ & Hall).
  exists m, m'. split; [exact Em|]. split.
  - rewrite <- Em'. exact Hin'.
  - rewrite Forall_forall in Hall. rewrite <- Hcount. apply Hall.
    now apply in_map.
Qed.

(** ** Conservation of totals *)

Lemma Zsum_app (l1 l2 : list Z) : Zsum (l1 ++ l2) = Zsum l1 + Zsum l2.
Proof.
  induction l1 as [|x l1 IH]; simpl; [reflexivity|].
  change (Zsum (x :: l1)) with (x + Zsum l1).
  change (fold_right Z.add 0 (l1 ++ l2)) with (Zsum (l1 ++ l2)). lia.
Qed.

Lemma Zsum_perm (l1 l2 : list Z) : Permutation l1 l2 -> Zsum l1 = Zsum l2.
Proof.
  induction 1; unfold Zsum in *; simpl; lia.
Qed.

Lemma Zsum_map_add {A : Type} (f g : A -> Z) (l : list A) :
  Zsum (map (fun x => f x + g x) l) = Zsum (map f l) + Zsum (map g l).
Proof.
  induction l as [|x l IH]; unfold Zsum in *; simpl; lia.
Qed.

Lemma Zsum_map_zero {A : Type} (f : A -> Z) (l : list A) :
  (forall x, In x l -> f x = 0) -> Zsum (map f l) = 0.
Proof.
  induction l as [|x l IH]; intros H; unfold Zsum in *; simpl; [reflexivity|].
  rewrite (H x (or_introl eq_refl)), IH; [reflexivity|].
  intros y Hy. apply H. now right.
Qed.

Lemma Zsum_map_ext {A : Type} (f g : A -> Z) (l : list A) :
  (forall x, In x l -> f x = g x) -> Zsum (map f l) = Zsum (map g l).
Proof.
  intros H. f_equal. apply map_ext_in. exact H.
Qed.

Section PartitionSum.
Context {R K : Type} {cmp : K -> K -> comparison} (key : R -> K) (f : R -> Z).
Hypothesis ord : Ordering cmp.

(** Among strictly ascending keys exactly one is equivalent to a key
    that has an equivalent there. *)
Lemma one_equivalent_key (x : K) (c : Z) (ks : list K) :
  StronglySorted (below cmp) ks ->
  (exists k, In k ks /\ cmp x k = Eq) ->
  Zsum (map (fun k => if is_Eq (cmp x k) then c else 0) ks) = c.
Proof.
  induction 1 as [|k ks Hs IH Hall]; intros (k0 & Hk0 & E0); [destruct Hk0|].
  change (Zsum (map (fun k => if is_Eq (cmp x k) then c else 0) (k :: ks)))
    with ((if is_Eq (cmp x k) then c else 0)
          + Zsum (map (fun k => if is_Eq (cmp x k) then c else 0) ks)).
  destruct (cmp x k) eqn:E; simpl.
  - rewrite Zsum_map_zero; [lia|].
    intros k' Hk'. rewrite Forall_forall in Hall. specialize (Hall _ Hk').
    unfold below in Hall.
    rewrite (cmp_eq_compat _ ord x k k' E), Hall. reflexivity.
  - rewrite IH; [lia|]. destruct Hk0 as [->|Hk0]; [congruence|]. eauto.
  - rewrite IH; [lia|]. destruct Hk0 as [->|Hk0]; [congruence|]. eauto.
Qed.

(** Summing group by group is summing row by row. *)
Lemma partition_sum (ks : list K) (rows : list R) :
  StronglySorted (below cmp) ks ->
  (forall r, In r rows -> exists k, In k ks /\ cmp (key r) k = Eq) ->
  Zsum (map (fun k => Zsum (map f (rows_of cmp key k rows))) ks)
  = Zsum (map f rows).
Proof.
  intros Hs. induction rows as [|r rows IH]; intros Hcov.
  - apply Zsum_map_zero. reflexivity.
  - rewrite (Zsum_map_ext _
               (fun k => (if is_Eq (cmp (key r) k) then f r else 0)
                         + Zsum (map f (rows_of cmp key k rows)))).
    + rewrite Zsum_map_add, one_equivalent_key, IH.
      * reflexivity.
      * intros r' Hr'. apply Hcov. now right.
      * exact Hs.
      * apply Hcov. now left.
    + intros k _. unfold rows_of. simpl.
      destruct (is_Eq (cmp (key r) k)); reflexivity.
Qed.

Lemma group_sums (rows : list R) :
  Zsum (map (fun g => Zsum (map f (snd g))) (group_by cmp key rows))
  = Zsum (map f rows).
Proof.
  unfold group_by. rewrite map_map. simpl.
  apply partition_sum.
  - apply (distinct_keys_sorted key ord).
  - intros r Hr. apply (distinct_keys_complete key ord _ _ Hr).
Qed.
End PartitionSum.

Lemma value_int_func_sum (vals : list Z) : value_int (func_sum vals) = Zsum vals.
Proof. destruct vals; reflexivity. Qed.

Lemma Zsum_ones {A : Type} (l : list A) :
  Zsum (map (fun _ => 1) l) = Z.of_nat (List.length l).
Proof.
  induction l as [|x l IH]; [reflexivity|].
  change (Zsum (map (fun _ : A => 1) (x :: l)))
    with (1 + Zsum (map (fun _ : A => 1) l)).
  rewrite IH, length_cons, Nat2Z.inj_succ. lia.
Qed.

(** No player is lost or counted twice: over one range, the sums by
    type, the sums by region and the totals by activity all add up to the
    players of the selected world rows, and the snapshot counts of the
    activities add up to the number of those rows. *)
Theorem totals_are_conserved (dv : DivisionRendering) (session : Session)
    (start end_ : DateTime) (g : Granularity) (agg : string) :
  exists by_type by_region,
    player_count_by_type dv session start end_ (Granularity_value g) agg
      = Ok by_type /\
    player_count_by_region dv session start end_ (Granularity_value g) agg
      = Ok by_region /\
    counted_players by_type
      = Zsum (map PlayerCountByWorld.players (rows_between session start end_)) /\
    counted_players by_region
      = Zsum (map PlayerCountByWorld.players (rows_between session start end_)) /\
    Zsum (map (fun row => value_int (total_players_of row))
            (player_count_by_activity session start end_))
      = Zsum (map PlayerCountByWorld.players (rows_between session start end_)) /\
    Zsum (map (fun row => value_int (snapshot_count_of row))
            (player_count_by_activity session start end_))
      = Z.of_nat (List.length (rows_between session start end_)).
Proof.
  destruct (time_bucket_total dv g) as (bucket & Hb).
  unfold player_count_by_type, player_count_by_region.
  rewrite Hb. cbn [bind].
  eexists. eexists. split; [reflexivity|]. split; [reflexivity|].
  fold (rows_between session start end_).
  unfold counted_players.
  split; [|split; [|split]].
  - rewrite map_map. cbn [snd].
    rewrite (Zsum_map_ext _ (fun g0 => Zsum (map PlayerCountByWorld.players (snd g0))))
      by (intros; apply value_int_func_sum).
    apply (group_sums _ _ pair_compare_ordering).
  - rewrite map_map. cbn [snd].
    rewrite (Zsum_map_ext _ (fun g0 => Zsum (map PlayerCountByWorld.players (snd g0))))
      by (intros; apply value_int_func_sum).
    apply (group_sums _ _ pair_compare_ordering).
  - unfold player_count_by_activity. fold (rows_between session start end_).
    rewrite (Zsum_perm _ _ (Permutation_map _ (order_by_desc_perm _ _))).
    rewrite map_map. unfold total_players_of. cbn [fst snd].
    rewrite (Zsum_map_ext _ (fun g0 => Zsum (map PlayerCountByWorld.players (snd g0))))
      by (intros; apply value_int_func_sum).
    apply (group_sums _ _ sql_compare_ordering).
  - unfold player_count_by_activity. fold (rows_between session start end_).
    rewrite (Zsum_perm _ _ (Permutation_map _ (order_by_desc_perm _ _))).
    rewrite map_map. unfold snapshot_count_of, func_count. cbn [fst snd value_int cast_integer].
    rewrite (Zsum_map_ext _ (fun g0 => Zsum (map (fun _ => 1) (snd g0)))).
    + rewrite (group_sums _ (fun _ => 1) sql_compare_ordering). apply Zsum_ones.
    + intros g0 _. now rewrite length_map, Zsum_ones.
Qed.

(** ** Rows without a timestamp *)

Lemma filter_filter_implied {A : Type} (p q : A -> bool) (l : list A) :
  (forall x, p x = true -> q x = true) -> filter p (filter q l) = filter p l.
Proof.
  intros H. induction l as [|x l IH]; simpl; [reflexivity|].
  destruct (q x) eqn:Eq_; simpl.
  - now rewrite IH.
  - destruct (p x) eqn:Ep; [|exact IH].
    rewrite (H x Ep) in Eq_. discriminate.
Qed.

Lemma between_has_timestamp (start end_ : DateTime) (col : option DateTime) :
  between start end_ col = true -> has_timestamp col = true.
Proof. destruct col; [reflexivity | discriminate]. Qed.

Lemma max_timestamp_without_null {A : Type} (ts : A -> option DateTime)
    (l : list A) :
  max_timestamp (map ts (filter (fun r => has_timestamp (ts r)) l))
  = max_timestamp (map ts l).
Proof.
  induction l as [|x l IH]; simpl; [reflexivity|].
  destruct (ts x) as [t|] eqn:E; simpl.
  - now rewrite E, IH.
  - exact IH.
Qed.

(** A row stored with a NULL timestamp is seen by no query: every
    function answers as it does on the store without such rows. *)
Theorem null_timestamps_are_invisible (dv : DivisionRendering)
    (session : Session) (game world : string) (start end_ : DateTime)
    (granularity agg : string) (timestamp : option DateTime) :
  player_count_timeseries dv (without_null_timestamps session) game start end_
    granularity agg
  = player_count_timeseries dv session game start end_ granularity agg /\
  combined_total_timeseries dv (without_null_timestamps session) start end_
    granularity agg
  = combined_total_timeseries dv session start end_ granularity agg /\
  player_count_by_type dv (without_null_timestamps session) start end_
    granularity agg
  = player_count_by_type dv session start end_ granularity agg /\
  player_count_by_region dv (without_null_timestamps session) start end_
    granularity agg
  = player_count_by_region dv session start end_ granularity agg /\
  player_count_by_world dv (without_null_timestamps session) world start end_
    granularity agg
  = player_count_by_world dv session world start end_ granularity agg /\
  player_count_by_activity (without_null_timestamps session) start end_
  = player_count_by_activity session start end_ /\
  world_snapshot (without_null_timestamps session) timestamp
  = world_snapshot session timestamp.
Proof.
  unfold player_count_timeseries, combined_total_timeseries,
    player_count_by_type, player_count_by_region, player_count_by_world,
    player_count_by_activity, without_null_timestamps.
  cbn [playercount playercountbyworld].
  rewrite !filter_filter_implied
    by (intros r H; try (apply andb_true_iff in H as [_ H]);
        now apply between_has_timestamp in H).
  repeat (split; [reflexivity|]).
  unfold world_snapshot. cbn [playercountbyworld].
  rewrite max_timestamp_without_null.
  destruct (match timestamp with
            | Some ts => Some ts
            | None => max_timestamp
                        (map PlayerCountByWorld.timestamp (playercountbyworld session))
            end) as [ts|]; [|reflexivity].
  rewrite filter_filter_implied; [reflexivity|].
  intros r H. destruct (PlayerCountByWorld.timestamp r); [reflexivity|discriminate].
Qed.

(** ** Activity totals at one instant *)

Lemma between_point (ts : DateTime) (col : option DateTime) :
  between ts ts col = timestamp_is ts col.
Proof.
  destruct col as [t|]; [|reflexivity]. simpl.
  unfold datetime_leb, datetime_eqb.
  rewrite (datetime_compare_antisym ts t).
  destruct (datetime_compare t ts); reflexivity.
Qed.

Lemma activity_total_sum (session : Session) (start end_ : DateTime) :
  Zsum (map (fun row => value_int (total_players_of row))
          (player_count_by_activity session start end_))
  = Zsum (map PlayerCountByWorld.players (rows_between session start end_)).
Proof.
  unfold player_count_by_activity. fold (rows_between session start end_).
  rewrite (Zsum_perm _ _ (Permutation_map _ (order_by_desc_perm _ _))).
  rewrite map_map. unfold total_players_of. cbn [fst snd].
  rewrite (Zsum_map_ext _ (fun g0 => Zsum (map PlayerCountByWorld.players (snd g0))))
    by (intros; apply value_int_func_sum).
  apply (group_sums _ _ sql_compare_ordering).
Qed.

Lemma activity_count_sum (session : Session) (start end_ : DateTime) :
  Zsum (map (fun row => value_int (snapshot_count_of row))
          (player_count_by_activity session start end_))
  = Z.of_nat (List.length (rows_between session start end_)).
Proof.
  unfold player_count_by_activity. fold (rows_between session start end_).
  rewrite (Zsum_perm _ _ (Permutation_map _ (order_by_desc_perm _ _))).
  rewrite map_map. unfold snapshot_count_of, func_count.
  cbn [fst snd value_int cast_integer].
  rewrite (Zsum_map_ext _ (fun g0 => Zsum (map (fun _ => 1) (snd g0)))).
  - rewrite (group_sums _ (fun _ => 1) sql_compare_ordering). apply Zsum_ones.
  - intros g0 _. now rewrite length_map, Zsum_ones.
Qed.

(** Over the range that starts and ends at one instant, the activity
    totals add up to the players of the snapshot at that instant, and the
    snapshot counts to its number of worlds. *)
Theorem activity_totals_at_an_instant (session : Session) (ts : DateTime) :
  Zsum (map (fun row => value_int (total_players_of row))
          (player_count_by_activity session ts ts))
  = Zsum (map row_players (world_snapshot session (Some ts))) /\
  Zsum (map (fun row => value_int (snapshot_count_of row))
          (player_count_by_activity session ts ts))
  = Z.of_nat (List.length (world_snapshot session (Some ts))).
Proof.
  assert (E : rows_between session ts ts
              = filter (fun r => timestamp_is ts (PlayerCountByWorld.timestamp r))
                  (playercountbyworld session)).
  { unfold rows_between. apply filter_ext. intros r. apply between_point. }
  rewrite activity_total_sum, activity_count_sum, E.
  unfold world_snapshot.
  split.
  - rewrite (Zsum_perm _ _ (Permutation_map _ (order_by_desc_perm _ _))).
    now rewrite map_map.
  - rewrite (Permutation_length (order_by_desc_perm _ _)).
    now rewrite length_map.
Qed.

(** * Properties of the scraper *)

(** ** The clean-up of activity labels *)

(** A missing cell and the placeholders ['-'] and the empty string are
    cleaned to the label [No Activity], and every other label passes
    unchanged; so the cleaned label is never a placeholder, and cleaning
    a cleaned label changes nothing. *)
Theorem clean_activity_is_a_normal_form (raw : option string) :
  (raw = None \/ raw = Some "-" \/ raw = Some EmptyString ->
   clean_activity raw = "No Activity") /\
  (forall s, raw = Some s -> s <> "-" -> s <> EmptyString ->
             clean_activity raw = s) /\
  clean_activity raw <> "-" /\
  clean_activity raw <> EmptyString /\
  clean_activity (Some (clean_activity raw)) = clean_activity raw.
Proof.
  split.
  { intros H. apply clean_activity_no_activity. tauto. }
  unfold clean_activity. destruct raw as [s|].
  - destruct (String.eqb_spec s "-") as [E1|E1];
      destruct (String.eqb_spec s EmptyString) as [E2|E2]; simpl;
      repeat split; try discriminate; try assumption;
      try (intros s' H; inversion H; subst s'; congruence).
    apply String.eqb_neq in E1, E2. now rewrite E1, E2.
  - repeat split; try discriminate.
Qed.

(** ** The rows written by [main] *)

Lemma main_world_table (session : Session) (combined_count osrs_count : option Z)
    (world_df : list WorldRecord) (timestamp : DateTime) :
  playercountbyworld (main session combined_count osrs_count world_df timestamp)
  = playercountbyworld session
    ++ world_rows (next_id (map PlayerCountByWorld.id (playercountbyworld session)))
         world_df timestamp.
Proof. destruct combined_count, osrs_count; reflexivity. Qed.

Lemma world_rows_timestamp (first_id : Z) (world_df : list WorldRecord)
    (timestamp : DateTime) (r : PlayerCountByWorld.t) :
  In r (world_rows first_id world_df timestamp) ->
  PlayerCountByWorld.timestamp r = Some timestamp.
Proof.
  revert first_id. induction world_df as [|row rest IH]; intros i; simpl; [tauto|].
  intros [<-|H]; [reflexivity | eauto].
Qed.

Lemma world_rows_columns (first_id : Z) (world_df : list WorldRecord)
    (timestamp : DateTime) :
  map snapshot_columns (world_rows first_id world_df timestamp)
  = map (snapshot_of_record timestamp) world_df.
Proof.
  revert first_id. induction world_df as [|row rest IH]; intros i; simpl;
    [reflexivity|]. now rewrite IH.
Qed.

Lemma world_rows_activity (first_id : Z) (world_df : list WorldRecord)
    (timestamp : DateTime) (r : PlayerCountByWorld.t) :
  In r (world_rows first_id world_df timestamp) ->
  exists row, In row world_df /\ PlayerCountByWorld.activity r = Some (Activity row).
Proof.
  revert first_id. induction world_df as [|row rest IH]; intros i; simpl; [tauto|].
  intros [<-|H].
  - exists row. auto.
  - destruct (IH _ H) as (row' & Hin & E). exists row'. auto.
Qed.

Lemma world_rows_ids (first_id : Z) (world_df : list WorldRecord)
    (timestamp : DateTime) :
  (forall x, In x (map PlayerCountByWorld.id (world_rows first_id world_df timestamp)) ->
             first_id <= x) /\
  NoDup (map PlayerCountByWorld.id (world_rows first_id world_df timestamp)).
Proof.
  revert first_id. induction world_df as [|row rest IH]; intros i; simpl.
  - split; [tauto | constructor].
  - destruct (IH (i + 1)) as [Hge Hnd]. split.
    + intros x [<-|Hx]; [lia|]. specialize (Hge _ Hx). lia.
    + constructor; [|exact Hnd]. intros Hin. specialize (Hge _ Hin). lia.
Qed.

Lemma next_id_above (ids : list Z) (x : Z) : In x ids -> x < next_id ids.
Proof.
  destruct ids as [|y l]; [intros []|]. intros Hx. unfold next_id.
  destruct (Zmaximum_spec l y) as [_ Hall]. rewrite Forall_forall in Hall.
  specialize (Hall _ Hx). lia.
Qed.

Lemma NoDup_app_above (l1 l2 : list Z) (b : Z) :
  NoDup l1 -> NoDup l2 ->
  (forall x, In x l1 -> x < b) -> (forall x, In x l2 -> b <= x) ->
  NoDup (l1 ++ l2).
Proof.
  intros H1 H2 Hlt Hge. induction H1 as [|x l1 Hx H1 IH]; simpl; [exact H2|].
  constructor.
  - rewrite in_app_iff. intros [Hin|Hin]; [contradiction|].
    specialize (Hlt x (or_introl eq_refl)). specialize (Hge _ Hin). lia.
  - apply IH. intros y Hy. apply Hlt. now right.
Qed.

Lemma add_player_count_ids (session : Session) (n : Z) (game : string)
    (timestamp : DateTime) :
  NoDup (map PlayerCount.id (playercount session)) ->
  NoDup (map PlayerCount.id
           (playercount (add_player_count session n game timestamp))).
Proof.
  intros H. unfold add_player_count. cbn [playercount].
  rewrite map_app. cbn [map PlayerCount.id].
  apply (NoDup_app_above _ _
           (next_id (map PlayerCount.id (playercount session)))).
  - exact H.
  - constructor; [intros [] | constructor].
  - intros x Hx. now apply next_id_above.
  - intros x [<-|[]]. lia.
Qed.

(** [main] keeps the primary keys of both tables distinct. *)
Theorem main_keeps_ids_distinct (session : Session)
    (combined_count osrs_count : option Z) (world_df : list WorldRecord)
    (timestamp : DateTime) :
  NoDup (map PlayerCount.id (playercount session)) ->
  NoDup (map PlayerCountByWorld.id (playercountbyworld session)) ->
  NoDup (map PlayerCount.id
           (playercount (main session combined_count osrs_count world_df timestamp))) /\
  NoDup (map PlayerCountByWorld.id
           (playercountbyworld
              (main session combined_count osrs_count world_df timestamp))).
Proof.
  intros Hc Hw. split.
  - destruct combined_count, osrs_count; unfold main; cbn [add_all playercount];
      repeat apply add_player_count_ids; exact Hc.
  - rewrite main_world_table, map_app.
    destruct (world_rows_ids
                (next_id (map PlayerCountByWorld.id (playercountbyworld session)))
                world_df timestamp) as [Hge Hnd].
    apply (NoDup_app_above _ _
             (next_id (map PlayerCountByWorld.id (playercountbyworld session))));
      auto.
    intros x Hx. now apply next_id_above.
Qed.

Lemma main_keeps_ids_distinct_witness :
  NoDup (map PlayerCount.id (playercount three_in_one_hour)) /\
  NoDup (map PlayerCountByWorld.id (playercountbyworld three_in_one_hour)) /\
  NoDup (map PlayerCountByWorld.id
           (playercountbyworld
              (main three_in_one_hour (Some 100000) (Some 80000) two_worlds
                 at_10_37))).
Proof.
  assert (Hc : NoDup (map PlayerCount.id (playercount three_in_one_hour)))
    by constructor.
  assert (Hw : NoDup (map PlayerCountByWorld.id
                        (playercountbyworld three_in_one_hour))).
  { simpl. repeat constructor; simpl; intuition discriminate. }
  split; [exact Hc|]. split; [exact Hw|].
  exact (proj2 (main_keeps_ids_distinct three_in_one_hour (Some 100000)
                  (Some 80000) two_worlds at_10_37 Hc Hw)).
Defined.

Lemma group_by_one {R K : Type} (cmp : K -> K -> comparison) (key : R -> K)
    (r : R) :
  Ordering cmp -> group_by cmp key [r] = [(key r, [r])].
Proof.
  intros ord. unfold group_by, rows_of. simpl.
  now rewrite (cmp_refl _ ord).
Qed.

Lemma group_by_two {R K : Type} (cmp : K -> K -> comparison) (key : R -> K)
    (r1 r2 : R) :
  Ordering cmp -> key r1 = key r2 ->
  group_by cmp key [r1; r2] = [(key r1, [r1; r2])].
Proof.
  intros ord E. unfold group_by, rows_of. simpl.
  rewrite E, (cmp_refl _ ord). simpl. now rewrite (cmp_refl _ ord).
Qed.

Lemma between_point_false (ts : DateTime) (col : option DateTime) :
  col <> Some ts -> between ts ts col = false.
Proof. intros H. rewrite between_point. now apply timestamp_is_false. Qed.

Lemma between_point_true (ts : DateTime) : between ts ts (Some ts) = true.
Proof. rewrite between_point. now apply timestamp_is_iff. Qed.

Lemma Qred_whole (z : Z) : (Qred (z # 1) == inject_Z z)%Q.
Proof. apply Qred_correct. Qed.

(** One run of [main] that scraped both counts stores the RS3 count as
    the difference of the two.  Over the instant of the run the
    single-game series give back the two stored counts, as INTEGERs under
    PEAK and as the REALs of the same value under AVERAGE, while the
    combined series gives half the reported combined count under AVERAGE
    and the greater of the two games under PEAK, not their total. *)
Theorem series_after_one_scrape (dv : DivisionRendering) (session : Session)
    (c o : Z) (world_df : list WorldRecord) (ts : DateTime) (g : Granularity) :
  (forall r, In r (playercount session) -> PlayerCount.timestamp r <> Some ts) ->
  exists bucket,
    _time_bucket dv (Granularity_value g) = Ok bucket /\
    player_count_timeseries dv (main session (Some c) (Some o) world_df ts)
      "RS3" ts ts (Granularity_value g) (Aggregation_value PEAK)
    = Ok [(bucket (Some ts), SqlInteger (c - o))] /\
    player_count_timeseries dv (main session (Some c) (Some o) world_df ts)
      "RS3" ts ts (Granularity_value g) (Aggregation_value AVERAGE)
    = Ok [(bucket (Some ts), SqlReal (Qred (c - o # 1)))] /\
    player_count_timeseries dv (main session (Some c) (Some o) world_df ts)
      "OSRS" ts ts (Granularity_value g) (Aggregation_value PEAK)
    = Ok [(bucket (Some ts), SqlInteger o)] /\
    player_count_timeseries dv (main session (Some c) (Some o) world_df ts)
      "OSRS" ts ts (Granularity_value g) (Aggregation_value AVERAGE)
    = Ok [(bucket (Some ts), SqlReal (Qred (o # 1)))] /\
    combined_total_timeseries dv (main session (Some c) (Some o) world_df ts)
      ts ts (Granularity_value g) (Aggregation_value AVERAGE)
    = Ok [(bucket (Some ts), SqlReal (Qred (c # 2)))] /\
    combined_total_timeseries dv (main session (Some c) (Some o) world_df ts)
      ts ts (Granularity_value g) (Aggregation_value PEAK)
    = Ok [(bucket (Some ts), SqlInteger (Z.max (c - o) o))] /\
    (Qred (c - o # 1) == inject_Z (c - o))%Q /\
    (Qred (o # 1) == inject_Z o)%Q /\
    (Qred (c # 2) * inject_Z 2 == inject_Z c)%Q.
Proof.
  intros Hold.
  destruct (time_bucket_total dv g) as (bucket & Hb).
  exists bucket. split; [exact Hb|].
  unfold player_count_timeseries, combined_total_timeseries.
  rewrite Hb. cbn [bind].
  unfold main, add_all, add_player_count. cbn [playercount playercountbyworld].
  rewrite <- !app_assoc. cbn [app].
  rewrite !filter_app.
  rewrite !(filter_none _ (playercount session))
    by (intros r Hr; rewrite ?andb_false_iff; try right;
        apply between_point_false; now apply Hold).
  cbn [app filter PlayerCount.game PlayerCount.timestamp String.eqb Ascii.eqb
         Bool.eqb andb].
  rewrite !between_point_true. cbn [andb].
  rewrite !(group_by_one _ _ _ sql_compare_ordering).
  rewrite !(group_by_two _ _ _ _ sql_compare_ordering) by reflexivity.
  cbn [map fst snd PlayerCount.player_count PlayerCount.timestamp].
  unfold _agg_func, func_avg.
  cbn [Aggregation_value String.eqb Ascii.eqb Bool.eqb List.length Pos.of_nat].
  replace (Zsum [c - o; o]) with c by (unfold Zsum; simpl; lia).
  replace (Zsum [c - o]) with (c - o) by (unfold Zsum; simpl; lia).
  replace (Zsum [o]) with o by (unfold Zsum; simpl; lia).
  repeat (split; [reflexivity|]).
  split; [apply Qred_whole|]. split; [apply Qred_whole|].
  rewrite Qred_correct. unfold Qeq, Qmult, inject_Z. cbn [Qnum Qden]. lia.
Qed.

Lemma series_after_one_scrape_witness :
  (forall r, In r (playercount three_in_one_hour) ->
             PlayerCount.timestamp r <> Some at_10_37) /\
  exists bucket,
    _time_bucket PlainSlash (Granularity_value HOURLY) = Ok bucket /\
    player_count_timeseries PlainSlash
      (main three_in_one_hour (Some 100000) (Some 80000) two_worlds at_10_37)
      "RS3" at_10_37 at_10_37 (Granularity_value HOURLY)
      (Aggregation_value AVERAGE)
    = Ok [(bucket (Some at_10_37), SqlReal (Qred (100000 - 80000 # 1)))] /\
    combined_total_timeseries PlainSlash
      (main three_in_one_hour (Some 100000) (Some 80000) two_worlds at_10_37)
      at_10_37 at_10_37 (Granularity_value HOURLY) (Aggregation_value AVERAGE)
    = Ok [(bucket (Some at_10_37), SqlReal (Qred (100000 # 2)))].
Proof.
  assert (Hold : forall r, In r (playercount three_in_one_hour) ->
                           PlayerCount.timestamp r <> Some at_10_37)
    by (intros r []).
  split; [exact Hold|].
  destruct (series_after_one_scrape PlainSlash three_in_one_hour 100000 80000
              two_worlds at_10_37 HOURLY Hold)
    as (bucket & Hb & _ & Hrs3 & _ & _ & Havg & _).
  exists bucket. split; [exact Hb|]. split; [exact Hrs3 | exact Havg].
Defined.

Lemma datetime_lt_leb (a b : DateTime) : datetime_lt a b -> datetime_leb a b = true.
Proof. intros H. apply datetime_leb_spec. now right. Qed.

(** After a run of [main] whose clock reading is later than every stored
    timestamp and whose DataFrame is not empty, the latest snapshot is the
    scrape just written: its records, each once, by descending players. *)
Theorem latest_snapshot_after_main (session : Session)
    (combined_count osrs_count : option Z) (world_df : list WorldRecord)
    (ts : DateTime) :
  (forall r t, In r (playercountbyworld session) ->
               PlayerCountByWorld.timestamp r = Some t -> datetime_lt t ts) ->
  world_df <> [] ->
  Permutation
    (world_snapshot (main session combined_count osrs_count world_df ts) None)
    (map (snapshot_of_record ts) world_df) /\
  descending_by_players
    (world_snapshot (main session combined_count osrs_count world_df ts) None).
Proof.
  intros Hold Hne. split; [|apply world_snapshot_descending].
  set (first_id := next_id (map PlayerCountByWorld.id (playercountbyworld session))).
  assert (Hlatest : latest_timestamp
                      (main session combined_count osrs_count world_df ts) ts).
  { split.
    - destruct world_df as [|row rest]; [congruence|].
      eexists. rewrite main_world_table. split.
      + apply in_or_app. right. simpl. left. reflexivity.
      + reflexivity.
    - intros r t. rewrite main_world_table. intros Hr Ht.
      apply in_app_or in Hr as [Hr|Hr].
      + apply datetime_lt_leb. eapply Hold; eassumption.
      + apply world_rows_timestamp in Hr. rewrite Hr in Ht. inversion Ht.
        apply datetime_leb_refl. }
  unfold world_snapshot.
  rewrite (max_timestamp_latest _ _ Hlatest).
  rewrite order_by_desc_perm, main_world_table, filter_app.
  rewrite (filter_none _ (playercountbyworld session)), filter_all.
  - simpl. now rewrite world_rows_columns.
  - intros r Hr. apply timestamp_is_iff. eapply world_rows_timestamp; eassumption.
  - intros r Hr. apply timestamp_is_false. intros E.
    apply (datetime_lt_irrefl ts). eapply Hold; eassumption.
Qed.

Lemma latest_snapshot_after_main_witness :
  (forall r t, In r (playercountbyworld three_in_one_hour) ->
               PlayerCountByWorld.timestamp r = Some t ->
               datetime_lt t (mkDateTime 2024 1 15 11 0 0 0)) /\
  two_worlds <> [] /\
  Permutation
    (world_snapshot
       (main three_in_one_hour (Some 100000) (Some 80000) two_worlds
          (mkDateTime 2024 1 15 11 0 0 0)) None)
    (map (snapshot_of_record (mkDateTime 2024 1 15 11 0 0 0)) two_worlds).
Proof.
  assert (Hold : forall r t, In r (playercountbyworld three_in_one_hour) ->
                   PlayerCountByWorld.timestamp r = Some t ->
                   datetime_lt t (mkDateTime 2024 1 15 11 0 0 0)).
  { simpl. intros r t [<-|[<-|[<-|[]]]] H; inversion H; subst t;
      unfold datetime_lt; simpl; lia. }
  assert (Hne : two_worlds <> []) by discriminate.
  split; [exact Hold|]. split; [exact Hne|].
  exact (proj1 (latest_snapshot_after_main three_in_one_hour (Some 100000)
                  (Some 80000) two_worlds (mkDateTime 2024 1 15 11 0 0 0)
                  Hold Hne)).
Defined.

(** [main] keeps the store one of cleaned labels: when the DataFrame
    carries cleaned labels and the store held only such rows, so does the
    store it commits, whose activity totals therefore have at most one
    no-activity group. *)
Theorem main_keeps_labels_clean (session : Session)
    (combined_count osrs_count : option Z) (world_df : list WorldRecord)
    (timestamp start end_ : DateTime) :
  cleaned_labels world_df ->
  written_by_scraper session ->
  written_by_scraper (main session combined_count osrs_count world_df timestamp) /\
  (List.length
     (filter no_activity_label
        (map activity_of
           (player_count_by_activity
              (main session combined_count osrs_count world_df timestamp)
              start end_)))
   <= 1)%nat.
Proof.
  intros Hdf Hs.
  assert (Hw : written_by_scraper
                 (main session combined_count osrs_count world_df timestamp)).
  { intros r. rewrite main_world_table. intros Hr.
    apply in_app_or in Hr as [Hr|Hr]; [now apply Hs|].
    apply world_rows_activity in Hr as (row & Hrow & E).
    destruct (Hdf row Hrow) as (raw & Hraw). exists raw. now rewrite E, Hraw. }
  split; [exact Hw|].
  set (s' := main session combined_count osrs_count world_df timestamp) in *.
  assert (Hnd : NoDup (map activity_of (player_count_by_activity s' start end_))).
  { eapply Permutation_NoDup; [symmetry; apply activity_labels|].
    apply (below_sorted_NoDup sql_compare_ordering).
    apply (distinct_keys_sorted _ sql_compare_ordering). }
  apply (filter_at_most_one _ (SqlText "No Activity")); [exact Hnd|].
  intros v Hv Hp.
  apply (Permutation_in _ (activity_labels s' start end_)) in Hv.
  apply distinct_keys_sound in Hv as (r & Hr & <-).
  apply filter_In in Hr as [Hr _].
  destruct (Hw r Hr) as (raw & Hraw). rewrite Hraw in Hp |- *.
  cbn [text_column] in Hp |- *.
  f_equal. now apply clean_activity_label.
Qed.

Lemma main_keeps_labels_clean_witness :
  cleaned_labels two_worlds /\
  written_by_scraper (mkSession [] scrape_at_10_37) /\
  written_by_scraper
    (main (mkSession [] scrape_at_10_37) None (Some 80000) two_worlds
       (mkDateTime 2024 1 15 11 0 0 0)).
Proof.
  assert (Hdf : cleaned_labels two_worlds).
  { intros row. simpl. intros [<-|[<-|[]]].
    - exists (Some "Trade"). reflexivity.
    - exists None. reflexivity. }
  assert (Hs : written_by_scraper (mkSession [] scrape_at_10_37)).
  { intros r. simpl. intros [<-|[<-|[<-|[]]]].
    - exists None. reflexivity.
    - exists (Some "Trade"). reflexivity.
    - exists (Some "-"). reflexivity. }
  split; [exact Hdf|]. split; [exact Hs|].
  exact (proj1 (main_keeps_labels_clean (mkSession [] scrape_at_10_37) None
                  (Some 80000) two_worlds (mkDateTime 2024 1 15 11 0 0 0)
                  at_10_37 at_10_37 Hdf Hs)).
Defined.

(** * Properties of the report on yesterday *)

Lemma valid_date_bounds (d : Date) :
  valid_date d = true ->
  1 <= date_year d <= 9999 /\ 1 <= date_month d <= 12 /\
  1 <= date_day d <= days_in_month (date_year d) (date_month d).
Proof.
  unfold valid_date. rewrite !andb_true_iff, !Z.leb_le. tauto.
Qed.

Lemma days_before_next_month (y m : Z) :
  2 <= m <= 12 ->
  days_before_month y m = days_before_month y (m - 1) + days_in_month y (m - 1).
Proof.
  intros H.
  assert (Hc : m = 2 \/ m = 3 \/ m = 4 \/ m = 5 \/ m = 6 \/ m = 7 \/ m = 8 \/
               m = 9 \/ m = 10 \/ m = 11 \/ m = 12) by lia.
  destruct Hc as [->|[->|[->|[->|[->|[->|[->|[->|[->|[->| ->]]]]]]]]]];
    cbv [days_before_month days_in_month]; destruct (is_leap y); simpl; lia.
Qed.

Lemma days_before_next_year (y : Z) :
  days_before_year y
  = days_before_year (y - 1) + 365 + (if is_leap (y - 1) then 1 else 0).
Proof.
  unfold days_before_year, is_leap. cbv zeta.
  replace (y - 1 - 1) with (y - 2) by lia.
  destruct (Z.eqb_spec ((y - 1) mod 4) 0) as [E4|E4];
    destruct (Z.eqb_spec ((y - 1) mod 100) 0) as [E100|E100];
    destruct (Z.eqb_spec ((y - 1) mod 400) 0) as [E400|E400];
    simpl; Z.div_mod_to_equations; lia.
Qed.

Lemma days_in_month_ge_28 (y m : Z) : 28 <= days_in_month y m.
Proof.
  unfold days_in_month.
  destruct (m =? 2); [destruct (is_leap y); lia|].
  destruct ((m =? 4) || (m =? 6) || (m =? 9) || (m =? 11)); lia.
Qed.

(** [previous_day] is the date one day earlier: its ordinal is one less,
    and it is a date again. *)
Lemma previous_day_ordinal (d p : Date) :
  valid_date d = true -> previous_day d = Some p ->
  valid_date p = true /\ date_ordinal p = date_ordinal d - 1.
Proof.
  intros Hv. pose proof (valid_date_bounds d Hv) as (Hy & Hm & Hd).
  unfold previous_day.
  destruct (Z.ltb_spec 1 (date_day d)) as [Hd1|Hd1];
    [|destruct (Z.ltb_spec 1 (date_month d)) as [Hm1|Hm1];
      [|destruct (Z.ltb_spec 1 (date_year d)) as [Hy1|Hy1]]];
    intros H; inversion H; subst p; clear H;
    unfold valid_date, date_ordinal, toordinal, midnight; simpl.
  - split; [|lia].
    rewrite !andb_true_iff, !Z.leb_le. lia.
  - pose proof (days_in_month_ge_28 (date_year d) (date_month d - 1)).
    split.
    + rewrite !andb_true_iff, !Z.leb_le. lia.
    + rewrite (days_before_next_month (date_year d) (date_month d)) by lia. lia.
  - assert (Em : date_month d = 1) by lia. assert (Ed : date_day d = 1) by lia.
    rewrite Em, Ed. split.
    + rewrite !andb_true_iff, !Z.leb_le.
      change (days_in_month (date_year d - 1) 12) with 31. lia.
    + rewrite (days_before_next_year (date_year d)).
      change (days_before_month (date_year d) 1) with 0.
      cbv [days_before_month]. simpl.
      destruct (is_leap (date_year d - 1)); lia.
Qed.

Lemma datetime_ltb_lt (a b : DateTime) :
  datetime_ltb a b = true <-> datetime_lt a b.
Proof.
  unfold datetime_ltb. rewrite <- datetime_compare_lt.
  destruct (datetime_compare a b); split; congruence.
Qed.

Lemma datetime_leb_not_lt (a b : DateTime) :
  datetime_leb a b = true <-> ~ datetime_lt b a.
Proof.
  unfold datetime_leb. rewrite <- datetime_compare_lt.
  rewrite (datetime_compare_antisym b a).
  destruct (datetime_compare a b); simpl; split; congruence.
Qed.

Lemma date_of_eq (t : DateTime) (d : Date) :
  date_of t = d <->
  year t = date_year d /\ month t = date_month d /\ day t = date_day d.
Proof.
  unfold date_of. destruct d as [y m dd]; simpl. split.
  - intros H. inversion H. auto.
  - intros (-> & -> & ->). reflexivity.
Qed.

(** The half-open range from midnight yesterday to midnight today holds
    exactly the instants of yesterday's date. *)
Lemma within_yesterday (today yesterday : Date) (t : DateTime) :
  valid_date today = true -> valid_datetime t = true ->
  previous_day today = Some yesterday ->
  (datetime_leb (midnight yesterday) t = true /\
   datetime_ltb t (midnight today) = true) <->
  date_of t = yesterday.
Proof.
  intros Hv Ht Hp.
  pose proof (valid_date_bounds today Hv) as (Hy & Hm & Hd).
  pose proof (valid_datetime_bounds t Ht) as (Hty & Htm & Htd & Hth & Htmi & Hts & Htu).
  rewrite datetime_leb_not_lt, datetime_ltb_lt, date_of_eq.
  unfold previous_day in Hp.
  destruct (Z.ltb_spec 1 (date_day today)) as [Hd1|Hd1];
    [|destruct (Z.ltb_spec 1 (date_month today)) as [Hm1|Hm1];
      [|destruct (Z.ltb_spec 1 (date_year today)) as [Hy1|Hy1]]];
    inversion Hp; subst yesterday; clear Hp;
    unfold datetime_lt, midnight; simpl.
  - lia.
  - split.
    + intros [H1 H2].
      assert (Ey : year t = date_year today) by lia.
      assert (Em : month t = date_month today - 1) by lia.
      rewrite Ey, Em in Htd. lia.
    + intros (Ey & Em & Ed). lia.
  - pose proof (days_in_month_le_31 (year t) (month t)). lia.
Qed.

Lemma rows_from_until_In (session : Session) (start end_ : DateTime)
    (r : PlayerCountByWorld.t) :
  In r (rows_from_until session start end_) <->
  In r (playercountbyworld session) /\
  exists t, PlayerCountByWorld.timestamp r = Some t /\
            datetime_leb start t = true /\ datetime_ltb t end_ = true.
Proof.
  unfold rows_from_until. rewrite !filter_In.
  destruct (PlayerCountByWorld.timestamp r) as [t|]; split.
  - intros [[Hr H1] H2]. split; [exact Hr|]. exists t. auto.
  - intros [Hr (t' & E & H1 & H2)]. inversion E; subst t'. auto.
  - intros [[_ H] _]. discriminate.
  - intros [_ (t' & E & _)]. discriminate.
Qed.

Lemma yesterday_main_unfold (session : Session) (today yesterday : Date) :
  previous_day today = Some yesterday ->
  QueryYesterday.main session today
  = match max_timestamp
            (map PlayerCountByWorld.timestamp
               (rows_from_until session (midnight yesterday) (midnight today))) with
    | None => QueryYesterday.NoData yesterday
    | Some latest_ts =>
        let rows :=
          filter (fun r => timestamp_is latest_ts (PlayerCountByWorld.timestamp r))
            (playercountbyworld session) in
        QueryYesterday.LastSnapshot yesterday latest_ts
          (func_sum (map PlayerCountByWorld.players rows))
          (func_sum (map (players_if_type "Free") rows))
          (func_sum (map (players_if_type "Members") rows))
    end.
Proof. intros H. unfold QueryYesterday.main. now rewrite H. Qed.

(** The report says "no data" exactly when no stored timestamp has
    yesterday's date. *)
Theorem yesterday_no_data_iff (session : Session) (today yesterday : Date) :
  valid_date today = true ->
  valid_timestamps session ->
  previous_day today = Some yesterday ->
  (QueryYesterday.main session today = QueryYesterday.NoData yesterday <->
   forall r t, In r (playercountbyworld session) ->
               PlayerCountByWorld.timestamp r = Some t ->
               date_of t <> yesterday).
Proof.
  intros Hv Hts Hp. rewrite (yesterday_main_unfold _ _ _ Hp).
  destruct (max_timestamp
              (map PlayerCountByWorld.timestamp
                 (rows_from_until session (midnight yesterday) (midnight today))))
    as [m|] eqn:E.
  - split; [discriminate|]. intros H. exfalso.
    destruct (max_timestamp_some _ _ E) as [Hin _].
    apply in_map_iff in Hin as (r & Hr_ts & Hr).
    apply rows_from_until_In in Hr as [Hr (t & Et & H1 & H2)].
    rewrite Et in Hr_ts. inversion Hr_ts; subst t.
    apply (H r m Hr Et).
    apply (within_yesterday today yesterday m Hv (Hts _ _ Hr Et) Hp). auto.
  - split; [|reflexivity]. intros _ r t Hr Et Hdate.
    rewrite max_timestamp_none in E.
    apply (within_yesterday today yesterday t Hv (Hts _ _ Hr Et) Hp) in Hdate.
    assert (Hin : In r (rows_from_until session (midnight yesterday) (midnight today))).
    { apply rows_from_until_In. split; [exact Hr|]. exists t. tauto. }
    specialize (E _ (in_map PlayerCountByWorld.timestamp _ _ Hin)). congruence.
Qed.

(** When some stored timestamp has yesterday's date, the report names
    the latest of them: a stored timestamp of yesterday's date that none
    of that date exceeds. *)
Theorem yesterday_reports_latest (session : Session) (today yesterday : Date) :
  valid_date today = true ->
  valid_timestamps session ->
  previous_day today = Some yesterday ->
  (exists r t, In r (playercountbyworld session) /\
               PlayerCountByWorld.timestamp r = Some t /\ date_of t = yesterday) ->
  exists latest total free members,
    QueryYesterday.main session today
    = QueryYesterday.LastSnapshot yesterday latest total free members /\
    date_of latest = yesterday /\
    (exists r, In r (playercountbyworld session) /\
               PlayerCountByWorld.timestamp r = Some latest) /\
    (forall r t, In r (playercountbyworld session) ->
                 PlayerCountByWorld.timestamp r = Some t ->
                 date_of t = yesterday -> datetime_leb t latest = true).
Proof.
  intros Hv Hts Hp (r0 & t0 & Hr0 & Et0 & Hd0).
  rewrite (yesterday_main_unfold _ _ _ Hp).
  assert (Hin0 : In r0 (rows_from_until session (midnight yesterday) (midnight today))).
  { apply rows_from_until_In. split; [exact Hr0|]. exists t0.
    apply (within_yesterday today yesterday t0 Hv (Hts _ _ Hr0 Et0) Hp) in Hd0.
    tauto. }
  destruct (max_timestamp
              (map PlayerCountByWorld.timestamp
                 (rows_from_until session (midnight yesterday) (midnight today))))
    as [m|] eqn:E.
  - destruct (max_timestamp_some _ _ E) as [Hin Hmax].
    apply in_map_iff in Hin as (r & Hr_ts & Hr).
    apply rows_from_until_In in Hr as [Hr (t & Et & H1 & H2)].
    rewrite Et in Hr_ts. inversion Hr_ts; subst t.
    eexists m, _, _, _. split; [reflexivity|]. split; [|split].
    + apply (within_yesterday today yesterday m Hv (Hts _ _ Hr Et) Hp). auto.
    + eauto.
    + intros r' t' Hr' Et' Hd'. apply Hmax.
      rewrite <- Et'. apply in_map. apply rows_from_until_In.
      split; [exact Hr'|]. exists t'.
      apply (within_yesterday today yesterday t' Hv (Hts _ _ Hr' Et') Hp) in Hd'.
      tauto.
  - rewrite max_timestamp_none in E.
    specialize (E _ (in_map PlayerCountByWorld.timestamp _ _ Hin0)). congruence.
Qed.

(** The store of the scrape of 10:37 and the day after it. *)
Lemma yesterday_reports_latest_witness :
  valid_date (mkDate 2024 1 16) = true /\
  valid_timestamps (mkSession [] scrape_at_10_37) /\
  previous_day (mkDate 2024 1 16) = Some (mkDate 2024 1 15) /\
  exists latest total free members,
    QueryYesterday.main (mkSession [] scrape_at_10_37) (mkDate 2024 1 16)
    = QueryYesterday.LastSnapshot (mkDate 2024 1 15) latest total free members /\
    date_of latest = mkDate 2024 1 15.
Proof.
  assert (Hts : valid_timestamps (mkSession [] scrape_at_10_37)).
  { intros r t. simpl. intros [<-|[<-|[<-|[]]]] H; inversion H; reflexivity. }
  split; [reflexivity|]. split; [exact Hts|]. split; [reflexivity|].
  destruct (yesterday_reports_latest (mkSession [] scrape_at_10_37)
              (mkDate 2024 1 16) (mkDate 2024 1 15) eq_refl Hts eq_refl)
    as (latest & total & free & members & Hmain & Hdate & _).
  - eexists. exists at_10_37. split; [left; reflexivity|]. split; reflexivity.
  - exists latest, total, free, members. split; [exact Hmain | exact Hdate].
Defined.

Lemma yesterday_no_data_iff_witness :
  valid_date (mkDate 2024 1 17) = true /\
  valid_timestamps (mkSession [] scrape_at_10_37) /\
  previous_day (mkDate 2024 1 17) = Some (mkDate 2024 1 16) /\
  QueryYesterday.main (mkSession [] scrape_at_10_37) (mkDate 2024 1 17)
  = QueryYesterday.NoData (mkDate 2024 1 16).
Proof.
  assert (Hts : valid_timestamps (mkSession [] scrape_at_10_37)).
  { intros r t. simpl. intros [<-|[<-|[<-|[]]]] H; inversion H; reflexivity. }
  split; [reflexivity|]. split; [exact Hts|]. split; [reflexivity|].
  apply (yesterday_no_data_iff (mkSession [] scrape_at_10_37)
           (mkDate 2024 1 17) (mkDate 2024 1 16) eq_refl Hts eq_refl).
  intros r t. simpl. intros [<-|[<-|[<-|[]]]] H; inversion H; discriminate.
Defined.

Lemma players_by_type_split (r : PlayerCountByWorld.t) :
  PlayerCountByWorld.players r
  = players_if_type "Free" r + players_if_type "Members" r + players_if_other r.
Proof.
  unfold players_if_type, players_if_other.
  destruct (PlayerCountByWorld.type r) as [s|]; [|lia].
  destruct (String.eqb_spec s "Free") as [->|E1]; simpl; [lia|].
  destruct (String.eqb s "Members"); lia.
Qed.

Lemma Zsum_nonneg {A : Type} (f : A -> Z) (l : list A) :
  (forall x, In x l -> 0 <= f x) -> 0 <= Zsum (map f l).
Proof.
  induction l as [|x l IH]; intros H; [unfold Zsum; simpl; lia|].
  change (Zsum (map f (x :: l))) with (f x + Zsum (map f l)).
  pose proof (H x (or_introl eq_refl)).
  pose proof (IH (fun y Hy => H y (or_intror Hy))). lia.
Qed.

(** The three sums of a report are integers; the total is the sum of the
    players of the snapshot at the reported instant, and it splits into
    the Free sum, the Members sum and the players of the rows of any other
    type, so that Free and Members never exceed the total when no stored
    count is negative. *)
Theorem yesterday_sums (session : Session) (today yesterday : Date)
    (latest : DateTime) (total free members : SqlValue) :
  QueryYesterday.main session today
  = QueryYesterday.LastSnapshot yesterday latest total free members ->
  exists T F M,
    total = SqlInteger T /\ free = SqlInteger F /\ members = SqlInteger M /\
    T = Zsum (map row_players (world_snapshot session (Some latest))) /\
    T = F + M
        + Zsum (map players_if_other
                  (filter (fun r => timestamp_is latest (PlayerCountByWorld.timestamp r))
                     (playercountbyworld session))) /\
    ((forall r, In r (playercountbyworld session) ->
                0 <= PlayerCountByWorld.players r) ->
     F + M <= T).
Proof.
  unfold QueryYesterday.main.
  destruct (previous_day today) as [y|]; [|discriminate].
  destruct (max_timestamp _) as [m|] eqn:E; [|discriminate].
  intros H. inversion H; subst yesterday latest total free members. clear H.
  destruct (max_timestamp_some _ _ E) as [Hin _].
  apply in_map_iff in Hin as (r0 & Ets & Hr0).
  apply filter_In in Hr0 as [Hr0 _]. apply filter_In in Hr0 as [Hr0 _].
  set (rows := filter (fun r => timestamp_is m (PlayerCountByWorld.timestamp r))
                 (playercountbyworld session)).
  assert (Hne : rows <> []).
  { intros En.
    assert (Hmem : In r0 rows).
    { apply filter_In. split; [exact Hr0|]. now apply timestamp_is_iff. }
    rewrite En in Hmem. destruct Hmem. }
  rewrite !func_sum_not_nil by (now apply map_not_nil).
  eexists _, _, _. split; [reflexivity|]. split; [reflexivity|].
  split; [reflexivity|].
  assert (Hsplit : Zsum (map PlayerCountByWorld.players rows)
                   = Zsum (map (players_if_type "Free") rows)
                     + Zsum (map (players_if_type "Members") rows)
                     + Zsum (map players_if_other rows)).
  { rewrite <- !Zsum_map_add. apply Zsum_map_ext.
    intros r _. apply players_by_type_split. }
  split; [|split].
  - unfold world_snapshot. fold rows.
    rewrite (Zsum_perm _ _ (Permutation_map _ (order_by_desc_perm _ _))).
    now rewrite map_map.
  - exact Hsplit.
  - intros Hpos. rewrite Hsplit.
    assert (0 <= Zsum (map players_if_other rows)).
    { apply Zsum_nonneg. intros r Hr. apply filter_In in Hr as [Hr _].
      specialize (Hpos r Hr). unfold players_if_other.
      destruct (PlayerCountByWorld.type r) as [s|]; [|exact Hpos].
      destruct (String.eqb s "Free" || String.eqb s "Members"); lia. }
    lia.
Qed.

Lemma yesterday_sums_witness :
  QueryYesterday.main (mkSession [] scrape_at_10_37) (mkDate 2024 1 16)
  = QueryYesterday.LastSnapshot (mkDate 2024 1 15) at_10_37
      (SqlInteger 1190) (SqlInteger 120) (SqlInteger 1070) /\
  exists T F M,
    SqlInteger 1190 = SqlInteger T /\ SqlInteger 120 = SqlInteger F /\
    SqlInteger 1070 = SqlInteger M /\ F + M <= T.
Proof.
  assert (Hmain : QueryYesterday.main (mkSession [] scrape_at_10_37) (mkDate 2024 1 16)
                  = QueryYesterday.LastSnapshot (mkDate 2024 1 15) at_10_37
                      (SqlInteger 1190) (SqlInteger 120) (SqlInteger 1070))
    by (vm_compute; reflexivity).
  split; [exact Hmain|].
  destruct (yesterday_sums _ _ _ _ _ _ _ Hmain)
    as (T & F & M & HT & HF & HM & _ & _ & Hle).
  exists T, F, M. repeat (split; [assumption|]).
  apply Hle. simpl. intros r [<-|[<-|[<-|[]]]]; simpl; lia.
Defined.

(** * Further properties of the queries, continued *)

(** ** Order of the summed series, timestamps of a snapshot *)

(** The rows of [player_count_by_type] and [player_count_by_region] come
    by ascending bucket. *)
Theorem sums_come_by_ascending_bucket (dv : DivisionRendering)
    (session : Session) (start end_ : DateTime) (g : Granularity)
    (agg : string) :
  exists by_type by_region,
    player_count_by_type dv session start end_ (Granularity_value g) agg
      = Ok by_type /\
    player_count_by_region dv session start end_ (Granularity_value g) agg
      = Ok by_region /\
    StronglySorted
      (fun a b => sql_compare (bucket_of a) (bucket_of b) <> Gt) by_type /\
    StronglySorted
      (fun a b => sql_compare (bucket_of a) (bucket_of b) <> Gt) by_region.
Proof.
  destruct (time_bucket_total dv g) as (bucket & Hb).
  unfold player_count_by_type, player_count_by_region.
  rewrite Hb. cbn [bind].
  eexists. eexists. split; [reflexivity|]. split; [reflexivity|].
  assert (Hgen : forall (group : PlayerCountByWorld.t -> SqlValue)
                        (src : list PlayerCountByWorld.t),
             StronglySorted
               (fun a b => sql_compare (bucket_of a) (bucket_of b) <> Gt)
               (map (fun g0 => (fst g0, func_sum (map PlayerCountByWorld.players (snd g0))))
                  (group_by pair_compare
                     (fun r => (bucket (PlayerCountByWorld.timestamp r), group r))
                     src))).
  { intros group src.
    pose proof (group_by_sorted
                  (fun r => (bucket (PlayerCountByWorld.timestamp r), group r))
                  pair_compare_ordering src) as Hs.
    remember (group_by pair_compare
                (fun r => (bucket (PlayerCountByWorld.timestamp r), group r)) src)
      as groups eqn:Eg. clear Eg.
    induction groups as [|[k rows] groups IH]; simpl; [constructor|].
    simpl in Hs. inversion Hs as [|? ? Hs' Hall]; subst.
    constructor; [now apply IH|].
    rewrite Forall_forall in *. intros row Hrow.
    apply in_map_iff in Hrow as ([k' rows'] & <- & Hin).
    specialize (Hall k' (in_map fst _ _ Hin)).
    unfold below, pair_compare in Hall. unfold bucket_of. simpl.
    destruct (sql_compare (fst k) (fst k')); simpl in Hall; congruence. }
  split; apply Hgen.
Qed.

(** A snapshot never mixes scrapes: all its rows carry one timestamp,
    the one asked for when one is given. *)
Theorem snapshot_rows_share_one_timestamp (session : Session)
    (timestamp : option DateTime) :
  (exists ts, forall row, In row (world_snapshot session timestamp) ->
                          row_timestamp row = Some ts) /\
  (forall ts row, timestamp = Some ts ->
                  In row (world_snapshot session timestamp) ->
                  row_timestamp row = Some ts).
Proof.
  assert (Hat : forall ts row,
             In row (order_by_desc (fun r => SqlInteger (row_players r))
                       (map snapshot_columns
                          (filter (fun r => timestamp_is ts (PlayerCountByWorld.timestamp r))
                             (playercountbyworld session)))) ->
             row_timestamp row = Some ts).
  { intros ts row Hrow.
    apply (Permutation_in _ (order_by_desc_perm _ _)) in Hrow.
    apply in_map_iff in Hrow as (r & <- & Hr).
    apply filter_In in Hr as [_ Hr]. now apply timestamp_is_iff in Hr. }
  split.
  - unfold world_snapshot.
    destruct (match timestamp with
              | Some ts => Some ts
              | None => max_timestamp
                          (map PlayerCountByWorld.timestamp (playercountbyworld session))
              end) as [ts|].
    + exists ts. apply Hat.
    + exists at_10_37. intros row [].
  - intros ts row ->. apply Hat.
Qed.

(** ** Peaks when rows are added *)

Lemma grouped_max_monotone {R : Type} (key : R -> SqlValue) (value : R -> Z)
    (src src' : list R) (k v : SqlValue) :
  (forall r, not_real (key r)) ->
  (forall r, In r src -> In r src') ->
  In (k, v) (grouped_series key value func_max src) ->
  exists m m', v = SqlInteger m /\
               In (k, SqlInteger m') (grouped_series key value func_max src') /\
               m <= m'.
Proof.
  intros Hnr Hsub Hin.
  apply grouped_series_inv in Hin as (-> & Hne & r0 & Hr0 & Hk0).
  destruct (func_max_spec _ (map_not_nil value _ Hne)) as (m & Em & Hm & _).
  apply in_map_iff in Hm as (r & Hval & Hr).
  apply rows_of_In in Hr as [Hr Hrk].
  destruct (grouped_series_complete key value func_max src' r0 (Hsub _ Hr0))
    as (k' & Hin' & E').
  assert (Hkk : k = k').
  { destruct (grouped_series_inv _ _ _ _ _ _ Hin') as (_ & _ & r1 & _ & Hk1).
    rewrite Hk0 in E'. apply sql_compare_eq; [| |exact E'].
    - rewrite <- Hk0. apply Hnr.
    - rewrite <- Hk1. apply Hnr. }
  subst k'.
  assert (Hin_c : In r (rows_of sql_compare key k src'))
    by (apply rows_of_In; auto).
  assert (Hne_c : map value (rows_of sql_compare key k src') <> []).
  { apply map_not_nil. intros E. rewrite E in Hin_c. destruct Hin_c. }
  destruct (func_max_spec _ Hne_c) as (m' & Em' & _ & Hall).
  exists m, m'. split; [exact Em|]. split.
  - rewrite <- Em'. exact Hin'.
  - rewrite Forall_forall in Hall. rewrite <- Hval. apply Hall. now apply in_map.
Qed.

(** Writing more rows never lowers a peak: every bucket of a world's
    PEAK series is still a bucket after rows are added to the store, with
    a value at least as great. *)
Theorem peak_never_decreases_when_rows_are_added (dv : DivisionRendering)
    (session : Session) (batch : list PlayerCountByWorld.t) (world : string)
    (start end_ : DateTime) (g : Granularity) :
  exists before after,
    player_count_by_world dv session world start end_
      (Granularity_value g) (Aggregation_value PEAK) = Ok before /\
    player_count_by_world dv (add_all session batch) world start end_
      (Granularity_value g) (Aggregation_value PEAK) = Ok after /\
    forall k v, In (k, v) before ->
      exists m m', v = SqlInteger m /\ In (k, SqlInteger m') after /\ m <= m'.
Proof.
  destruct (time_bucket_total dv g) as (bucket & Hb).
  unfold player_count_by_world. rewrite Hb. cbn [bind].
  change (_agg_func (Aggregation_value PEAK)) with func_max.
  eexists. eexists. split; [reflexivity|]. split; [reflexivity|].
  unfold add_all. cbn [playercountbyworld].
  set (selected := fun r => String.eqb (PlayerCountByWorld.world r) world
                            && between start end_ (PlayerCountByWorld.timestamp r)).
  intros k v Hin.
  apply (grouped_max_monotone
           (fun r => bucket (PlayerCountByWorld.timestamp r))
           PlayerCountByWorld.players
           (filter selected (playercountbyworld session))
           (filter selected (playercountbyworld session ++ batch)) k v);
    [| |exact Hin].
  - intros r. eapply time_bucket_not_real; exact Hb.
  - intros r Hr. rewrite filter_app. apply in_or_app. now left.
Qed.

(** * Series and sums over calendar windows *)

Lemma filter_filter_and {A : Type} (p q : A -> bool) (l : list A) :
  filter p (filter q l) = filter (fun x => q x && p x) l.
Proof.
  induction l as [|x l IH]; simpl; [reflexivity|].
  destruct (q x); simpl; [destruct (p x)|]; now rewrite ?IH.
Qed.

Section WindowGroups.
Context {R : Type} (timestamp : R -> option DateTime) (value : R -> Z).
Variable dv : DivisionRendering.
Variable g : Granularity.
Variable bucket : option DateTime -> SqlValue.
Hypothesis formatted_g : formatted g.
Hypothesis bucket_of_g : _time_bucket dv (Granularity_value g) = Ok bucket.

(** Two keys compare as the windows of their instants do. *)
Lemma bucket_compare_window (t1 t2 : DateTime) :
  calendar_instant g t1 -> calendar_instant g t2 ->
  sql_compare (bucket (Some t1)) (bucket (Some t2))
  = list_compare (window g t1) (window g t2).
Proof.
  intros (Hv1 & _ & Hr1) (Hv2 & _ & Hr2).
  destruct (formatted_bucket_compare dv g t1 t2 formatted_g
              (fun E => conj (Hr1 E) (Hr2 E)) Hv1 Hv2)
    as (bucket' & s1 & s2 & Hb & E1 & E2 & Hcmp).
  rewrite bucket_of_g in Hb. inversion Hb; subst bucket'.
  rewrite E1, E2. exact Hcmp.
Qed.

Variable src : list R.
Hypothesis stamped : forall r, In r src -> exists t, timestamp r = Some t.
Hypothesis calendar : calendar_timestamps timestamp g src.

Lemma bucket_eq_window (r1 r2 : R) (t1 t2 : DateTime) :
  In r1 src -> timestamp r1 = Some t1 ->
  In r2 src -> timestamp r2 = Some t2 ->
  (bucket (Some t1) = bucket (Some t2) <-> window g t1 = window g t2).
Proof.
  intros H1 E1 H2 E2.
  rewrite <- (same_bucket_eq dv _ bucket _ _ bucket_of_g).
  rewrite bucket_compare_window
    by (first [exact (calendar _ _ H1 E1) | exact (calendar _ _ H2 E2)]).
  apply list_compare_eq.
Qed.

(** The group of a key is the set of selected rows of its window. *)
Lemma rows_of_window (r : R) (t : DateTime) :
  In r src -> timestamp r = Some t ->
  rows_of sql_compare (fun r => bucket (timestamp r)) (bucket (Some t)) src
  = rows_in_window timestamp g (window g t) src.
Proof.
  intros Hr Et. unfold rows_of, rows_in_window.
  apply filter_ext_in. intros r' Hr'.
  destruct (stamped r' Hr') as (t' & Et'). rewrite Et'.
  now rewrite bucket_compare_window
    by (first [exact (calendar _ _ Hr' Et') | exact (calendar _ _ Hr Et)]).
Qed.

Lemma series_by_window_of_groups (a : Aggregation) :
  series_by_window a g bucket timestamp value src
    (map (fun grp => (fst grp, _agg_func (Aggregation_value a) (map value (snd grp))))
       (group_by sql_compare (fun r => bucket (timestamp r)) src)).
Proof.
  pose proof sql_compare_ordering as ord.
  split; [|split; [|split]].
  - intros k v Hin. apply in_map_iff in Hin as ([k' grp] & Heq & Hin).
    simpl in Heq. inversion Heq; subst k' v. clear Heq.
    destruct (group_by_sound _ ord _ _ _ Hin) as (-> & Hne & r & Hr & Hk).
    destruct (stamped r Hr) as (t & Et).
    exists r, t. rewrite Et in Hk. subst k.
    repeat (split; [assumption || reflexivity|]).
    rewrite <- (rows_of_window r t Hr Et).
    apply agg_func_spec. now apply map_not_nil.
  - intros r t Hr Et.
    destruct (group_by_complete (fun r => bucket (timestamp r)) ord _ _ Hr)
      as (k & Hin & E).
    destruct (group_by_sound _ ord _ _ _ Hin) as (_ & _ & r' & _ & Hk).
    rewrite <- Hk in E.
    apply (same_bucket_eq dv _ bucket _ _ bucket_of_g) in E.
    rewrite Et, Hk in E. subst k.
    eexists. apply in_map_iff.
    eexists. split; [|exact Hin]. reflexivity.
  - intros r1 t1 r2 t2. apply bucket_eq_window.
  - unfold ascending. rewrite map_map. simpl.
    change (map (fun x : SqlValue * list R => fst x)
              (group_by sql_compare (fun r => bucket (timestamp r)) src))
      with (map fst (group_by sql_compare (fun r => bucket (timestamp r)) src)).
    apply (group_by_sorted _ ord).
Qed.

Variable group : R -> SqlValue.
Hypothesis group_not_real : forall r, not_real (group r).

Lemma rows_in_window_and_group_eq (r : R) (t : DateTime) (c : SqlValue) :
  In r src -> timestamp r = Some t ->
  rows_in (fun r => bucket (timestamp r)) group (bucket (Some t)) c src
  = rows_in_window_and_group timestamp group g (window g t) c src.
Proof.
  intros Hr Et. unfold rows_in, rows_in_window_and_group, rows_in_window.
  rewrite filter_filter_and.
  apply filter_ext_in. intros r' Hr'. cbv beta.
  destruct (stamped r' Hr') as (t' & Et'). rewrite Et'.
  now rewrite bucket_compare_window
    by (first [exact (calendar _ _ Hr' Et') | exact (calendar _ _ Hr Et)]).
Qed.

Lemma sums_by_window_of_groups :
  sums_by_window g bucket timestamp group value src
    (map (fun grp => (fst grp, func_sum (map value (snd grp))))
       (group_by pair_compare (fun r => (bucket (timestamp r), group r)) src)).
Proof.
  pose proof pair_compare_ordering as ord.
  split; [|split; [|split]].
  - intros b c v Hin. apply in_map_iff in Hin as ([k grp] & Heq & Hin).
    simpl in Heq. inversion Heq; subst k v. clear Heq.
    destruct (group_by_sound _ ord _ _ _ Hin) as (-> & Hne & r & Hr & Hk).
    destruct (stamped r Hr) as (t & Et).
    injection Hk as Hb Hc. rewrite Et in Hb. subst b c.
    exists r, t.
    split; [exact Hr|]. split; [exact Et|].
    split; [reflexivity|]. split; [reflexivity|].
    rewrite rows_of_pair in *.
    rewrite func_sum_not_nil by now apply map_not_nil.
    now rewrite (rows_in_window_and_group_eq r t _ Hr Et).
  - intros r t Hr Et.
    destruct (group_by_complete (fun r => (bucket (timestamp r), group r))
                ord _ _ Hr) as ([b c] & Hin & E).
    destruct (group_by_sound _ ord _ _ _ Hin) as (_ & _ & r' & _ & Hk).
    injection Hk as Hb Hc.
    unfold pair_compare in E. cbn [fst snd] in E.
    destruct (sql_compare (bucket (timestamp r)) b) eqn:Eb;
      simpl in E; try discriminate.
    rewrite <- Hb in Eb.
    apply (same_bucket_eq dv _ bucket _ _ bucket_of_g) in Eb.
    apply sql_compare_eq in E;
      [|apply group_not_real | rewrite <- Hc; apply group_not_real].
    eexists. apply in_map_iff.
    eexists. split; [|exact Hin]. cbn [fst].
    rewrite <- Et, Eb, Hb, E. reflexivity.
  - intros r1 t1 r2 t2. apply bucket_eq_window.
  - rewrite map_map. simpl.
    change (map (fun x : SqlValue * SqlValue * list R => fst x)
              (group_by pair_compare
                 (fun r => (bucket (timestamp r), group r)) src))
      with (map fst (group_by pair_compare
                       (fun r => (bucket (timestamp r), group r)) src)).
    apply (group_by_sorted _ ord).
Qed.
End WindowGroups.

Lemma between_stamped (start end_ : DateTime) (col : option DateTime) :
  between start end_ col = true -> exists t, col = Some t.
Proof. destruct col as [t|]; [eauto | discriminate]. Qed.

(** For HOURLY, DAILY and MONTHLY, and for WEEKLY when no stored instant
    lies in the last half millisecond of a day, on a store whose instants
    the engine can format, the three series return
    one row per window that holds a selected observation: the row is
    keyed by the bucket of the window and carries the arithmetic mean of
    the counts of all selected observations of the window under AVERAGE,
    their maximum under PEAK; the rows come by ascending bucket. *)
Theorem series_by_calendar_window (dv : DivisionRendering) (session : Session)
    (game world : string) (start end_ : DateTime) (g : Granularity)
    (a : Aggregation) :
  formatted g ->
  calendar_timestamps PlayerCount.timestamp g (playercount session) ->
  calendar_timestamps PlayerCountByWorld.timestamp g (playercountbyworld session) ->
  exists bucket,
    _time_bucket dv (Granularity_value g) = Ok bucket /\
    (exists out,
       player_count_timeseries dv session game start end_
         (Granularity_value g) (Aggregation_value a) = Ok out /\
       series_by_window a g bucket PlayerCount.timestamp
         PlayerCount.player_count
         (filter (fun r => String.eqb (PlayerCount.game r) game
                           && between start end_ (PlayerCount.timestamp r))
            (playercount session))
         out) /\
    (exists out,
       combined_total_timeseries dv session start end_
         (Granularity_value g) (Aggregation_value a) = Ok out /\
       series_by_window a g bucket PlayerCount.timestamp
         PlayerCount.player_count
         (filter (fun r => between start end_ (PlayerCount.timestamp r))
            (playercount session))
         out) /\
    (exists out,
       player_count_by_world dv session world start end_
         (Granularity_value g) (Aggregation_value a) = Ok out /\
       series_by_window a g bucket PlayerCountByWorld.timestamp
         PlayerCountByWorld.players
         (filter (fun r => String.eqb (PlayerCountByWorld.world r) world
                           && between start end_ (PlayerCountByWorld.timestamp r))
            (playercountbyworld session))
         out).
Proof.
  intros Hg Hc1 Hc2.
  destruct (time_bucket_total dv g) as (bucket & Hb).
  exists bucket. split; [exact Hb|].
  unfold player_count_timeseries, combined_total_timeseries,
    player_count_by_world.
  rewrite Hb. cbn [bind].
  split; [|split]; eexists; (split; [reflexivity|]);
    apply (series_by_window_of_groups _ _ dv g bucket Hg Hb);
    try (intros r Hr; apply filter_In in Hr as [_ Hr];
         rewrite ?andb_true_iff in Hr;
         apply (between_stamped start end_); tauto);
    intros r t Hr; apply filter_In in Hr as [Hr _];
    first [now apply Hc1 | now apply Hc2].
Qed.

(** At DAILY granularity the observations of 10:00 and 11:00 share a day
    and that of June has its own. *)
Example daily_series_of_three_windows :
  player_count_by_world PlainSlash three_windows_apart "301"
    (mkDateTime 2024 1 1 0 0 0 0) (mkDateTime 2024 12 31 0 0 0 0)
    (Granularity_value DAILY) (Aggregation_value AVERAGE)
  = Ok [ (SqlText "2024-01-15", SqlReal 15); (SqlText "2024-06-01", SqlReal 99) ].
Proof. vm_compute. reflexivity. Qed.

Lemma series_by_calendar_window_witness :
  formatted WEEKLY /\
  calendar_timestamps PlayerCount.timestamp WEEKLY
    (playercount three_windows_apart) /\
  calendar_timestamps PlayerCountByWorld.timestamp WEEKLY
    (playercountbyworld three_windows_apart) /\
  exists bucket out,
    _time_bucket PlainSlash (Granularity_value WEEKLY) = Ok bucket /\
    player_count_by_world PlainSlash three_windows_apart "301"
      (mkDateTime 2024 1 1 0 0 0 0) (mkDateTime 2024 12 31 0 0 0 0)
      (Granularity_value WEEKLY) (Aggregation_value AVERAGE) = Ok out /\
    series_by_window AVERAGE WEEKLY bucket PlayerCountByWorld.timestamp
      PlayerCountByWorld.players
      (filter (fun r => String.eqb (PlayerCountByWorld.world r) "301"
                        && between (mkDateTime 2024 1 1 0 0 0 0)
                             (mkDateTime 2024 12 31 0 0 0 0)
                             (PlayerCountByWorld.timestamp r))
         (playercountbyworld three_windows_apart))
      out.
Proof.
  assert (Hg : formatted WEEKLY) by (right; right; left; reflexivity).
  assert (Hc1 : calendar_timestamps PlayerCount.timestamp WEEKLY
                  (playercount three_windows_apart))
    by (intros r t [<-|[<-|[<-|[]]]] E; inversion E;
        (split; [reflexivity | split; [reflexivity | intros _; reflexivity]])).
  assert (Hc2 : calendar_timestamps PlayerCountByWorld.timestamp WEEKLY
                  (playercountbyworld three_windows_apart))
    by (intros r t [<-|[<-|[<-|[]]]] E; inversion E;
        (split; [reflexivity | split; [reflexivity | intros _; reflexivity]])).
  split; [exact Hg|]. split; [exact Hc1|]. split; [exact Hc2|].
  destruct (series_by_calendar_window PlainSlash three_windows_apart "OSRS" "301"
              (mkDateTime 2024 1 1 0 0 0 0) (mkDateTime 2024 12 31 0 0 0 0)
              WEEKLY AVERAGE Hg Hc1 Hc2)
    as (bucket & Hb & _ & _ & out & Hout & Hseries).
  exists bucket, out. split; [exact Hb|]. split; [exact Hout | exact Hseries].
Defined.

(** Under the same conditions [player_count_by_type] and
    [player_count_by_region] return one row per window and type, or
    region, that holds a selected world row, with the sum of the players
    of all selected rows of that window and group; the rows come by
    ascending bucket and group. *)
Theorem sums_by_calendar_window (dv : DivisionRendering) (session : Session)
    (start end_ : DateTime) (g : Granularity) (agg : string) :
  formatted g ->
  calendar_timestamps PlayerCountByWorld.timestamp g (playercountbyworld session) ->
  exists bucket,
    _time_bucket dv (Granularity_value g) = Ok bucket /\
    (exists out,
       player_count_by_type dv session start end_ (Granularity_value g) agg
         = Ok out /\
       sums_by_window g bucket PlayerCountByWorld.timestamp
         (fun r => text_column (PlayerCountByWorld.type r))
         PlayerCountByWorld.players
         (filter (fun r => between start end_ (PlayerCountByWorld.timestamp r))
            (playercountbyworld session))
         out) /\
    (exists out,
       player_count_by_region dv session start end_ (Granularity_value g) agg
         = Ok out /\
       sums_by_window g bucket PlayerCountByWorld.timestamp
         (fun r => text_column (PlayerCountByWorld.location r))
         PlayerCountByWorld.players
         (filter (fun r => between start end_ (PlayerCountByWorld.timestamp r))
            (playercountbyworld session))
         out).
Proof.
  intros Hg Hc.
  destruct (time_bucket_total dv g) as (bucket & Hb).
  exists bucket. split; [exact Hb|].
  unfold player_count_by_type, player_count_by_region.
  rewrite Hb. cbn [bind].
  split; eexists; (split; [reflexivity|]);
    apply (sums_by_window_of_groups _ _ dv g bucket Hg Hb);
    try (intros r; apply text_column_not_real);
    try (intros r Hr; apply filter_In in Hr as [_ Hr];
         now apply (between_stamped start end_));
    intros r t Hr; apply filter_In in Hr as [Hr _]; now apply Hc.
Qed.

(** At DAILY granularity the three readings of the Free world make two
    sums, 30 on 15 January and 99 on 1 June. *)
Example daily_sums_of_three_windows :
  player_count_by_type PlainSlash three_windows_apart
    (mkDateTime 2024 1 1 0 0 0 0) (mkDateTime 2024 12 31 0 0 0 0)
    (Granularity_value DAILY) (Aggregation_value AVERAGE)
  = Ok [ (SqlText "2024-01-15", SqlText "Free", SqlInteger 30);
         (SqlText "2024-06-01", SqlText "Free", SqlInteger 99) ].
Proof. vm_compute. reflexivity. Qed.

Lemma sums_by_calendar_window_witness :
  formatted MONTHLY /\
  calendar_timestamps PlayerCountByWorld.timestamp MONTHLY
    (playercountbyworld three_windows_apart) /\
  exists bucket out,
    _time_bucket PlainSlash (Granularity_value MONTHLY) = Ok bucket /\
    player_count_by_type PlainSlash three_windows_apart
      (mkDateTime 2024 1 1 0 0 0 0) (mkDateTime 2024 12 31 0 0 0 0)
      (Granularity_value MONTHLY) (Aggregation_value PEAK) = Ok out /\
    sums_by_window MONTHLY bucket PlayerCountByWorld.timestamp
      (fun r => text_column (PlayerCountByWorld.type r))
      PlayerCountByWorld.players
      (filter (fun r => between (mkDateTime 2024 1 1 0 0 0 0)
                          (mkDateTime 2024 12 31 0 0 0 0)
                          (PlayerCountByWorld.timestamp r))
         (playercountbyworld three_windows_apart))
      out.
Proof.
  assert (Hg : formatted MONTHLY) by (right; right; right; reflexivity).
  assert (Hc : calendar_timestamps PlayerCountByWorld.timestamp MONTHLY
                 (playercountbyworld three_windows_apart))
    by (intros r t [<-|[<-|[<-|[]]]] E; inversion E;
        (split; [reflexivity | split; [reflexivity | intros _; reflexivity]])).
  split; [exact Hg|]. split; [exact Hc|].
  destruct (sums_by_calendar_window PlainSlash three_windows_apart
              (mkDateTime 2024 1 1 0 0 0 0) (mkDateTime 2024 12 31 0 0 0 0)
              MONTHLY (Aggregation_value PEAK) Hg Hc)
    as (bucket & Hb & (out & Hout & Hsums) & _).
  exists bucket, out. split; [exact Hb|]. split; [exact Hout | exact Hsums].
Defined.
